(** * npmleaderboard: the package-enrichment pipelines

    A shallow embedding of [processPackagesInfo.py] (class
    [NPMPackageProcessor], module [Processor] below) and of
    [scripts/updateExistingPackages.py] (class [NPMPackageUpdater], module
    [Updater] below), with the properties of the bounded fetch scheduler,
    of the per-package fetch/compose pipeline and of the two weekly
    bucketing loops.

    Layout: Python values and exceptions ([Py]), the part of [datetime] the
    scripts use ([Datetime]), coroutines as a writer/exception monad over
    the events a scheduler can observe ([Async]), the two scripts, the
    shapes their stages exchange ([Stages]), typed daily series and the
    fixed-chunk policy in the words of the specification ([Series]), the
    interleaving semantics of the event loop ([Loop]), sample upstream
    data ([Examples]), then the theorems. *)

From Stdlib Require Import String Ascii ZArith List Bool Lia Permutation.
From Stdlib Require DecimalString.
Import ListNotations.

Set Warnings "-register-all".

Open Scope string_scope.
Open Scope list_scope.
Open Scope Z_scope.

(* ===================================================================== *)
(** ** Python values, exceptions and the built-in operations used         *)
(* ===================================================================== *)

Module Py.

Notation "s1 +:+ s2" := (String.append s1 s2)
  (at level 60, right associativity).

(** What [response.json()] can decode and what the scripts build from it:
    [None], booleans, integers, strings, lists and dictionaries with string
    keys (in insertion order, as Python keeps them), plus the [datetime]
    the updater stores under [last_updated].  JSON numbers with a fraction
    (Python floats) are outside the model. *)
Inductive value : Type :=
| VNone
| VBool (b : bool)
| VInt (n : Z)
| VStr (s : string)
| VList (items : list value)
| VDict (entries : list (string * value))
| VDatetime (ordinal : Z).

(** Exceptions, by class.  [ClientError] stands for whatever [aiohttp] and
    [asyncio] raise out of [session.get] and [response.json()] (connection
    faults, timeouts, undecodable bodies); its text is the library's.
    [Exception] is the plain [raise Exception(arg)] of the updater. *)
Inductive exn : Type :=
| Exception (arg : value)
| KeyError (key : value)
| TypeError (msg : string)
| AttributeError (msg : string)
| IndexError (msg : string)
| ValueError (msg : string)
| OverflowError (msg : string)
| ClientError (msg : string).

(** A computation either raises or returns. *)
Inductive outcome (A : Type) : Type :=
| Raise (e : exn)
| Return (a : A).
Arguments Raise {A} e.
Arguments Return {A} a.

Definition bind {A B} (m : outcome A) (f : A -> outcome B) : outcome B :=
  match m with
  | Raise e => Raise e
  | Return a => f a
  end.

Definition decimal (n : Z) : string :=
  DecimalString.NilZero.string_of_int (Z.to_int n).

Definition type_name (v : value) : string :=
  match v with
  | VNone => "NoneType"
  | VBool _ => "bool"
  | VInt _ => "int"
  | VStr _ => "str"
  | VList _ => "list"
  | VDict _ => "dict"
  | VDatetime _ => "datetime.datetime"
  end.

Fixpoint join (sep : string) (parts : list string) : string :=
  match parts with
  | [] => ""
  | [p] => p
  | p :: rest => p +:+ sep +:+ join sep rest
  end.

Definition two_digits (n : Z) : string :=
  if n <? 10 then ("0" +:+ decimal n) else decimal n.

Definition four_digits (n : Z) : string :=
  if n <? 10 then ("000" +:+ decimal n)
  else if n <? 100 then ("00" +:+ decimal n)
  else if n <? 1000 then ("0" +:+ decimal n)
  else decimal n.

(** [repr(v)].  A string is shown between single quotes; Python's escaping
    and its switch to double quotes when the text holds a single quote are
    not modelled (the text is exact for keys without quotes, backslashes
    and control characters).  A datetime is shown by its day number. *)
Fixpoint repr (v : value) : string :=
  match v with
  | VNone => "None"
  | VBool true => "True"
  | VBool false => "False"
  | VInt n => decimal n
  | VStr s => "'" +:+ s +:+ "'"
  | VList items => "[" +:+ join ", " (map repr items) +:+ "]"
  | VDict entries =>
      "{" +:+ join ", " (map (fun kv => let '(k, x) := kv in
                                       "'" +:+ k +:+ "': " +:+ repr x) entries)
          +:+ "}"
  | VDatetime o => "datetime.datetime(" +:+ decimal o +:+ ")"
  end.

(** [str(v)], which is also what an f-string writes for [{v}]. *)
Definition str (v : value) : string :=
  match v with
  | VStr s => s
  | _ => repr v
  end.

(** [str(e)] for a caught exception: the text of its argument for a plain
    [Exception], the repr of the key for a [KeyError], the message
    otherwise. *)
Definition str_exn (e : exn) : string :=
  match e with
  | Exception arg => str arg
  | KeyError k => repr k
  | TypeError m | AttributeError m | IndexError m | ValueError m
  | OverflowError m | ClientError m => m
  end.

(** Truth value, as [if v:] and [not v] test it. *)
Definition truthy (v : value) : bool :=
  match v with
  | VNone => false
  | VBool b => b
  | VInt n => negb (n =? 0)
  | VStr s => negb (String.eqb s "")
  | VList items => match items with [] => false | _ => true end
  | VDict entries => match entries with [] => false | _ => true end
  | VDatetime _ => true
  end.

(** Lookup in a dictionary's entries (keys are distinct in a Python dict;
    the first binding is the one found). *)
Fixpoint lookup (k : string) (entries : list (string * value)) : option value :=
  match entries with
  | [] => None
  | (k', x) :: rest => if String.eqb k k' then Some x else lookup k rest
  end.

(** [d.get(k, default)]: only a dictionary has the method. *)
Definition get (d : value) (k : string) (default : value) : outcome value :=
  match d with
  | VDict entries =>
      Return (match lookup k entries with Some x => x | None => default end)
  | _ => Raise (AttributeError
                  ("'" +:+ type_name d +:+ "' object has no attribute 'get'"))
  end.

(** [d.keys()] followed by [list(...)]. *)
Definition keys (d : value) : outcome value :=
  match d with
  | VDict entries => Return (VList (map (fun kv => VStr (fst kv)) entries))
  | _ => Raise (AttributeError
                  ("'" +:+ type_name d +:+ "' object has no attribute 'keys'"))
  end.

(** The index a list or string subscript denotes: negative indices count
    from the end. *)
Definition index_of (len : nat) (i : Z) : option nat :=
  let n := Z.of_nat len in
  if (0 <=? i) && (i <? n) then Some (Z.to_nat i)
  else if (i <? 0) && (- n <=? i) then Some (Z.to_nat (n + i))
  else None.

Fixpoint chars (s : string) : list value :=
  match s with
  | EmptyString => []
  | String c rest => VStr (String c EmptyString) :: chars rest
  end.

Definition not_subscriptable (v : value) : exn :=
  TypeError ("'" +:+ type_name v +:+ "' object is not subscriptable").

(** [v[k]].  A dictionary is looked up by key ([KeyError] when missing,
    [TypeError] for a key that cannot be hashed); a list or a string is
    indexed by an integer (a boolean counts as 0 or 1). *)
Definition getitem (v k : value) : outcome value :=
  match v with
  | VDict entries =>
      match k with
      | VStr s => match lookup s entries with
                  | Some x => Return x
                  | None => Raise (KeyError k)
                  end
      | VList _ | VDict _ =>
          Raise (TypeError ("unhashable type: '" +:+ type_name k +:+ "'"))
      | _ => Raise (KeyError k)
      end
  | VList items =>
      let at_index i :=
        match index_of (length items) i with
        | Some n => match nth_error items n with
                    | Some x => Return x
                    | None => Raise (IndexError "list index out of range")
                    end
        | None => Raise (IndexError "list index out of range")
        end in
      match k with
      | VInt i => at_index i
      | VBool b => at_index (Z.b2z b)
      | _ => Raise (TypeError ("list indices must be integers or slices, not "
                                 +:+ type_name k))
      end
  | VStr s =>
      let at_index i :=
        match index_of (length (chars s)) i with
        | Some n => match nth_error (chars s) n with
                    | Some x => Return x
                    | None => Raise (IndexError "string index out of range")
                    end
        | None => Raise (IndexError "string index out of range")
        end in
      match k with
      | VInt i => at_index i
      | VBool b => at_index (Z.b2z b)
      | _ => Raise (TypeError ("string indices must be integers, not '"
                                 +:+ type_name k +:+ "'"))
      end
  | _ => Raise (not_subscriptable v)
  end.

(** [k in d] for the dictionary the scripts test.  They evaluate it only
    after [d.get] has succeeded on the same object, so the other container
    types never reach it; for them the model raises. *)
Definition contains (k : string) (d : value) : outcome bool :=
  match d with
  | VDict entries =>
      Return (match lookup k entries with Some _ => true | None => false end)
  | _ => Raise (TypeError ("argument of type '" +:+ type_name d
                             +:+ "' is not iterable"))
  end.

(** The elements a [for] loop visits: the items of a list, the keys of a
    dictionary, the characters of a string. *)
Definition iter (v : value) : outcome (list value) :=
  match v with
  | VList items => Return items
  | VDict entries => Return (map (fun kv => VStr (fst kv)) entries)
  | VStr s => Return (chars s)
  | _ => Raise (TypeError ("'" +:+ type_name v +:+ "' object is not iterable"))
  end.

(** [sum(xs)]: starts from 0 and adds from the left; integers and booleans
    add, anything else raises. *)
Fixpoint sum_from (acc : Z) (xs : list value) : outcome Z :=
  match xs with
  | [] => Return acc
  | VInt n :: rest => sum_from (acc + n) rest
  | VBool b :: rest => sum_from (acc + Z.b2z b) rest
  | x :: _ => Raise (TypeError ("unsupported operand type(s) for +: 'int' and '"
                                  +:+ type_name x +:+ "'"))
  end.

Definition sum (xs : list value) : outcome Z := sum_from 0 xs.

End Py.

Import Py.

Declare Scope py_scope.
Delimit Scope py_scope with py.
Notation "x <- m ;; k" := (Py.bind m (fun x => k))
  (at level 100, m at next level, right associativity) : py_scope.

(* ===================================================================== *)
(** ** The part of [datetime] the scripts use                             *)
(* ===================================================================== *)

(** A [datetime] is represented by its proleptic Gregorian day number
    ([toordinal()], 1 for 0001-01-01); the clock is read at day
    granularity.  The conversions follow CPython's [_ymd2ord] and
    [_ord2ymd]. *)
Module Datetime.

Definition MAXORDINAL : Z := 3652059.

Definition is_leap (year : Z) : bool :=
  (year mod 4 =? 0) && (negb (year mod 100 =? 0) || (year mod 400 =? 0)).

Definition days_before_year (year : Z) : Z :=
  let y := year - 1 in y * 365 + y / 4 - y / 100 + y / 400.

Definition DAYS_IN_MONTH (month : Z) : Z :=
  match month with
  | 1 => 31 | 2 => 28 | 3 => 31 | 4 => 30 | 5 => 31 | 6 => 30
  | 7 => 31 | 8 => 31 | 9 => 30 | 10 => 31 | 11 => 30 | 12 => 31
  | _ => -1
  end.

Definition DAYS_BEFORE_MONTH (month : Z) : Z :=
  match month with
  | 1 => 0 | 2 => 31 | 3 => 59 | 4 => 90 | 5 => 120 | 6 => 151
  | 7 => 181 | 8 => 212 | 9 => 243 | 10 => 273 | 11 => 304 | 12 => 334
  | _ => -1
  end.

Definition days_in_month (year month : Z) : Z :=
  if (month =? 2) && is_leap year then 29 else DAYS_IN_MONTH month.

Definition days_before_month (year month : Z) : Z :=
  DAYS_BEFORE_MONTH month + Z.b2z ((2 <? month) && is_leap year).

Definition ymd2ord (year month day : Z) : Z :=
  days_before_year year + days_before_month year month + day.

Definition DI400Y : Z := 146097.
Definition DI100Y : Z := 36524.
Definition DI4Y : Z := 1461.

Definition ord2ymd (ordinal : Z) : Z * Z * Z :=
  let n := ordinal - 1 in
  let n400 := n / DI400Y in
  let n := n mod DI400Y in
  let year := n400 * 400 + 1 in
  let n100 := n / DI100Y in
  let n := n mod DI100Y in
  let n4 := n / DI4Y in
  let n := n mod DI4Y in
  let n1 := n / 365 in
  let n := n mod 365 in
  let year := year + n100 * 100 + n4 * 4 + n1 in
  if (n1 =? 4) || (n100 =? 4) then (year - 1, 12, 31)
  else
    let leapyear := (n1 =? 3) && (negb (n4 =? 24) || (n100 =? 3)) in
    let month := Z.shiftr (n + 50) 5 in
    let preceding := DAYS_BEFORE_MONTH month + Z.b2z ((2 <? month) && leapyear) in
    if n <? preceding then
      let month := month - 1 in
      let preceding :=
        preceding - (DAYS_IN_MONTH month + Z.b2z ((month =? 2) && leapyear)) in
      (year, month, n - preceding + 1)
    else (year, month, n - preceding + 1).

(** [d.weekday()]: Monday is 0, Sunday is 6. *)
Definition weekday (ordinal : Z) : Z := (ordinal + 6) mod 7.

(** [d + timedelta(days=n)] (and [d - timedelta(days=n)] for a negative
    [n]): a result outside 0001-01-01 .. 9999-12-31 is an OverflowError. *)
Definition add_days (ordinal n : Z) : outcome Z :=
  let r := ordinal + n in
  if (1 <=? r) && (r <=? MAXORDINAL) then Return r
  else Raise (OverflowError "date value out of range").

(** [d.strftime('%Y-%m-%d')], with the year on four digits. *)
Definition strftime (ordinal : Z) : string :=
  let '(y, m, d) := ord2ymd ordinal in
  (four_digits y +:+ "-" +:+ two_digits m +:+ "-" +:+ two_digits d).

(** [d.isoformat()] of a datetime at midnight. *)
Definition isoformat (ordinal : Z) : string :=
  (strftime ordinal +:+ "T00:00:00").

Definition digit (c : ascii) : option Z :=
  let n := Z.of_nat (nat_of_ascii c) in
  if (48 <=? n) && (n <=? 57) then Some (n - 48) else None.

Definition no_match (s : string) : exn :=
  ValueError ("time data '" +:+ s +:+ "' does not match format '%Y-%m-%d'").

(** The month group of the format's regular expression,
    [1[0-2]|0[1-9]|[1-9]], tried in that order. *)
Definition parse_month (cs : list ascii) : option (Z * list ascii) :=
  match cs with
  | c1 :: rest =>
      match digit c1, rest with
      | Some 1, c2 :: rest' =>
          match digit c2 with
          | Some d => if d <=? 2 then Some (10 + d, rest') else Some (1, rest)
          | None => Some (1, rest)
          end
      | Some 0, c2 :: rest' =>
          match digit c2 with
          | Some d => if 1 <=? d then Some (d, rest') else None
          | None => None
          end
      | Some 0, [] => None
      | Some d, _ => Some (d, rest)
      | None, _ => None
      end
  | [] => None
  end.

(** The day group, [3[01]|[12][0-9]|0[1-9]|[1-9]], tried in that order
    (the variant with a leading blank is not modelled). *)
Definition parse_day (cs : list ascii) : option (Z * list ascii) :=
  match cs with
  | c1 :: rest =>
      match digit c1, rest with
      | Some 3, c2 :: rest' =>
          match digit c2 with
          | Some d => if d <=? 1 then Some (30 + d, rest') else Some (3, rest)
          | None => Some (3, rest)
          end
      | Some 0, c2 :: rest' =>
          match digit c2 with
          | Some d => if 1 <=? d then Some (d, rest') else None
          | None => None
          end
      | Some 0, [] => None
      | Some d, c2 :: rest' =>
          if d <=? 2 then
            match digit c2 with
            | Some d2 => Some (10 * d + d2, rest')
            | None => Some (d, rest)
            end
          else Some (d, rest)
      | Some d, [] => Some (d, [])
      | None, _ => None
      end
  | [] => None
  end.

Definition dash : ascii := "-"%char.

(** [datetime.strptime(s, '%Y-%m-%d')] on ASCII text: four digits of
    year, a dash, the month, a dash, the day and nothing after it; then
    the date must exist. *)
Definition strptime (s : string) : outcome Z :=
  match list_ascii_of_string s with
  | y1 :: y2 :: y3 :: y4 :: sep1 :: rest =>
      match digit y1, digit y2, digit y3, digit y4 with
      | Some a, Some b, Some c, Some d =>
          let year := 1000 * a + 100 * b + 10 * c + d in
          if negb (Ascii.eqb sep1 dash) then Raise (no_match s) else
          match parse_month rest with
          | Some (month, sep2 :: rest2) =>
              if negb (Ascii.eqb sep2 dash) then Raise (no_match s) else
              match parse_day rest2 with
              | Some (day, []) =>
                  if year =? 0 then Raise (ValueError "year 0 is out of range")
                  else if days_in_month year month <? day
                  then Raise (ValueError "day is out of range for month")
                  else Return (ymd2ord year month day)
              | Some (_, c :: unconverted) =>
                  Raise (ValueError ("unconverted data remains: "
                                       +:+ string_of_list_ascii (c :: unconverted)))
              | None => Raise (no_match s)
              end
          | _ => Raise (no_match s)
          end
      | _, _, _, _ => Raise (no_match s)
      end
  | _ => Raise (no_match s)
  end.

End Datetime.


(* ===================================================================== *)
(** ** Coroutines                                                         *)
(* ===================================================================== *)

(** A coroutine of the scripts is run to its end against a fixed [world];
    besides its outcome it yields, in program order, the events through
    which it interacts with the rest of the process: acquiring and
    releasing [self.semaphore], starting and finishing an outbound
    [session.get], writing to the collection, appending to
    [self.failed_updates].  The event loop ([Loop] below) interleaves the
    event lists of the coroutines it runs. *)
Module Async.

Inductive event : Type :=
| Acquire
| Release
| Start (url : string)
| Finish (url : string)
| UpdateOne (filter update : value)
| FailedUpdate (entry : value).

(** What a request yields once the server has answered: the status and
    what [await response.json()] does with the body. *)
Record response : Type := { status : Z; json : outcome value }.

(** The upstream services and the clock.  [http_get url] is what
    [session.get(url)] does: raise, or hand over a response. *)
Record world : Type := { http_get : string -> outcome response; now : Z }.

Definition task (A : Type) : Type := (list event * outcome A)%type.

Definition ret {A} (a : A) : task A := ([], Return a).

Definition lift {A} (o : outcome A) : task A := ([], o).

Definition bind {A B} (m : task A) (f : A -> task B) : task B :=
  match snd m with
  | Raise e => (fst m, Raise e)
  | Return a => (fst m ++ fst (f a), snd (f a))
  end.

(** [try: m except Exception as e: handler e]. *)
Definition try_except {A} (m : task A) (handler : exn -> task A) : task A :=
  match snd m with
  | Raise e => (fst m ++ fst (handler e), snd (handler e))
  | Return _ => m
  end.

(** [async with self.semaphore: m]: the semaphore is released when the
    block is left, by its end, by a [return] or by an exception. *)
Definition with_semaphore {A} (m : task A) : task A :=
  (Acquire :: fst m ++ [Release], snd m).

(** [async with session.get(url) as response: body response]: the call is
    outbound from the [get] until the block is left. *)
Definition request {A} (w : world) (url : string)
    (body : response -> outcome A) : task A :=
  ([Start url; Finish url], Py.bind (http_get w url) body).

(** The request for [url] is answered 200 with a body that decodes to
    [data]. *)
Definition responds (w : world) (url : string) (data : value) : Prop :=
  exists r, http_get w url = Return r /\ status r = 200 /\ json r = Return data.

(** The request for [url] yields no decoded body: [session.get] raises,
    the status is not 200, or [response.json()] raises. *)
Definition fault (w : world) (url : string) : bool :=
  match http_get w url with
  | Raise _ => true
  | Return r =>
      negb (status r =? 200)
      || match json r with Raise _ => true | Return _ => false end
  end.

(** What a failing request reports: the text of the exception raised by
    [session.get] or by [response.json()], or, for a status other than
    200, [prefix] followed by the status, as the f-strings of the scripts
    write it; [None] when the request yields a decoded body. *)
Definition failure_text (w : world) (url prefix : string) : option string :=
  match http_get w url with
  | Raise e => Some (str_exn e)
  | Return r =>
      if negb (status r =? 200) then Some (prefix +:+ decimal (status r))
      else match json r with
           | Raise e => Some (str_exn e)
           | Return _ => None
           end
  end.

(** The writes to the collection and the entries appended to
    [self.failed_updates] among the events of a coroutine. *)
Definition is_write (e : event) : bool :=
  match e with UpdateOne _ _ => true | _ => false end.

Definition is_failure (e : event) : bool :=
  match e with FailedUpdate _ => true | _ => false end.

Definition writes (es : list event) : nat := length (filter is_write es).

Definition failures (es : list event) : nat := length (filter is_failure es).

(** Events that neither write to the collection nor record a failure. *)
Definition quiet (es : list event) : Prop :=
  writes es = 0%nat /\ failures es = 0%nat.

(** A coroutine that ends by raising, having made no write and recorded
    no failure, or by returning after exactly one write. *)
Definition writes_once_or_raises (t : task unit) : Prop :=
  (exists e, snd t = Raise e /\ quiet (fst t))
  \/ (snd t = Return tt /\ writes (fst t) = 1%nat /\ failures (fst t) = 0%nat).

End Async.

Import Async.

Declare Scope task_scope.
Delimit Scope task_scope with task.
Notation "x <<- m ;; k" := (Async.bind m (fun x => k))
  (at level 100, m at next level, right associativity) : task_scope.

Open Scope py_scope.
Open Scope task_scope.

(* ===================================================================== *)
(** ** processPackagesInfo.py: NPMPackageProcessor                        *)
(* ===================================================================== *)

Module Processor.

Definition registry_url : string := "https://registry.npmjs.org".
Definition downloads_url : string := "https://api.npmjs.org/downloads".
Definition ecosystem_url : string :=
  "https://packages.ecosyste.ms/api/v1/registries/npmjs.org/packages".

(** [self.semaphore = asyncio.Semaphore(10)]. *)
Definition semaphore : nat := 10.

(** The three URLs, as the f-strings of lines 27, 48-52 and 92 write
    them. *)
Definition ecosystem_request (package_name : string) : string :=
  ecosystem_url +:+ "/" +:+ package_name.

Definition downloads_request (start_date end_date : Z) (package_name : string)
  : string :=
  let date_range :=
    Datetime.strftime start_date +:+ ":" +:+ Datetime.strftime end_date in
  downloads_url +:+ "/range/" +:+ date_range +:+ "/" +:+ package_name.

Definition registry_request (package_name : string) : string :=
  registry_url +:+ "/" +:+ package_name.

(** Lines 22-39. *)
Definition fetch_ecosystem_stats (w : world) (package_name : string) : task value :=
  try_except
    (request w (ecosystem_request package_name) (fun response =>
       if negb (status response =? 200) then
         Return (VDict [("error", VStr ("Failed to fetch ecosystem stats: "
                                          +:+ decimal (status response)))])
       else
         data <- json response ;;
         total <- get data "downloads" (VInt 0) ;;
         dependents <- get data "dependent_packages_count" (VInt 0) ;;
         Return (VDict [("total_downloads", total);
                        ("dependent_count", dependents);
                        ("error", VNone)])))
    (fun e => ret (VDict [("error", VStr (str_exn e))])).

Definition bucket (week_ending : value) (downloads : Z) : value :=
  VDict [("week_ending", week_ending); ("downloads", VInt downloads)].

(** The [for] loop of lines 63-69, over the days still to visit, with the
    two lists it updates. *)
Fixpoint weekly_loop (days downloads_by_week current_week : list value)
  : outcome (list value * list value) :=
  match days with
  | [] => Return (downloads_by_week, current_week)
  | day :: rest =>
      n <- getitem day (VStr "downloads") ;;
      let current_week := current_week ++ [n] in
      if (length current_week =? 7)%nat then
        week_ending <- getitem day (VStr "day") ;;
        total <- sum current_week ;;
        weekly_loop rest (downloads_by_week ++ [bucket week_ending total]) []
      else weekly_loop rest downloads_by_week current_week
  end.

(** Lines 60-78: the weekly buckets of a decoded download series, seven
    days to a bucket in arrival order, the days left over as a last one. *)
Definition bucketize (download_data : value) : outcome (list value) :=
  series <- get download_data "downloads" (VList []) ;;
  days <- iter series ;;
  state <- weekly_loop days [] [] ;;
  let '(downloads_by_week, current_week) := state in
  if truthy (VList current_week) then
    series <- getitem download_data (VStr "downloads") ;;
    last_day <- getitem series (VInt (-1)) ;;
    week_ending <- getitem last_day (VStr "day") ;;
    total <- sum current_week ;;
    Return (downloads_by_week ++ [bucket week_ending total])
  else Return downloads_by_week.

(** Lines 41-82. *)
Definition fetch_weekly_trends (w : world) (package_name : string) : task value :=
  try_except
    (let end_date := now w in
     start_date <<- lift (Datetime.add_days end_date (-60)) ;;
     let downloads_url := downloads_request start_date end_date package_name in
     got <<- request w downloads_url (fun response =>
       if negb (status response =? 200) then
         Return (inl (VDict [("error", VStr ("Failed to fetch download stats: "
                                               +:+ decimal (status response)))]))
       else
         download_data <- json response ;;
         Return (inr download_data)) ;;
     match got with
     | inl returned => ret returned
     | inr download_data =>
         lift (downloads_by_week <- bucketize download_data ;;
               Return (VDict [("weekly_trends", VList downloads_by_week);
                              ("error", VNone)]))
     end)
    (fun e => ret (VDict [("error", VStr (str_exn e))])).

(** Lines 141-152. *)
Definition _create_error_entry (package_name : string) (error_msg : value) : value :=
  VDict [("name", VStr package_name);
         ("description", VStr "");
         ("link", VStr "");
         ("dependencies", VList []);
         ("downloads", VDict [("total", VInt 0); ("weekly_trends", VList [])]);
         ("dependent_packages_count", VInt 0);
         ("latest_version", VStr "");
         ("error", error_msg)].

(** Lines 115-136: the version check and the composed record. *)
Definition compose (package_name : string) (data ecosystem_stats weekly_stats : value)
  : outcome value :=
  dist_tags <- get data "dist-tags" (VDict []) ;;
  latest_version <- get dist_tags "latest" VNone ;;
  no_versions <- (if negb (truthy latest_version) then Return true
                  else (found <- contains "versions" data ;; Return (negb found))) ;;
  if (no_versions : bool) then
    Return (_create_error_entry package_name (VStr "No version information found"))
  else
    versions <- getitem data (VStr "versions") ;;
    latest_data <- getitem versions latest_version ;;
    description <- get data "description" (VStr "") ;;
    dependencies <- get latest_data "dependencies" (VDict []) ;;
    dependencies <- keys dependencies ;;
    total <- getitem ecosystem_stats (VStr "total_downloads") ;;
    weekly_trends <- getitem weekly_stats (VStr "weekly_trends") ;;
    dependent_count <- getitem ecosystem_stats (VStr "dependent_count") ;;
    Return (VDict [("name", VStr package_name);
                   ("description", description);
                   ("link", VStr ("https://www.npmjs.com/package/" +:+ package_name));
                   ("dependencies", dependencies);
                   ("downloads", VDict [("total", total);
                                        ("weekly_trends", weekly_trends)]);
                   ("dependent_packages_count", dependent_count);
                   ("latest_version", latest_version);
                   ("error", VNone)]).

(** Lines 84-139. *)
Definition fetch_package_info (w : world) (package_name : string) : task value :=
  try_except
    (with_semaphore
       (got <<- request w (registry_request package_name) (fun response =>
          if negb (status response =? 200) then
            Return (inl (_create_error_entry package_name
                           (VStr ("Failed to fetch package info: "
                                    +:+ decimal (status response)))))
          else
            data <- json response ;;
            Return (inr data)) ;;
        match got with
        | inl returned => ret returned
        | inr data =>
            ecosystem_stats <<- fetch_ecosystem_stats w package_name ;;
            failed <<- lift (get ecosystem_stats "error" VNone) ;;
            if truthy failed then
              error_msg <<- lift (getitem ecosystem_stats (VStr "error")) ;;
              ret (_create_error_entry package_name error_msg)
            else
              weekly_stats <<- fetch_weekly_trends w package_name ;;
              failed <<- lift (get weekly_stats "error" VNone) ;;
              if truthy failed then
                error_msg <<- lift (getitem weekly_stats (VStr "error")) ;;
                ret (_create_error_entry package_name error_msg)
              else lift (compose package_name data ecosystem_stats weekly_stats)
        end))
    (fun e => ret (_create_error_entry package_name (VStr (str_exn e)))).

(** What [asyncio.gather] over [children] hands to its awaiter once the
    children have completed in the order [completion] (positions in
    [children]): the first exception raised, in completion order, or else
    the list of results in the order of [children]; [None] while a child
    is still pending. *)
Fixpoint first_raise {A} (children : list (outcome A)) (completion : list nat)
  : option exn :=
  match completion with
  | [] => None
  | i :: rest =>
      match nth_error children i with
      | Some (Raise e) => Some e
      | _ => first_raise children rest
      end
  end.

Fixpoint results {A} (children : list (outcome A)) : option (list A) :=
  match children with
  | [] => Some []
  | Return a :: rest => option_map (cons a) (results rest)
  | Raise _ :: _ => None
  end.

Definition gather {A} (children : list (outcome A)) (completion : list nat)
  : option (outcome (list A)) :=
  match first_raise children completion with
  | Some e => Some (Raise e)
  | None =>
      if forallb (fun i => existsb (Nat.eqb i) completion)
                 (seq 0 (length children))
      then option_map Return (results children)
      else None
  end.

(** Lines 160-163 of [process_packages]: one coroutine per name, gathered. *)
Definition process_packages (w : world) (package_names : list string)
    (completion : list nat) : option (outcome (list value)) :=
  let tasks := map (fetch_package_info w) package_names in
  gather (map snd tasks) completion.

(** One of the three requests made for a package yields no decoded body
    (or the start of the window cannot be computed, so that the third
    request is not made). *)
Definition stage_fault (w : world) (package_name : string) : bool :=
  fault w (registry_request package_name)
  || fault w (ecosystem_request package_name)
  || match Datetime.add_days (now w) (-60) with
     | Raise _ => true
     | Return start_date =>
         fault w (downloads_request start_date (now w) package_name)
     end.

(** The coroutines of a batch, by their events. *)
Definition scripts (w : world) (package_names : list string) : list (list event) :=
  map (fun name => fst (fetch_package_info w name)) package_names.

(** Line 170: the records counted as successful. *)
Definition successful (results : list value) : nat :=
  length (filter (fun r => match get r "error" VNone with
                           | Return e => negb (truthy e)
                           | Raise _ => false
                           end) results).

End Processor.

(* ===================================================================== *)
(** ** scripts/updateExistingPackages.py: NPMPackageUpdater               *)
(* ===================================================================== *)

Module Updater.

Definition registry_url : string := "https://registry.npmjs.org".
Definition downloads_url : string := "https://api.npmjs.org/downloads".
Definition ecosystem_url : string :=
  "https://packages.ecosyste.ms/api/v1/registries/npmjs.org/packages".

(** [self.semaphore = asyncio.Semaphore(10)]. *)
Definition semaphore : nat := 10.

(** The three URLs, as the f-strings of lines 31, 58-62 and 104 write
    them; the name is whatever the package document holds. *)
Definition ecosystem_request (package_name : value) : string :=
  ecosystem_url +:+ "/" +:+ str package_name.

Definition downloads_request (start_date end_date : Z) (package_name : value)
  : string :=
  downloads_url +:+ "/range/" +:+ Datetime.strftime start_date +:+ ":"
    +:+ Datetime.strftime end_date +:+ "/" +:+ str package_name.

Definition registry_request (package_name : value) : string :=
  registry_url +:+ "/" +:+ str package_name.

(** Lines 29-43. *)
Definition fetch_ecosystem_stats (w : world) (package_name : value) : task value :=
  try_except
    (request w (ecosystem_request package_name) (fun response =>
       if negb (status response =? 200) then
         Return (VDict [("error", VStr ("Failed to fetch ecosystem stats: "
                                          +:+ decimal (status response)))])
       else
         data <- json response ;;
         total <- get data "downloads" (VInt 0) ;;
         dependents <- get data "dependent_packages_count" (VInt 0) ;;
         Return (VDict [("total_downloads", total);
                        ("dependent_count", dependents);
                        ("error", VNone)])))
    (fun e => ret (VDict [("error", VStr (str_exn e))])).

(** Lines 45-53: the Sunday on or before today, and the day eight weeks
    before it. *)
Definition get_week_boundaries (w : world) : outcome (Z * Z) :=
  let today := now w in
  let days_since_sunday := (Datetime.weekday today + 1) mod 7 in
  last_sunday <- Datetime.add_days today (- days_since_sunday) ;;
  start_date <- Datetime.add_days last_sunday (- (8 * 7)) ;;
  Return (start_date, last_sunday).

Definition bucket (week_end : Z) (downloads : Z) : value :=
  VDict [("week_ending", VStr (Datetime.strftime week_end));
         ("downloads", VInt downloads)].

(** [datetime.strptime(v, '%Y-%m-%d')] for whatever the entry holds. *)
Definition strptime (v : value) : outcome Z :=
  match v with
  | VStr s => Datetime.strptime s
  | _ => Raise (TypeError ("strptime() argument 1 must be str, not "
                             +:+ type_name v))
  end.

(** The [for] loop of lines 73-86, with the three variables it updates
    ([current_week_start] is [None] until the first Monday). *)
Fixpoint weekly_loop (days downloads_by_week current_week : list value)
    (current_week_start : option Z)
  : outcome (list value * list value * option Z) :=
  match days with
  | [] => Return (downloads_by_week, current_week, current_week_start)
  | day_data :: rest =>
      day <- getitem day_data (VStr "day") ;;
      day_date <- strptime day ;;
      if Datetime.weekday day_date =? 0 then
        downloads_by_week <-
          (if truthy (VList current_week) then
             week_end <- Datetime.add_days day_date (-1) ;;
             total <- sum current_week ;;
             Return (downloads_by_week ++ [bucket week_end total])
           else Return downloads_by_week) ;;
        n <- getitem day_data (VStr "downloads") ;;
        weekly_loop rest downloads_by_week [n] (Some day_date)
      else
        n <- getitem day_data (VStr "downloads") ;;
        weekly_loop rest downloads_by_week (current_week ++ [n]) current_week_start
  end.

(** Lines 70-94: the weekly buckets of a decoded download series by
    calendar week. *)
Definition bucketize (download_data : value) : outcome (list value) :=
  series <- get download_data "downloads" (VList []) ;;
  days <- iter series ;;
  state <- weekly_loop days [] [] None ;;
  let '(downloads_by_week, current_week, current_week_start) := state in
  if truthy (VList current_week) && (length current_week =? 7)%nat then
    match current_week_start with
    | None => Raise (TypeError
        "unsupported operand type(s) for +: 'NoneType' and 'datetime.timedelta'")
    | Some start =>
        week_end <- Datetime.add_days start 6 ;;
        total <- sum current_week ;;
        Return (downloads_by_week ++ [bucket week_end total])
    end
  else Return downloads_by_week.

(** Lines 55-97. *)
Definition fetch_weekly_trends (w : world) (package_name : value) : task value :=
  try_except
    (boundaries <<- lift (get_week_boundaries w) ;;
     let '(start_date, end_date) := boundaries in
     let downloads_url := downloads_request start_date end_date package_name in
     got <<- with_semaphore (request w downloads_url (fun response =>
       if negb (status response =? 200) then
         Return (inl (VDict [("error", VStr ("Failed to fetch download stats: "
                                               +:+ decimal (status response)))]))
       else
         download_data <- json response ;;
         Return (inr download_data))) ;;
     match got with
     | inl returned => ret returned
     | inr download_data =>
         lift (downloads_by_week <- bucketize download_data ;;
               Return (VDict [("weekly_trends", VList downloads_by_week);
                              ("error", VNone)]))
     end)
    (fun e => ret (VDict [("error", VStr (str_exn e))])).

(** Lines 117-134: the version check and the fields of the update. *)
Definition update_fields (w : world) (package_name data ecosystem_stats weekly_stats : value)
  : outcome value :=
  dist_tags <- get data "dist-tags" (VDict []) ;;
  latest_version <- get dist_tags "latest" VNone ;;
  no_versions <- (if negb (truthy latest_version) then Return true
                  else (found <- contains "versions" data ;; Return (negb found))) ;;
  if (no_versions : bool) then
    Raise (Exception (VStr "No version information found"))
  else
    versions <- getitem data (VStr "versions") ;;
    latest_data <- getitem versions latest_version ;;
    peer_dependencies <- get latest_data "peerDependencies" (VDict []) ;;
    peer_dependencies <- keys peer_dependencies ;;
    description <- get data "description" (VStr "") ;;
    dependencies <- get latest_data "dependencies" (VDict []) ;;
    dependencies <- keys dependencies ;;
    total <- getitem ecosystem_stats (VStr "total_downloads") ;;
    weekly_trends <- getitem weekly_stats (VStr "weekly_trends") ;;
    dependent_count <- getitem ecosystem_stats (VStr "dependent_count") ;;
    Return (VDict [("description", description);
                   ("link", VStr ("https://www.npmjs.com/package/" +:+ str package_name));
                   ("dependencies", dependencies);
                   ("peerDependencies", peer_dependencies);
                   ("downloads", VDict [("total", total);
                                        ("weekly_trends", weekly_trends)]);
                   ("dependent_packages_count", dependent_count);
                   ("latest_version", latest_version);
                   ("last_updated", VDatetime (now w))]).

(** Lines 99-146.  The writes to the collection and to
    [self.failed_updates] are events; the prints are left out. *)
Definition update_package_info (w : world) (package_doc : value) : task unit :=
  package_name <<- lift (getitem package_doc (VStr "name")) ;;
  try_except
    (data <<- with_semaphore
       (request w (registry_request package_name) (fun response =>
          if negb (status response =? 200) then
            Raise (Exception (VStr ("Failed to fetch package info: "
                                      +:+ decimal (status response))))
          else json response)) ;;
     ecosystem_stats <<- fetch_ecosystem_stats w package_name ;;
     failed <<- lift (get ecosystem_stats "error" VNone) ;;
     if truthy failed then
       error_msg <<- lift (getitem ecosystem_stats (VStr "error")) ;;
       lift (Raise (Exception error_msg))
     else
       weekly_stats <<- fetch_weekly_trends w package_name ;;
       failed <<- lift (get weekly_stats "error" VNone) ;;
       if truthy failed then
         error_msg <<- lift (getitem weekly_stats (VStr "error")) ;;
         lift (Raise (Exception error_msg))
       else
         fields <<- lift (update_fields w package_name data ecosystem_stats weekly_stats) ;;
         ([UpdateOne (VDict [("name", package_name)]) (VDict [("$set", fields)])],
          Return tt))
    (fun e =>
       ([FailedUpdate (VDict [("package", package_name);
                              ("error", VStr (str_exn e));
                              ("timestamp", VStr (Datetime.isoformat (now w)))])],
        Return tt)).

(** Lines 152-154 of [update_all_packages]: the coroutines of a batch, by
    their events. *)
Definition scripts (w : world) (packages : list value) : list (list event) :=
  map (fun package_doc => fst (update_package_info w package_doc)) packages.

(** What [update_all_packages] prints at its end (lines 163-168). *)
Record summary : Type :=
  { total_packages : Z; total_failed : Z; total_successful : Z }.

(** Lines 148-168 of [update_all_packages], for the documents [packages]
    that [find] returned and a completion order of the coroutines:
    [self.failed_updates], empty when the updater is created, holds one
    entry per [FailedUpdate] event once the coroutines are gathered (only
    its length is used); an exception of a coroutine leaves the method
    through [gather].  [None] while a coroutine is pending. *)
Definition update_all_packages (w : world) (packages : list value)
    (completion : list nat) : option (outcome summary) :=
  let total := Z.of_nat (length packages) in
  let tasks := map (update_package_info w) packages in
  match Processor.gather (map snd tasks) completion with
  | None => None
  | Some (Raise e) => Some (Raise e)
  | Some (Return _) =>
      let failed := Z.of_nat (failures (concat (map fst tasks))) in
      Some (Return {| total_packages := total;
                      total_failed := failed;
                      total_successful := total - failed |})
  end.

End Updater.

(* ===================================================================== *)
(** ** The results of the stages, as the pipelines test them              *)
(* ===================================================================== *)

Module Stages.

(** The [latest] dist-tag of a registry document, as line 116 reads it
    (line 117 in the updater). *)
Definition latest_tag (data : list (string * value)) : outcome value :=
  dist_tags <- get (VDict data) "dist-tags" (VDict []) ;;
  get dist_tags "latest" VNone.


(** The document resolves its [latest] dist-tag to an entry of
    [versions] (line 122; 120 in the updater). *)
Definition latest_version_entry (data : list (string * value))
    (latest_version : value) (latest_data : list (string * value)) : Prop :=
  latest_tag data = Return latest_version
  /\ truthy latest_version = true
  /\ (versions <- getitem (VDict data) (VStr "versions") ;;
      getitem versions latest_version) = Return (VDict latest_data).

(** The names a version entry declares under [field]: the keys of the
    map, none when the field is missing. *)
Definition declared_names (field : string) (latest_data : list (string * value))
  : outcome value :=
  declared <- get (VDict latest_data) field (VDict []) ;;
  keys declared.

(** The success values of [fetch_ecosystem_stats] and of
    [fetch_weekly_trends]. *)
Definition ecosystem_stats (total dependents : value) : value :=
  VDict [("total_downloads", total);
         ("dependent_count", dependents);
         ("error", VNone)].

Definition weekly_stats (downloads_by_week : list value) : value :=
  VDict [("weekly_trends", VList downloads_by_week); ("error", VNone)].

(** The record [fetch_package_info] composes (lines 124-136). *)
Definition package_record (package_name : string)
    (description dependencies total weekly_trends dependent_count
       latest_version : value) : value :=
  VDict [("name", VStr package_name);
         ("description", description);
         ("link", VStr ("https://www.npmjs.com/package/" +:+ package_name));
         ("dependencies", dependencies);
         ("downloads", VDict [("total", total);
                              ("weekly_trends", weekly_trends)]);
         ("dependent_packages_count", dependent_count);
         ("latest_version", latest_version);
         ("error", VNone)].

(** The update [update_package_info] writes (lines 122-135). *)
Definition package_update (today : Z) (package_name : string)
    (description dependencies peer_dependencies total weekly_trends
       dependent_count latest_version : value) : event :=
  UpdateOne
    (VDict [("name", VStr package_name)])
    (VDict [("$set",
             VDict [("description", description);
                    ("link", VStr ("https://www.npmjs.com/package/" +:+ package_name));
                    ("dependencies", dependencies);
                    ("peerDependencies", peer_dependencies);
                    ("downloads", VDict [("total", total);
                                         ("weekly_trends", weekly_trends)]);
                    ("dependent_packages_count", dependent_count);
                    ("latest_version", latest_version);
                    ("last_updated", VDatetime today)])]).

(** The entry [update_package_info] appends to [self.failed_updates]
    (lines 140-146). *)
Definition failed_update (today : Z) (package_name : string) (error : string)
  : event :=
  FailedUpdate (VDict [("package", VStr package_name);
                       ("error", VStr error);
                       ("timestamp", VStr (Datetime.isoformat today))]).

(** [d.get(k, default)] on the entries of a dictionary. *)
Definition field_or (k : string) (default : value) (d : list (string * value))
  : value :=
  match Py.lookup k d with Some x => x | None => default end.

(** The package document has a name (line 100 of the updater reads it). *)
Definition named (package_doc : value) : Prop :=
  exists package_name, getitem package_doc (VStr "name") = Return package_name.

End Stages.

Import Stages.

(* ===================================================================== *)
(** ** Daily series and weekly buckets, as the specification types them   *)
(* ===================================================================== *)

Module Series.

Record DailyDownload : Type := { day : string; downloads : Z }.

Record WeeklyBucket : Type := { week_ending : string; total : Z }.

(** One entry of the [downloads] array of the time-series endpoint. *)
Definition encode_day (d : DailyDownload) : value :=
  VDict [("downloads", VInt (downloads d)); ("day", VStr (day d))].

(** One element of [weekly_trends]. *)
Definition encode_bucket (b : WeeklyBucket) : value :=
  VDict [("week_ending", VStr (week_ending b)); ("downloads", VInt (total b))].

Definition zsum (xs : list Z) : Z := fold_right Z.add 0 xs.

Definition last_day (chunk : list DailyDownload) : string :=
  day (last chunk {| day := ""; downloads := 0 |}).

(** Fixed-chunk alignment, in the words of the specification: the series
    is cut into consecutive chunks of seven days in arrival order, the
    last chunk holding the one to six days left over when there are some;
    each chunk is a bucket ending on its last day. *)
Fixpoint chunks_upto (fuel : nat) (series : list DailyDownload)
  : list (list DailyDownload) :=
  match fuel, series with
  | _, [] => []
  | O, _ :: _ => []
  | S fuel, _ :: _ => firstn 7 series :: chunks_upto fuel (skipn 7 series)
  end.

Definition chunks (series : list DailyDownload) : list (list DailyDownload) :=
  chunks_upto (length series) series.

Definition bucket_of_chunk (chunk : list DailyDownload) : WeeklyBucket :=
  {| week_ending := last_day chunk; total := zsum (map downloads chunk) |}.

Definition fixed_chunk_spec (series : list DailyDownload) : list WeeklyBucket :=
  map bucket_of_chunk (chunks series).

(** The decoded body [download_data] of the time-series endpoint holds
    the series: under its [downloads] key, which may be missing when the
    series is empty. *)
Definition holds_series (download_data : list (string * value))
    (series : list DailyDownload) : Prop :=
  Py.lookup "downloads" download_data = Some (VList (map encode_day series))
  \/ (Py.lookup "downloads" download_data = None /\ series = []).

End Series.

Import Series.

(* ===================================================================== *)
(** ** The event loop                                                     *)
(* ===================================================================== *)

(** [asyncio.gather] puts every coroutine of a batch on one event loop,
    which runs one of them at a time and switches at the awaits.  A
    coroutine is represented by its events: those it has performed and
    those still to come.  Any coroutine may perform its next event, except
    that [Acquire] waits while the semaphore has no permit left; this
    allows every schedule asyncio can produce (which moreover serves the
    waiters first come, first served). *)
Module Loop.

Record coroutine : Type := { performed : list event; pending : list event }.

Record state : Type := { permits : nat; coroutines : list coroutine }.

Definition spawn (script : list event) : coroutine :=
  {| performed := []; pending := script |}.

(** The loop at the start of a batch: [value] permits in the semaphore,
    no coroutine started. *)
Definition start (value : nat) (scripts : list (list event)) : state :=
  {| permits := value; coroutines := map spawn scripts |}.

(** One coroutine performs its next event. *)
Definition advance (permits : nat) (c : coroutine) : option (nat * coroutine) :=
  match pending c with
  | [] => None
  | e :: rest =>
      let c' := {| performed := performed c ++ [e]; pending := rest |} in
      match e with
      | Acquire => match permits with
                   | O => None
                   | S p => Some (p, c')
                   end
      | Release => Some (S permits, c')
      | _ => Some (permits, c')
      end
  end.

(** The coroutine at position [i] performs its next event. *)
Definition step (i : nat) (s : state) : option state :=
  match nth_error (coroutines s) i with
  | None => None
  | Some c =>
      match advance (permits s) c with
      | None => None
      | Some (p, c') =>
          Some {| permits := p;
                  coroutines := firstn i (coroutines s) ++ c'
                                  :: skipn (S i) (coroutines s) |}
      end
  end.

Fixpoint run (schedule : list nat) (s : state) : option state :=
  match schedule with
  | [] => Some s
  | i :: rest => match step i s with
                 | Some s' => run rest s'
                 | None => None
                 end
  end.

Definition reachable (s0 s : state) : Prop :=
  exists schedule, run schedule s0 = Some s.

Definition outbound_delta (e : event) : Z :=
  match e with Start _ => 1 | Finish _ => -1 | _ => 0 end.

Definition held_delta (e : event) : Z :=
  match e with Acquire => 1 | Release => -1 | _ => 0 end.

(** The outbound calls a list of events leaves open, and the permits it
    leaves held. *)
Definition outbound_of (es : list event) : Z := zsum (map outbound_delta es).
Definition held_of (es : list event) : Z := zsum (map held_delta es).

(** The number of outbound calls executing in a state. *)
Definition outbound (s : state) : Z :=
  zsum (map (fun c => outbound_of (performed c)) (coroutines s)).

Definition held (s : state) : Z :=
  zsum (map (fun c => held_of (performed c)) (coroutines s)).

(** A script is gated when at every point of it the calls it has open are
    covered by permits it holds. *)
Definition gated (script : list event) : Prop :=
  forall k, outbound_of (firstn k script) <= held_of (firstn k script).

(** What keeps holding of a coroutine while it runs: the calls it has
    open are covered by the permits it holds, now and after any number of
    its further events. *)
Definition covered (c : coroutine) : Prop :=
  forall k,
    outbound_of (performed c ++ firstn k (pending c))
    <= held_of (performed c ++ firstn k (pending c)).

(** The invariant of the loop: permits left plus permits held make up the
    initial value, and every coroutine is covered. *)
Definition balanced (value : nat) (s : state) : Prop :=
  Z.of_nat (permits s) + held s = Z.of_nat value
  /\ Forall covered (coroutines s).

(** A sequence of calls, each finished before the next starts. *)
Inductive calls : list event -> Prop :=
| calls_nil : calls []
| calls_cons (url : string) (rest : list event) :
    calls rest -> calls (Start url :: Finish url :: rest).

End Loop.

(* ===================================================================== *)
(** ** Sample upstream data                                               *)
(* ===================================================================== *)

Module Examples.

(** A 200 response whose body decodes to [body]. *)
Definition ok (body : value) : outcome response :=
  Return {| status := 200; json := Return body |}.

(** A response with another status; its body is not read. *)
Definition refused (code : Z) : outcome response :=
  Return {| status := code; json := Return VNone |}.

(** [n] consecutive days from the day numbered [start], [count] downloads
    each. *)
Definition daily (start : Z) (n : nat) (count : Z) : list DailyDownload :=
  map (fun i => {| day := Datetime.strftime (start + Z.of_nat i);
                   downloads := count |}) (seq 0 n).

(** The body of the time-series endpoint for a series. *)
Definition download_data (series : list DailyDownload) : list (string * value) :=
  [("start", VStr (day (hd {| day := ""; downloads := 0 |} series)));
   ("end", VStr (last_day series));
   ("package", VStr "left-pad");
   ("downloads", VList (map encode_day series))].

(** Seventeen days from Monday 2024-01-01, one download a day. *)
Definition seventeen_days : list DailyDownload :=
  daily (Datetime.ymd2ord 2024 1 1) 17 1.

(** Wednesday 2024-01-03 to Sunday 2024-03-03: the five last days of a
    week, then eight full weeks from Monday 2024-01-08. *)
Definition wednesday_start : list DailyDownload :=
  daily (Datetime.ymd2ord 2024 1 3) 61 1.

(** Monday 2024-01-08 to Tuesday 2024-03-05: eight full weeks, then two
    days. *)
Definition monday_start_with_tail : list DailyDownload :=
  daily (Datetime.ymd2ord 2024 1 8) 58 1.

(** The clock of the sample worlds: Wednesday 2024-03-13. *)
Definition today : Z := Datetime.ymd2ord 2024 3 13.

(** The days the updater asks for on that day, Sunday 2024-01-14 to
    Sunday 2024-03-10, and the days the processor asks for, 2024-01-13 to
    2024-03-13. *)
Definition refresh_window : list DailyDownload :=
  daily (Datetime.ymd2ord 2024 1 14) 57 1.

Definition trailing_window : list DailyDownload :=
  daily (Datetime.ymd2ord 2024 1 13) 61 1.

(** A registry document with a latest version that declares dependencies
    and peer dependencies. *)
Definition latest_entry : list (string * value) :=
  [("name", VStr "left-pad");
   ("version", VStr "1.3.0");
   ("dependencies", VDict [("repeat-string", VStr "^1.6.1")]);
   ("peerDependencies", VDict [("react", VStr "^18.0.0")])].

Definition registry_document : list (string * value) :=
  [("name", VStr "left-pad");
   ("description", VStr "String left pad");
   ("dist-tags", VDict [("latest", VStr "1.3.0")]);
   ("versions", VDict [("1.3.0", VDict latest_entry)])].

Definition registry_body : value := VDict registry_document.

Definition ecosystem_body : value :=
  VDict [("name", VStr "left-pad");
         ("downloads", VInt 1000);
         ("dependent_packages_count", VInt 42)].

(** Upstream services that answer by endpoint, whatever the package. *)
Definition serve (registry ecosystem downloads : outcome response)
    (url : string) : outcome response :=
  if String.prefix Processor.registry_url url then registry
  else if String.prefix Processor.ecosystem_url url then ecosystem
  else downloads.

Definition world_of (registry ecosystem downloads : outcome response) : world :=
  {| http_get := serve registry ecosystem downloads; now := today |}.

(** Every endpoint answers 200 with a well-formed body. *)
Definition healthy (series : list DailyDownload) : world :=
  world_of (ok registry_body) (ok ecosystem_body)
           (ok (VDict (download_data series))).

(** The buckets the two scripts make of [refresh_window]. *)
Definition fixed_buckets : list value :=
  match Processor.bucketize (VDict (download_data refresh_window)) with
  | Return buckets => buckets
  | Raise _ => []
  end.

Definition calendar_buckets : list value :=
  match Updater.bucketize (VDict (download_data refresh_window)) with
  | Return buckets => buckets
  | Raise _ => []
  end.

(** The registry request ends in a timeout: [asyncio.TimeoutError()],
    whose text is empty. *)
Definition timed_out : world :=
  world_of (Raise (ClientError "")) (ok ecosystem_body)
           (ok (VDict (download_data trailing_window))).

(** The registry document has no [dist-tags]; the usage statistics are
    answered 404, or 200. *)
Definition no_dist_tags : value :=
  VDict [("name", VStr "left-pad"); ("description", VStr "String left pad")].

Definition untagged_without_stats : world :=
  world_of (ok no_dist_tags) (refused 404)
           (ok (VDict (download_data trailing_window))).





(** The same registry document as [registry_body], without the peer
    dependencies. *)
Definition registry_body_without_peers : value :=
  VDict [("name", VStr "left-pad");
         ("description", VStr "String left pad");
         ("dist-tags", VDict [("latest", VStr "1.3.0")]);
         ("versions",
          VDict [("1.3.0",
                  VDict [("name", VStr "left-pad");
                         ("version", VStr "1.3.0");
                         ("dependencies", VDict [("repeat-string", VStr "^1.6.1")])])])].

Definition healthy_without_peers (series : list DailyDownload) : world :=
  world_of (ok registry_body_without_peers) (ok ecosystem_body)
           (ok (VDict (download_data series))).

(** The usage statistics are answered 200 with neither of the two
    fields. *)
Definition bare_stats : world :=
  world_of (ok registry_body) (ok (VDict [("name", VStr "left-pad")]))
           (ok (VDict (download_data trailing_window))).

(** A document of the packages collection, as [find] projects it. *)
Definition package_doc (name : string) : value :=
  VDict [("_id", VStr ("id-" +:+ name)); ("name", VStr name)].

Definition eleven_packages : list value :=
  map package_doc
      ["react"; "vue"; "lodash"; "express"; "axios"; "chalk"; "debug";
       "yargs"; "uuid"; "semver"; "left-pad"].

Definition eleven_names : list string :=
  ["react"; "vue"; "lodash"; "express"; "axios"; "chalk"; "debug";
   "yargs"; "uuid"; "semver"; "left-pad"].

(** A schedule of eleven coroutines of the updater, as the event loop
    runs them when the registry answers before ecosyste.ms does.  The
    first ten acquire the semaphore and send their registry request (the
    eleventh waits for a permit); the registry answers the first, which
    releases its permit and sends its usage-statistics request, and the
    eleventh takes the permit and sends its registry request. *)
Definition first_wave : list nat :=
  concat (map (fun i => [i; i]) (seq 0 10)).

Definition first_answer : list nat := [0; 0; 0; 10; 10]%nat.

(** Then the registry answers the other ten, each of which releases its
    permit and sends its usage-statistics request. *)
Definition other_answers : list nat :=
  concat (map (fun i => [i; i; i]) (seq 1 10)).

End Examples.

(* ===================================================================== *)
(** ** Consecutive days                                                   *)
(* ===================================================================== *)

Module Calendar.

(** The end of [_ord2ymd]: the month and the day of the month of the day
    numbered [n] (from 0) within its year. *)
Definition month_and_day (n : Z) (leapyear : bool) : Z * Z :=
  let month := Z.shiftr (n + 50) 5 in
  let preceding :=
    Datetime.DAYS_BEFORE_MONTH month + Z.b2z ((2 <? month) && leapyear) in
  if n <? preceding then
    let month := month - 1 in
    let preceding :=
      preceding - (Datetime.DAYS_IN_MONTH month
                   + Z.b2z ((month =? 2) && leapyear)) in
    (month, n - preceding + 1)
  else (month, n - preceding + 1).

(** Checks run over the days of a year, the years 1 to 9999 and the days
    of the months. *)
Definition month_and_day_ok (leapyear : bool) (n : Z) : bool :=
  let '(m, d) := month_and_day n leapyear in
  (1 <=? m) && (m <=? 12) && (1 <=? d)
  && (d <=? (if (m =? 2) && leapyear then 29 else Datetime.DAYS_IN_MONTH m))
  && (Datetime.DAYS_BEFORE_MONTH m + Z.b2z ((2 <? m) && leapyear) + d =? n + 1).

Definition year_text_ok (y : Z) : bool :=
  match list_ascii_of_string (four_digits y) with
  | [a; b; c; d] =>
      match Datetime.digit a, Datetime.digit b, Datetime.digit c,
            Datetime.digit d with
      | Some a', Some b', Some c', Some d' =>
          1000 * a' + 100 * b' + 10 * c' + d' =? y
      | _, _, _, _ => false
      end
  | _ => false
  end.

Definition month_day_text_ok (m d : Z) : bool :=
  match Datetime.parse_month
          (list_ascii_of_string (two_digits m)
             ++ Datetime.dash :: list_ascii_of_string (two_digits d)) with
  | Some (m', sep :: rest) =>
      (m' =? m) && Ascii.eqb sep Datetime.dash
      && match Datetime.parse_day rest with
         | Some (d', []) => d' =? d
         | _ => false
         end
  | _ => false
  end.

Definition upto (first count : Z) : list Z :=
  map (fun i => first + Z.of_nat i) (seq 0 (Z.to_nat count)).

(** The entries of the time-series endpoint for consecutive days from the
    day numbered [start], one count a day. *)
Fixpoint consecutive (start : Z) (counts : list Z) : list DailyDownload :=
  match counts with
  | [] => []
  | c :: rest =>
      {| day := Datetime.strftime start; downloads := c |}
        :: consecutive (start + 1) rest
  end.

(** Entries for any days, each given by its number and its count. *)
Definition dated (entries : list (Z * Z)) : list DailyDownload :=
  map (fun entry => {| day := Datetime.strftime (fst entry);
                       downloads := snd entry |}) entries.

(** The first [n] weeks of a run of counts that starts on the Monday
    numbered [monday]: each with the number of its Sunday and the sum of
    its seven counts. *)
Fixpoint weeks (n : nat) (monday : Z) (counts : list Z) : list (Z * Z) :=
  match n with
  | O => []
  | S n =>
      (monday + 6, zsum (firstn 7 counts))
        :: weeks n (monday + 7) (skipn 7 counts)
  end.

(** The full weeks of the run; the days left over at its end make no
    week. *)
Definition full_weeks (monday : Z) (counts : list Z) : list (Z * Z) :=
  weeks (length counts / 7) monday counts.

(** The bucket the updater appends for a week ending on [week_end]. *)
Definition week_bucket (week : Z * Z) : value :=
  Updater.bucket (fst week) (snd week).

(** Lines 74-82 of the updater: what a Monday appends for the counts
    gathered before it. *)
Definition flushed (monday : Z) (gathered : list Z) : list value :=
  match gathered with
  | [] => []
  | _ :: _ => [Updater.bucket (monday - 1) (zsum gathered)]
  end.

(** Lines 87-94 of the updater: after the loop, the week still in
    [current_week] is appended when it has seven entries. *)
Definition last_week (state : list value * list value * option Z)
  : outcome (list value) :=
  let '(downloads_by_week, current_week, current_week_start) := state in
  if truthy (VList current_week) && (length current_week =? 7)%nat then
    match current_week_start with
    | None => Raise (TypeError
        "unsupported operand type(s) for +: 'NoneType' and 'datetime.timedelta'")
    | Some start =>
        week_end <- Datetime.add_days start 6 ;;
        total <- sum current_week ;;
        Return (downloads_by_week ++ [Updater.bucket week_end total])
    end
  else Return downloads_by_week.

End Calendar.

Import Calendar.

(* ===================================================================== *)
(** ** The calls to one group of hosts                                    *)
(* ===================================================================== *)

Module Hosts.

Import Loop.

(** The two hosts of npm the updater calls: the registry and the
    downloads API (the usage statistics come from ecosyste.ms). *)
Definition npm (url : string) : bool :=
  String.prefix Updater.registry_url url
  || String.prefix Updater.downloads_url url.

Definition outbound_delta_to (host : string -> bool) (e : event) : Z :=
  match e with
  | Start url => if host url then 1 else 0
  | Finish url => if host url then -1 else 0
  | _ => 0
  end.

(** The calls to [host] a list of events leaves open. *)
Definition outbound_to_of (host : string -> bool) (es : list event) : Z :=
  zsum (map (outbound_delta_to host) es).

(** The number of calls to [host] executing in a state. *)
Definition outbound_to (host : string -> bool) (s : state) : Z :=
  zsum (map (fun c => outbound_to_of host (performed c)) (coroutines s)).

(** The calls to [host] a coroutine has open are covered by the permits
    it holds, now and after any number of its further events. *)
Definition covered_to (host : string -> bool) (c : coroutine) : Prop :=
  forall k,
    outbound_to_of host (performed c ++ firstn k (pending c))
    <= held_of (performed c ++ firstn k (pending c)).

(** The events of a coroutine that calls [host] under the semaphore only:
    blocks of calls between an [Acquire] and its [Release], calls to
    other hosts, and writes. *)
Inductive guarded (host : string -> bool) : list event -> Prop :=
| guarded_nil : guarded host []
| guarded_block (body rest : list event) :
    calls body -> guarded host rest ->
    guarded host (Acquire :: body ++ Release :: rest)
| guarded_other (url : string) (rest : list event) :
    host url = false -> guarded host rest ->
    guarded host (Start url :: Finish url :: rest)
| guarded_update (filter update : value) (rest : list event) :
    guarded host rest -> guarded host (UpdateOne filter update :: rest)
| guarded_failed (entry : value) (rest : list event) :
    guarded host rest -> guarded host (FailedUpdate entry :: rest).

End Hosts.

Import Hosts.

(** Case analysis on the first computation of a sequence. *)
Ltac step_bind :=
  match goal with
  | |- context [Py.bind ?m _] => destruct m eqn:?; cbn [Py.bind]
  end.

(* ===================================================================== *)
(** ** Fixed-chunk bucketing ([Processor.bucketize])                      *)
(* ===================================================================== *)

Section FixedChunk.

Lemma sum_from_ints (xs : list Z) (acc : Z) :
  Py.sum_from acc (map VInt xs) = Return (acc + zsum xs).
Proof.
  revert acc. induction xs as [|x xs IH]; intros acc; simpl.
  - f_equal. lia.
  - rewrite IH. f_equal. lia.
Qed.

Lemma chunks_upto_enough (fuel : nat) (series : list DailyDownload) :
  (length series <= fuel)%nat ->
  chunks_upto fuel series = chunks series.
Proof.
  unfold chunks.
  remember (length series) as n eqn:Hn.
  revert fuel series Hn.
  induction n as [n IH] using lt_wf_ind.
  intros fuel series Hn Hle.
  destruct series as [|d series]; [destruct fuel; subst; reflexivity|].
  destruct fuel as [|fuel]; [simpl in *; lia|].
  subst n. cbn [length chunks_upto].
  f_equal.
  assert (Hlen : (length (skipn 7 (d :: series)) < length (d :: series))%nat).
  { rewrite length_skipn. simpl. lia. }
  rewrite (IH _ Hlen fuel _ eq_refl) by (simpl in *; lia).
  rewrite (IH _ Hlen (length series) _ eq_refl); [reflexivity|].
  rewrite length_skipn. simpl. lia.
Qed.

Lemma chunks_nil : chunks [] = [].
Proof. reflexivity. Qed.

Lemma chunks_cons (d : DailyDownload) (series : list DailyDownload) :
  chunks (d :: series) =
  firstn 7 (d :: series) :: chunks (skipn 7 (d :: series)).
Proof.
  unfold chunks at 1. cbn [length chunks_upto]. f_equal.
  apply chunks_upto_enough. rewrite length_skipn. simpl. lia.
Qed.

(** A full week: seven entries fill [current_week] and are flushed. *)
Lemma weekly_loop_week (week rest : list DailyDownload) (acc : list value) :
  length week = 7%nat ->
  Processor.weekly_loop (map encode_day (week ++ rest)) acc [] =
  Processor.weekly_loop (map encode_day rest)
    (acc ++ [encode_bucket (bucket_of_chunk week)]) [].
Proof.
  intros Hlen.
  do 8 (destruct week as [|? week]; try discriminate Hlen).
  cbn -[Z.add]. unfold Py.sum. cbn -[Z.add].
  do 2 f_equal. unfold encode_bucket, Processor.bucket, bucket_of_chunk. cbn -[Z.add].
  replace (last_day [d; d0; d1; d2; d3; d4; d5]) with (day d5) by reflexivity.
  match goal with
  | |- [VDict [_; (_, VInt ?a)]] = [VDict [_; (_, VInt ?b)]] =>
      replace a with b by lia
  end.
  reflexivity.
Qed.

(** Fewer than seven entries stay in [current_week]. *)
Lemma weekly_loop_short (days : list DailyDownload) (acc : list value) :
  (length days < 7)%nat ->
  Processor.weekly_loop (map encode_day days) acc [] =
  Return (acc, map VInt (map downloads days)).
Proof.
  intros Hlen.
  do 7 (destruct days as [|? days]; [reflexivity|]).
  simpl in Hlen. lia.
Qed.

Lemma last_app_r {A} (l1 l2 : list A) (d : A) :
  l2 <> [] -> last (l1 ++ l2) d = last l2 d.
Proof.
  intros Hne. induction l1 as [|a l1 IH]; [reflexivity|].
  cbn [app last]. rewrite IH.
  destruct (l1 ++ l2) eqn:Happ; [|reflexivity].
  apply app_eq_nil in Happ. tauto.
Qed.

Lemma nth_error_last {A} (l : list A) (d : A) :
  l <> [] -> nth_error l (length l - 1) = Some (last l d).
Proof.
  induction l as [|a l IH]; [contradiction|]. intros _.
  destruct l as [|b l]; [reflexivity|].
  change (last (a :: b :: l) d) with (last (b :: l) d).
  rewrite <- IH by discriminate.
  cbn [length Nat.sub nth_error]. rewrite Nat.sub_0_r. reflexivity.
Qed.

Lemma last_skipn (n : nat) (series : list DailyDownload) :
  (n < length series)%nat ->
  last_day (skipn n series) = last_day series.
Proof.
  unfold last_day. intros Hlt. f_equal.
  rewrite <- (firstn_skipn n series) at 2.
  rewrite last_app_r; [reflexivity|].
  intros Hnil. apply (f_equal (@length _)) in Hnil.
  rewrite length_skipn in Hnil. simpl in Hnil. lia.
Qed.

(** The loop over a whole series: the full weeks are flushed in order, the
    days left over ([rem]) stay in [current_week]. *)
Lemma weekly_loop_chunks (series : list DailyDownload) :
  forall acc : list value,
  exists fulls rem,
    Processor.weekly_loop (map encode_day series) acc [] =
      Return (acc ++ map encode_bucket (map bucket_of_chunk fulls),
              map VInt (map downloads rem))
    /\ chunks series = fulls ++ (match rem with [] => [] | _ => [rem] end)
    /\ (length rem < 7)%nat
    /\ (rem <> [] -> last_day rem = last_day series).
Proof.
  remember (length series) as n eqn:Hn. revert series Hn.
  induction n as [n IH] using lt_wf_ind. intros series Hn acc.
  destruct (Nat.lt_ge_cases (length series) 7) as [Hshort|Hlong].
  - exists [], series. rewrite weekly_loop_short by assumption.
    simpl. rewrite app_nil_r. repeat split; try assumption.
    destruct series as [|d series]; [reflexivity|].
    rewrite chunks_cons.
    rewrite firstn_all2 by lia. rewrite skipn_all2 by lia. reflexivity.
  - destruct series as [|d series]; [simpl in Hlong; lia|].
    set (week := firstn 7 (d :: series)).
    set (rest := skipn 7 (d :: series)).
    assert (Hsplit : d :: series = week ++ rest)
      by (symmetry; apply firstn_skipn).
    assert (Hweek : length week = 7%nat)
      by (unfold week; rewrite length_firstn; lia).
    assert (Hrest : (length rest < n)%nat)
      by (unfold rest; rewrite length_skipn; simpl in *; lia).
    destruct (IH _ Hrest rest eq_refl
                (acc ++ [encode_bucket (bucket_of_chunk week)]))
      as (fulls & rem & Hloop & Hchunks & Hlen & Hlast).
    exists (week :: fulls), rem.
    rewrite Hsplit at 1. rewrite weekly_loop_week by assumption.
    rewrite Hloop. cbn [map]. rewrite <- app_assoc. cbn [app].
    repeat split; try assumption.
    + rewrite chunks_cons. fold week rest. rewrite Hchunks. reflexivity.
    + intros Hrem. rewrite (Hlast Hrem). unfold rest.
      apply last_skipn.
      destruct (Nat.lt_ge_cases 7 (length (d :: series))) as [|Hle];
        [assumption|].
      exfalso. apply Hrem.
      assert (Hnil : rest = []) by (unfold rest; apply skipn_all2; lia).
      rewrite Hnil in Hchunks. rewrite chunks_nil in Hchunks.
      destruct fulls; destruct rem; try discriminate Hchunks; reflexivity.
Qed.

Lemma getitem_last (series : list DailyDownload) (d0 : DailyDownload) :
  series <> [] ->
  getitem (VList (map encode_day series)) (VInt (-1)) =
  Return (encode_day (last series d0)).
Proof.
  intros Hne. unfold getitem, index_of. rewrite length_map.
  assert (Hpos : (0 < length series)%nat)
    by (destruct series; [contradiction|simpl; lia]).
  replace ((0 <=? -1) && (-1 <? Z.of_nat (length series))) with false
    by reflexivity.
  replace ((-1 <? 0) && (- Z.of_nat (length series) <=? -1)) with true
    by (symmetry; apply andb_true_intro; split;
        [reflexivity|apply Z.leb_le; lia]).
  replace (Z.to_nat (Z.of_nat (length series) + -1)) with (length series - 1)%nat
    by lia.
  rewrite nth_error_map.
  rewrite (nth_error_last series d0 Hne). reflexivity.
Qed.

(** [Processor.bucketize] computes the fixed-chunk buckets of the series
    its argument holds. *)
Lemma bucketize_fixed_spec (download_data : list (string * value))
    (series : list DailyDownload) :
  holds_series download_data series ->
  Processor.bucketize (VDict download_data) =
  Return (map encode_bucket (fixed_chunk_spec series)).
Proof.
  intros [Hget|[Hget Hnil]]; unfold Processor.bucketize.
  2:{ subst series. cbn [get]. rewrite Hget. reflexivity. }
  cbn [get Py.bind]. rewrite Hget. cbn [iter Py.bind].
  destruct (weekly_loop_chunks series [])
    as (fulls & rem & Hloop & Hchunks & Hlen & Hlast).
  rewrite Hloop. cbn [Py.bind app].
  unfold fixed_chunk_spec. rewrite Hchunks.
  destruct rem as [|r rem].
  - cbn [map truthy]. rewrite app_nil_r. reflexivity.
  - cbn [map truthy].
    assert (Hne : series <> []).
    { intros ->. rewrite chunks_nil in Hchunks.
      destruct fulls; discriminate Hchunks. }
    cbn [getitem]. rewrite Hget. cbn [Py.bind].
    rewrite (getitem_last series {| day := ""; downloads := 0 |} Hne).
    cbn [Py.bind encode_day getitem Py.lookup String.eqb Ascii.eqb Bool.eqb].
    unfold Py.sum.
    change (VInt (downloads r) :: map VInt (map downloads rem))
      with (map VInt (map downloads (r :: rem))).
    rewrite sum_from_ints. cbn [Py.bind].
    rewrite map_app, map_app. cbn [map]. do 3 f_equal.
    unfold encode_bucket, Processor.bucket, bucket_of_chunk.
    cbn [week_ending total]. rewrite Hlast by discriminate.
    reflexivity.
Qed.

Lemma zsum_app (xs ys : list Z) : zsum (xs ++ ys) = zsum xs + zsum ys.
Proof.
  unfold zsum. induction xs as [|x xs IH]; cbn [app fold_right]; lia.
Qed.

Lemma chunks_concat (series : list DailyDownload) :
  concat (chunks series) = series.
Proof.
  remember (length series) as n eqn:Hn. revert series Hn.
  induction n as [n IH] using lt_wf_ind. intros series Hn.
  destruct series as [|d series]; [reflexivity|].
  rewrite chunks_cons. cbn [concat].
  rewrite (IH (length (skipn 7 (d :: series)))); [apply firstn_skipn| |reflexivity].
  rewrite length_skipn. subst n. simpl. lia.
Qed.

Lemma zsum_concat_chunks (groups : list (list DailyDownload)) :
  zsum (map total (map bucket_of_chunk groups)) =
  zsum (map downloads (concat groups)).
Proof.
  induction groups as [|g groups IH]; [reflexivity|].
  cbn [map concat]. rewrite map_app, zsum_app, <- IH. reflexivity.
Qed.

(** Every chunk has one to seven days, and only the last may have fewer
    than seven. *)
Lemma chunks_sizes (series : list DailyDownload) :
  forall i chunk,
    nth_error (chunks series) i = Some chunk ->
    length chunk = 7%nat
    \/ (S i = length (chunks series) /\ (1 <= length chunk <= 6)%nat).
Proof.
  remember (length series) as n eqn:Hn. revert series Hn.
  induction n as [n IH] using lt_wf_ind. intros series Hn i chunk Hnth.
  destruct series as [|d series]; [destruct i; discriminate Hnth|].
  rewrite chunks_cons in *.
  destruct i as [|i].
  - assert (Hchunk : chunk = firstn 7 (d :: series))
      by (cbn [nth_error] in Hnth; congruence).
    clear Hnth. subst chunk. rewrite length_firstn.
    destruct (Nat.le_gt_cases 7 (length (d :: series))) as [Hle|Hgt].
    + left. lia.
    + right. rewrite skipn_all2 by lia. rewrite chunks_nil.
      cbn [length] in *. lia.
  - cbn [nth_error] in Hnth.
    assert (Hlen : (length (skipn 7 (d :: series)) < n)%nat)
      by (rewrite length_skipn; subst n; simpl; lia).
    destruct (IH _ Hlen _ eq_refl i chunk Hnth) as [H7|[Hlast Hsize]].
    + left. exact H7.
    + right. cbn [length]. split; [congruence|exact Hsize].
Qed.

End FixedChunk.

(** C2.  Fixed-chunk alignment: for a decoded body holding a daily series,
    [Processor.bucketize] returns one bucket per chunk of the series cut
    into consecutive seven-day chunks in arrival order (the chunks
    concatenate to the series; every chunk but the last has seven days, a
    trailing chunk has one to six); each bucket ends on the last day of
    its chunk and sums its counts.  For seventeen entries of count 1 the
    buckets are three, with downloads 7, 7 and 3, the last one ending on
    the last day of the input. *)
Theorem bucketize_fixed_chunk (download_data : list (string * value))
    (series : list DailyDownload) :
  holds_series download_data series ->
  Processor.bucketize (VDict download_data) =
    Return (map encode_bucket (map bucket_of_chunk (chunks series)))
  /\ concat (chunks series) = series
  /\ (forall i chunk,
        nth_error (chunks series) i = Some chunk ->
        length chunk = 7%nat
        \/ (S i = length (chunks series) /\ (1 <= length chunk <= 6)%nat))
  /\ (length series = 17%nat ->
      (forall d, In d series -> downloads d = 1) ->
      exists e1 e2,
        Processor.bucketize (VDict download_data) =
        Return [Processor.bucket (VStr e1) 7; Processor.bucket (VStr e2) 7;
                Processor.bucket (VStr (last_day series)) 3]).
Proof.
  intros Hholds. repeat split.
  - apply bucketize_fixed_spec, Hholds.
  - apply chunks_concat.
  - apply chunks_sizes.
  - intros Hlen Hones.
    rewrite (bucketize_fixed_spec _ _ Hholds). clear Hholds.
    apply Forall_forall in Hones.
    do 18 (destruct series as [|? series]; try discriminate Hlen).
    repeat match goal with
           | H : Forall _ (_ :: _) |- _ =>
               apply Forall_cons_iff in H; destruct H as [? H]
           end.
    cbv beta in *.
    unfold fixed_chunk_spec, chunks, bucket_of_chunk, encode_bucket, last_day.
    cbn -[Z.add].
    repeat match goal with
           | H : downloads _ = 1 |- _ => rewrite H; clear H
           end.
    do 2 eexists. reflexivity.
Qed.

Lemma bucketize_fixed_chunk_witness :
  holds_series (Examples.download_data Examples.seventeen_days)
    Examples.seventeen_days
  /\ Processor.bucketize (VDict (Examples.download_data Examples.seventeen_days)) =
     Return [Processor.bucket (VStr "2024-01-07") 7;
             Processor.bucket (VStr "2024-01-14") 7;
             Processor.bucket (VStr "2024-01-17") 3].
Proof.
  assert (Hholds : holds_series (Examples.download_data Examples.seventeen_days)
                     Examples.seventeen_days) by (left; reflexivity).
  split; [exact Hholds|].
  destruct (bucketize_fixed_chunk _ _ Hholds) as (Hspec & _).
  rewrite Hspec. vm_compute. reflexivity.
Defined.

(** C10.  Fixed-chunk bucketing conserves the total: the downloads of the
    emitted buckets add up to the daily counts of the series, and an empty
    series yields no bucket. *)
Theorem bucketize_fixed_conserves_total (download_data : list (string * value))
    (series : list DailyDownload) :
  holds_series download_data series ->
  exists buckets,
    Processor.bucketize (VDict download_data) = Return (map encode_bucket buckets)
    /\ zsum (map total buckets) = zsum (map downloads series)
    /\ (series = [] -> buckets = []).
Proof.
  intros Hholds. exists (fixed_chunk_spec series). repeat split.
  - apply bucketize_fixed_spec, Hholds.
  - unfold fixed_chunk_spec.
    rewrite zsum_concat_chunks, chunks_concat. reflexivity.
  - intros ->. reflexivity.
Qed.

Lemma bucketize_fixed_conserves_total_witness :
  holds_series (Examples.download_data Examples.seventeen_days)
    Examples.seventeen_days
  /\ exists buckets,
       Processor.bucketize (VDict (Examples.download_data Examples.seventeen_days)) =
         Return (map encode_bucket buckets)
       /\ zsum (map total buckets) = 17.
Proof.
  assert (Hholds : holds_series (Examples.download_data Examples.seventeen_days)
                     Examples.seventeen_days) by (left; reflexivity).
  split; [exact Hholds|].
  destruct (bucketize_fixed_conserves_total _ _ Hholds)
    as (buckets & Hrun & Hsum & _).
  exists buckets. split; [exact Hrun|]. rewrite Hsum. reflexivity.
Defined.

(* ===================================================================== *)
(** ** The semaphore bounds the calls of gated coroutines                 *)
(* ===================================================================== *)

Section Semaphore.

Import Loop.

Lemma outbound_of_app (es es' : list event) :
  outbound_of (es ++ es') = outbound_of es + outbound_of es'.
Proof. unfold outbound_of. rewrite map_app. apply zsum_app. Qed.

Lemma held_of_app (es es' : list event) :
  held_of (es ++ es') = held_of es + held_of es'.
Proof. unfold held_of. rewrite map_app. apply zsum_app. Qed.

Lemma covered_spawn (script : list event) : gated script -> covered (spawn script).
Proof. intros Hg k. exact (Hg k). Qed.

Lemma covered_now (c : coroutine) :
  covered c -> outbound_of (performed c) <= held_of (performed c).
Proof. intros Hc. specialize (Hc O). cbn [firstn] in Hc. rewrite app_nil_r in Hc. exact Hc. Qed.

Lemma advance_spec (p p' : nat) (c c' : coroutine) :
  advance p c = Some (p', c') ->
  exists e rest,
    pending c = e :: rest
    /\ c' = {| performed := performed c ++ [e]; pending := rest |}
    /\ Z.of_nat p' + held_delta e = Z.of_nat p.
Proof.
  unfold advance. destruct (pending c) as [|e rest]; [discriminate|].
  intros H. exists e, rest.
  destruct e; try destruct p as [|p0]; try discriminate H;
    injection H as <- <-; repeat split; cbn [held_delta]; lia.
Qed.

Lemma advance_covered (p p' : nat) (c c' : coroutine) :
  advance p c = Some (p', c') -> covered c -> covered c'.
Proof.
  intros Hadv Hc. destruct (advance_spec _ _ _ _ Hadv) as (e & rest & Hp & -> & _).
  intros k. cbn [performed pending]. specialize (Hc (S k)).
  rewrite Hp in Hc. cbn [firstn] in Hc.
  rewrite <- app_assoc. exact Hc.
Qed.

Lemma nth_error_firstn_skipn {A} (l : list A) (i : nat) (a : A) :
  nth_error l i = Some a -> l = firstn i l ++ a :: skipn (S i) l.
Proof.
  revert i. induction l as [|b l IH]; intros [|i] H; try discriminate H.
  - injection H as ->. reflexivity.
  - cbn [firstn skipn app]. f_equal. apply IH. exact H.
Qed.

Lemma balanced_start (value : nat) (scripts : list (list event)) :
  Forall gated scripts -> balanced value (start value scripts).
Proof.
  intros Hg. split.
  - unfold held. cbn [start permits coroutines].
    assert (Hzero : zsum (map (fun c => held_of (performed c)) (map spawn scripts)) = 0).
    { clear Hg. induction scripts as [|s ss IH]; [reflexivity|].
      cbn [map]. unfold zsum in *. cbn [fold_right]. rewrite IH. reflexivity. }
    rewrite Hzero. lia.
  - cbn [start coroutines]. induction Hg as [|s ss Hs _ IH]; constructor.
    + apply covered_spawn, Hs.
    + exact IH.
Qed.

Lemma zsum_cons (x : Z) (xs : list Z) : zsum (x :: xs) = x + zsum xs.
Proof. reflexivity. Qed.

Lemma balanced_step (value i : nat) (s s' : state) :
  step i s = Some s' -> balanced value s -> balanced value s'.
Proof.
  unfold step. destruct (nth_error (coroutines s) i) as [c|] eqn:Hnth; [|discriminate].
  destruct (advance (permits s) c) as [[p c']|] eqn:Hadv; [|discriminate].
  pose proof (nth_error_firstn_skipn _ _ _ Hnth) as Hsplit.
  set (before := firstn i (coroutines s)) in *.
  set (after := skipn (S i) (coroutines s)) in *.
  intros H [Hsum Hcov].
  assert (Hs' : s' = {| permits := p; coroutines := before ++ c' :: after |})
    by congruence.
  clear H. subst s'.
  destruct (advance_spec _ _ _ _ Hadv) as (e & rest & Hp & Hc' & Hperm).
  unfold balanced, held in *. cbn [permits coroutines].
  rewrite Hsplit in Hsum, Hcov.
  rewrite map_app, zsum_app in Hsum |- *.
  cbn [map] in Hsum |- *. rewrite zsum_cons in Hsum |- *.
  split.
  - rewrite Hc'. cbn [performed]. rewrite held_of_app.
    change (held_of [e]) with (held_delta e + 0). lia.
  - apply Forall_app in Hcov. destruct Hcov as [H1 H2].
    apply Forall_app. split; [exact H1|].
    inversion H2 as [|? ? Hc Hrest]; subst. constructor; [|exact Hrest].
    eapply advance_covered; eassumption.
Qed.

Lemma balanced_run (value : nat) (schedule : list nat) :
  forall s s', run schedule s = Some s' -> balanced value s -> balanced value s'.
Proof.
  induction schedule as [|i rest IH]; intros s s' Hrun Hb; cbn [run] in Hrun.
  - injection Hrun as <-. exact Hb.
  - destruct (step i s) as [s1|] eqn:Hstep; [|discriminate].
    eapply IH; [exact Hrun|]. eapply balanced_step; eassumption.
Qed.

Lemma balanced_bound (value : nat) (s : state) :
  balanced value s -> outbound s <= Z.of_nat value.
Proof.
  intros [Hsum Hcov].
  assert (Hle : outbound s <= held s).
  { unfold outbound, held. clear Hsum.
    induction Hcov as [|c cs Hc _ IH]; [reflexivity|].
    cbn [map]. unfold zsum in *. cbn [fold_right].
    pose proof (covered_now c Hc). lia. }
  lia.
Qed.

(** Whatever the schedule, gated coroutines never have more calls open
    than the semaphore had permits. *)
Lemma gated_bound (value : nat) (scripts : list (list event)) (s : state) :
  Forall gated scripts ->
  reachable (start value scripts) s ->
  outbound s <= Z.of_nat value.
Proof.
  intros Hg [schedule Hrun]. apply balanced_bound.
  eapply balanced_run; [exact Hrun|]. apply balanced_start, Hg.
Qed.

Lemma calls_app (es es' : list event) : calls es -> calls es' -> calls (es ++ es').
Proof.
  intros H H'. induction H as [|url rest _ IH]; [exact H'|].
  cbn [app]. constructor. exact IH.
Qed.

Lemma calls_within (body : list event) :
  calls body ->
  forall k,
    outbound_of (firstn k (body ++ [Release]))
    <= 1 + held_of (firstn k (body ++ [Release])).
Proof.
  induction 1 as [|url rest _ IH]; intros k.
  - destruct k as [|[|k]]; cbn; lia.
  - destruct k as [|[|k]]; try (cbn; lia).
    specialize (IH k). cbn [app firstn].
    change (Start url :: Finish url :: firstn k (rest ++ [Release]))
      with ([Start url; Finish url] ++ firstn k (rest ++ [Release])).
    rewrite outbound_of_app, held_of_app.
    change (outbound_of [Start url; Finish url]) with 0.
    change (held_of [Start url; Finish url]) with 0. lia.
Qed.

(** Calls made between acquiring the semaphore and releasing it are
    gated. *)
Lemma gated_calls (body : list event) :
  calls body -> gated (Acquire :: body ++ [Release]).
Proof.
  intros Hc [|k]; [cbn; lia|].
  pose proof (calls_within body Hc k) as H. cbn [firstn].
  change (Acquire :: firstn k (body ++ [Release]))
    with ([Acquire] ++ firstn k (body ++ [Release])).
  rewrite outbound_of_app, held_of_app.
  change (outbound_of [Acquire]) with 0. change (held_of [Acquire]) with 1. lia.
Qed.

End Semaphore.

(* ===================================================================== *)
(** ** The events of the processor's coroutines                           *)
(* ===================================================================== *)

Section ProcessorScripts.

Import Loop.

Lemma calls_ret {A} (a : A) : calls (fst (ret a)).
Proof. constructor. Qed.

Lemma calls_lift {A} (o : outcome A) : calls (fst (lift o)).
Proof. constructor. Qed.

Lemma calls_request {A} (w : world) (url : string) (body : response -> outcome A) :
  calls (fst (request w url body)).
Proof. repeat constructor. Qed.

Lemma calls_bind {A B} (m : task A) (f : A -> task B) :
  calls (fst m) -> (forall a, calls (fst (f a))) -> calls (fst (Async.bind m f)).
Proof.
  intros Hm Hf. unfold Async.bind. destruct (snd m) as [e|a]; cbn [fst].
  - exact Hm.
  - apply calls_app; [exact Hm|apply Hf].
Qed.

Lemma calls_try_except {A} (m : task A) (handler : exn -> task A) :
  calls (fst m) -> (forall e, calls (fst (handler e))) ->
  calls (fst (try_except m handler)).
Proof.
  intros Hm Hh. unfold try_except. destruct (snd m) as [e|a]; cbn [fst].
  - apply calls_app; [exact Hm|apply Hh].
  - exact Hm.
Qed.

Create HintDb calls discriminated.
#[local] Hint Resolve calls_ret calls_lift calls_request calls_bind
  calls_try_except : calls.

Lemma calls_fetch_ecosystem_stats (w : world) (package_name : string) :
  calls (fst (Processor.fetch_ecosystem_stats w package_name)).
Proof. unfold Processor.fetch_ecosystem_stats. auto with calls. Qed.

Lemma calls_fetch_weekly_trends (w : world) (package_name : string) :
  calls (fst (Processor.fetch_weekly_trends w package_name)).
Proof.
  unfold Processor.fetch_weekly_trends.
  apply calls_try_except; [|auto with calls].
  apply calls_bind; [auto with calls|]. intros start_date.
  apply calls_bind; [auto with calls|]. intros [returned|download_data];
    auto with calls.
Qed.

#[local] Hint Resolve calls_fetch_ecosystem_stats calls_fetch_weekly_trends : calls.

(** The events of [fetch_package_info]: the semaphore is acquired, calls
    are made one after the other, the semaphore is released. *)
Lemma fetch_package_info_script (w : world) (package_name : string) :
  exists body,
    fst (Processor.fetch_package_info w package_name) = Acquire :: body ++ [Release]
    /\ calls body.
Proof.
  unfold Processor.fetch_package_info.
  match goal with
  | |- context [with_semaphore ?m] => set (body := m)
  end.
  exists (fst body). split.
  - unfold try_except, with_semaphore. cbn [snd fst].
    destruct (snd body); cbn [fst ret]; [rewrite app_nil_r|]; reflexivity.
  - subst body.
    apply calls_bind; [auto with calls|]. intros [returned|data]; [auto with calls|].
    apply calls_bind; [auto with calls|]. intros ecosystem_stats.
    apply calls_bind; [auto with calls|]. intros failed.
    destruct (truthy failed); [auto with calls|].
    apply calls_bind; [auto with calls|]. intros weekly_stats.
    apply calls_bind; [auto with calls|]. intros failed'.
    destruct (truthy failed'); auto with calls.
Qed.

Lemma fetch_package_info_gated (w : world) (package_names : list string) :
  Forall gated (Processor.scripts w package_names).
Proof.
  unfold Processor.scripts. apply Forall_forall. intros script Hin.
  apply in_map_iff in Hin. destruct Hin as (name & <- & _).
  destruct (fetch_package_info_script w name) as (body & -> & Hcalls).
  apply gated_calls, Hcalls.
Qed.

(** X1.  In a batch of the processor no more than ten outbound calls
    execute at any point of any schedule: every request of
    [fetch_package_info] is made while its coroutine holds the
    semaphore. *)
Lemma processor_outbound_bound (w : world) (package_names : list string)
    (s : state) :
  reachable (start Processor.semaphore (Processor.scripts w package_names)) s ->
  outbound s <= 10.
Proof.
  intros Hreach.
  apply (gated_bound Processor.semaphore _ s (fetch_package_info_gated w package_names) Hreach).
Qed.

End ProcessorScripts.

(* ===================================================================== *)
(** ** Calendar-week bucketing ([Updater.bucketize])                      *)
(* ===================================================================== *)

(** C1.  Calendar-week alignment, evaluated.  On the series that starts
    on Wednesday 2024-01-03 and runs through eight full weeks from Monday
    2024-01-08, [Updater.bucketize] emits nine buckets: the first is the
    leading partial week (five days, ending Sunday 2024-01-07), emitted at
    the first Monday because [current_week] is not empty.  An incomplete
    trailing week is dropped, by the length test after the loop.  On the
    window the updater itself asks for (a Sunday to a Sunday) the first
    bucket is that single leading Sunday. *)
Theorem bucketize_calendar_leading_partial_week :
  Updater.bucketize (VDict (Examples.download_data Examples.wednesday_start)) =
    Return (Updater.bucket (Datetime.ymd2ord 2024 1 7) 5
              :: map (fun k => Updater.bucket
                                 (Datetime.ymd2ord 2024 1 14 + 7 * Z.of_nat k) 7)
                     (seq 0 8))
  /\ Updater.bucketize
       (VDict (Examples.download_data Examples.monday_start_with_tail)) =
     Return (map (fun k => Updater.bucket
                             (Datetime.ymd2ord 2024 1 14 + 7 * Z.of_nat k) 7)
                 (seq 0 8))
  /\ Updater.get_week_boundaries (Examples.healthy Examples.refresh_window) =
     Return (Datetime.ymd2ord 2024 1 14, Datetime.ymd2ord 2024 3 10)
  /\ Datetime.weekday (Datetime.ymd2ord 2024 1 14) = 6
  /\ snd (Updater.fetch_weekly_trends (Examples.healthy Examples.refresh_window)
            (VStr "left-pad")) =
     Return (VDict
       [("weekly_trends",
         VList (Updater.bucket (Datetime.ymd2ord 2024 1 14) 1
                  :: map (fun k => Updater.bucket
                                     (Datetime.ymd2ord 2024 1 21 + 7 * Z.of_nat k) 7)
                         (seq 0 8)));
        ("error", VNone)]).
Proof. repeat split; vm_compute; reflexivity. Qed.

(* ===================================================================== *)
(** ** The updater's usage-statistics calls and the semaphore             *)
(* ===================================================================== *)

(** C3.  The bound on simultaneous outbound calls, evaluated on the
    updater.  With eleven packages, ten coroutines hold the ten permits
    and have their registry request in flight.  When the first of them is
    answered it releases its permit and starts its usage-statistics call,
    which [update_package_info] makes without the semaphore, and the
    eleventh coroutine takes the permit for its registry request: eleven
    outbound calls are executing.  Once the registry has answered them
    all, eleven usage-statistics calls are executing and all ten permits
    are free. *)
Theorem updater_usage_stats_calls_not_gated :
  exists s1 s2,
    Loop.reachable
      (Loop.start Updater.semaphore
         (Updater.scripts (Examples.healthy Examples.refresh_window)
            Examples.eleven_packages)) s1
    /\ Loop.outbound s1 = 11
    /\ Loop.permits s1 = 0%nat
    /\ Loop.reachable
         (Loop.start Updater.semaphore
            (Updater.scripts (Examples.healthy Examples.refresh_window)
               Examples.eleven_packages)) s2
    /\ Loop.outbound s2 = 11
    /\ Loop.permits s2 = 10%nat.
Proof.
  set (s0 := Loop.start Updater.semaphore
               (Updater.scripts (Examples.healthy Examples.refresh_window)
                  Examples.eleven_packages)).
  set (early := Examples.first_wave ++ Examples.first_answer).
  set (late := early ++ Examples.other_answers).
  destruct (Loop.run early s0) as [s1|] eqn:Hearly;
    [|vm_compute in Hearly; discriminate Hearly].
  destruct (Loop.run late s0) as [s2|] eqn:Hlate;
    [|vm_compute in Hlate; discriminate Hlate].
  exists s1, s2.
  split; [exists early; exact Hearly|].
  vm_compute in Hearly. injection Hearly as <-.
  split; [reflexivity|]. split; [reflexivity|].
  split; [exists late; exact Hlate|].
  vm_compute in Hlate. injection Hlate as <-.
  split; reflexivity.
Qed.

(* ===================================================================== *)
(** ** Error records                                                      *)
(* ===================================================================== *)

(** C6.  The error record, evaluated on a registry request that raises an
    exception whose text is empty (a timeout): the record has its data
    fields zeroed and an empty error message, and line 170 counts it among
    the successful ones. *)
Theorem error_entry_with_empty_message :
  snd (Processor.fetch_package_info Examples.timed_out "left-pad") =
    Return (Processor._create_error_entry "left-pad" (VStr ""))
  /\ Processor.process_packages Examples.timed_out ["left-pad"] [0%nat] =
     Some (Return [Processor._create_error_entry "left-pad" (VStr "")])
  /\ Processor.successful [Processor._create_error_entry "left-pad" (VStr "")]
     = 1%nat.
Proof. repeat split; vm_compute; reflexivity. Qed.

(* ===================================================================== *)
(** ** What the coroutines return                                         *)
(* ===================================================================== *)

Section Results.

Lemma snd_bind {A B} (m : task A) (f : A -> task B) :
  snd (Async.bind m f) = Py.bind (snd m) (fun a => snd (f a)).
Proof. unfold Async.bind. destruct (snd m); reflexivity. Qed.

Lemma snd_try_except {A} (m : task A) (handler : exn -> task A) :
  snd (try_except m handler) =
  match snd m with
  | Raise e => snd (handler e)
  | Return a => Return a
  end.
Proof. unfold try_except. destruct m as [log [e|a]]; reflexivity. Qed.

Lemma snd_with_semaphore {A} (m : task A) : snd (with_semaphore m) = snd m.
Proof. reflexivity. Qed.

Lemma snd_request {A} (w : world) (url : string) (body : response -> outcome A) :
  snd (request w url body) = Py.bind (http_get w url) body.
Proof. reflexivity. Qed.

Lemma snd_lift {A} (o : outcome A) : snd (lift o) = o.
Proof. reflexivity. Qed.

Lemma snd_ret {A} (a : A) : snd (ret a) = Return a.
Proof. reflexivity. Qed.

End Results.

Create Rewrite HintDb results.
#[local] Hint Rewrite @snd_bind @snd_try_except @snd_with_semaphore
  @snd_request @snd_lift @snd_ret : results.

(** The coroutine returns an error record. *)
Ltac error_record :=
  solve [ left;
          repeat (rewrite ?snd_bind, ?snd_lift, ?snd_ret;
                  cbn [Py.bind getitem Py.lookup String.eqb Ascii.eqb
                       Bool.eqb snd ret]);
          eexists; reflexivity ].

(** C9.  Usage statistics answered with status 200 and a JSON object:
    [fetch_ecosystem_stats] (of either script) returns a success value,
    its [error] being [None], in which [total_downloads] is the
    [downloads] field, 0 when the field is missing, and [dependent_count]
    is the [dependent_packages_count] field, 0 when it is missing. *)
Theorem fetch_ecosystem_stats_defaults (w : world) (package_name : string)
    (body : list (string * value)) :
  responds w (Processor.ecosystem_request package_name) (VDict body) ->
  exists total dependents,
    snd (Processor.fetch_ecosystem_stats w package_name) =
      Return (VDict [("total_downloads", total);
                     ("dependent_count", dependents);
                     ("error", VNone)])
    /\ snd (Updater.fetch_ecosystem_stats w (VStr package_name)) =
      Return (VDict [("total_downloads", total);
                     ("dependent_count", dependents);
                     ("error", VNone)])
    /\ (Py.lookup "downloads" body = None -> total = VInt 0)
    /\ (Py.lookup "dependent_packages_count" body = None -> dependents = VInt 0)
    /\ (forall x, Py.lookup "downloads" body = Some x -> total = x)
    /\ (forall x, Py.lookup "dependent_packages_count" body = Some x ->
                  dependents = x).
Proof.
  intros (r & Hget & Hstatus & Hjson).
  exists (match Py.lookup "downloads" body with Some x => x | None => VInt 0 end),
         (match Py.lookup "dependent_packages_count" body with
          | Some x => x | None => VInt 0 end).
  repeat split.
  - unfold Processor.fetch_ecosystem_stats.
    rewrite snd_try_except, snd_request, Hget. cbn [Py.bind].
    rewrite Hstatus, Hjson. reflexivity.
  - unfold Updater.fetch_ecosystem_stats.
    rewrite snd_try_except, snd_request.
    change (Updater.ecosystem_request (VStr package_name))
      with (Processor.ecosystem_request package_name).
    rewrite Hget. cbn [Py.bind].
    rewrite Hstatus, Hjson. reflexivity.
  - intros ->. reflexivity.
  - intros ->. reflexivity.
  - intros x ->. reflexivity.
  - intros x ->. reflexivity.
Qed.

Lemma fetch_ecosystem_stats_defaults_witness :
  responds Examples.bare_stats (Processor.ecosystem_request "left-pad")
    (VDict [("name", VStr "left-pad")])
  /\ snd (Processor.fetch_ecosystem_stats Examples.bare_stats "left-pad") =
      Return (VDict [("total_downloads", VInt 0);
                     ("dependent_count", VInt 0);
                     ("error", VNone)]).
Proof.
  assert (H : responds Examples.bare_stats
                (Processor.ecosystem_request "left-pad")
                (VDict [("name", VStr "left-pad")])).
  { eexists. repeat split; reflexivity. }
  split; [exact H|].
  destruct (fetch_ecosystem_stats_defaults _ _ _ H)
    as (total & dependents & Hrun & _ & Htotal & Hdependents & _).
  rewrite Hrun, (Htotal eq_refl), (Hdependents eq_refl). reflexivity.
Defined.

(* ===================================================================== *)
(** ** The per-package pipeline of the processor                          *)
(* ===================================================================== *)

Section Pipeline.

(** What [fetch_ecosystem_stats] returns: an error dictionary, or, when
    the request yielded a decoded body, the two figures. *)
Lemma fetch_ecosystem_stats_shape (w : world) (package_name : string) :
  (exists msg,
     snd (Processor.fetch_ecosystem_stats w package_name) =
     Return (VDict [("error", VStr msg)]))
  \/ (fault w (Processor.ecosystem_request package_name) = false
      /\ exists total dependents,
        snd (Processor.fetch_ecosystem_stats w package_name) =
        Return (VDict [("total_downloads", total);
                       ("dependent_count", dependents);
                       ("error", VNone)])).
Proof.
  unfold Processor.fetch_ecosystem_stats, fault.
  rewrite snd_try_except, snd_request.
  destruct (http_get w _) as [e|r]; cbn [Py.bind snd ret]; [left; eauto|].
  destruct (status r =? 200); cbn [negb orb]; [|left; eauto].
  destruct (json r) as [e|data]; cbn [Py.bind snd ret]; [left; eauto|].
  destruct data; cbn [get Py.bind snd ret]; try (left; eauto; fail).
  right. eauto.
Qed.

(** What [fetch_weekly_trends] returns: an error dictionary, or, when the
    request was made and yielded a decoded body, the weekly buckets. *)
Lemma fetch_weekly_trends_shape (w : world) (package_name : string) :
  (exists msg,
     snd (Processor.fetch_weekly_trends w package_name) =
     Return (VDict [("error", VStr msg)]))
  \/ (exists start_date,
        Datetime.add_days (now w) (-60) = Return start_date
        /\ fault w (Processor.downloads_request start_date (now w) package_name)
           = false
        /\ exists downloads_by_week,
          snd (Processor.fetch_weekly_trends w package_name) =
          Return (VDict [("weekly_trends", VList downloads_by_week);
                         ("error", VNone)])).
Proof.
  unfold Processor.fetch_weekly_trends, fault.
  rewrite snd_try_except, snd_bind, snd_lift.
  destruct (Datetime.add_days (now w) (-60)) as [e|start_date];
    cbn [Py.bind snd ret]; [left; eauto|].
  rewrite snd_bind, snd_request.
  destruct (http_get w _) as [e|r] eqn:Hget; cbn [Py.bind snd ret]; [left; eauto|].
  destruct (status r =? 200) eqn:Hstatus; cbn [negb Py.bind snd ret];
    [|left; eauto].
  destruct (json r) as [e|data] eqn:Hjson; cbn [Py.bind snd ret lift];
    [left; eauto|].
  destruct (Processor.bucketize data) as [e|buckets]; cbn [Py.bind snd ret];
    [left; eauto|].
  right. exists start_date. rewrite Hget, Hstatus, Hjson. eauto.
Qed.

(** What the version check and the composition do: raise, return the
    error record for missing version information, or return a record
    built from the fields of the three results. *)
Lemma compose_cases (package_name : string) (data ecosystem_stats weekly_stats : value) :
  (exists e,
     Processor.compose package_name data ecosystem_stats weekly_stats = Raise e)
  \/ Processor.compose package_name data ecosystem_stats weekly_stats =
     Return (Processor._create_error_entry package_name
               (VStr "No version information found"))
  \/ (exists description dependencies total weekly_trends dependent_count
             latest_version,
        getitem ecosystem_stats (VStr "total_downloads") = Return total
        /\ getitem weekly_stats (VStr "weekly_trends") = Return weekly_trends
        /\ Processor.compose package_name data ecosystem_stats weekly_stats =
           Return (VDict
             [("name", VStr package_name);
              ("description", description);
              ("link", VStr ("https://www.npmjs.com/package/" +:+ package_name));
              ("dependencies", dependencies);
              ("downloads", VDict [("total", total);
                                   ("weekly_trends", weekly_trends)]);
              ("dependent_packages_count", dependent_count);
              ("latest_version", latest_version);
              ("error", VNone)])).
Proof.
  unfold Processor.compose.
  do 2 (step_bind; [left; eauto|]).
  destruct (truthy _); cbn [negb Py.bind]; [|right; left; reflexivity].
  step_bind; [left; eauto|].
  match goal with |- context [if ?b then _ else _] => destruct b end;
    [right; left; reflexivity|].
  do 8 (step_bind; [left; eauto|]).
  right. right. do 6 eexists. repeat split; eassumption || reflexivity.
Qed.

(** What [fetch_package_info] returns: an error record, or, when none of
    the three requests failed, a record composed from their results. *)
Lemma fetch_package_info_cases (w : world) (package_name : string) :
  (exists msg,
     snd (Processor.fetch_package_info w package_name) =
     Return (Processor._create_error_entry package_name (VStr msg)))
  \/ (Processor.stage_fault w package_name = false
      /\ exists description dependencies total weekly_trends dependent_count
                latest_version,
        snd (Processor.fetch_package_info w package_name) =
        Return (VDict
          [("name", VStr package_name);
           ("description", description);
           ("link", VStr ("https://www.npmjs.com/package/" +:+ package_name));
           ("dependencies", dependencies);
           ("downloads", VDict [("total", total);
                                ("weekly_trends", weekly_trends)]);
           ("dependent_packages_count", dependent_count);
           ("latest_version", latest_version);
           ("error", VNone)])).
Proof.
  unfold Processor.fetch_package_info, Processor.stage_fault.
  rewrite snd_try_except, snd_with_semaphore, snd_bind, snd_request.
  unfold fault at 1.
  destruct (http_get w (Processor.registry_request package_name)) as [e|r];
    cbn [Py.bind snd ret]; [error_record|].
  destruct (status r =? 200); cbn [negb orb Py.bind snd ret]; [|left; eauto].
  destruct (json r) as [e|data]; cbn [Py.bind snd ret]; [error_record|].
  rewrite snd_bind.
  destruct (fetch_ecosystem_stats_shape w package_name)
    as [[msg Hstats]|(Hfault & total & dependents & Hstats)];
    rewrite Hstats; cbn [Py.bind]; rewrite snd_bind, snd_lift;
    cbn [get Py.lookup String.eqb Ascii.eqb Bool.eqb Py.bind].
  - (* the usage statistics failed *)
    destruct (truthy (VStr msg)); [error_record|].
    rewrite snd_bind.
    destruct (fetch_weekly_trends_shape w package_name)
      as [[msg' Htrends]|(start_date & _ & _ & buckets & Htrends)];
      rewrite Htrends; cbn [Py.bind]; rewrite snd_bind, snd_lift;
      cbn [get Py.lookup String.eqb Ascii.eqb Bool.eqb Py.bind].
    + destruct (truthy (VStr msg')); [error_record|]. rewrite snd_lift.
      destruct (compose_cases package_name data (VDict [("error", VStr msg)])
                  (VDict [("error", VStr msg')]))
        as [[e ->]|[->|(? & ? & ? & ? & ? & ? & Habs & _)]];
        [error_record|error_record|discriminate Habs].
    + cbn [truthy]. rewrite snd_lift.
      destruct (compose_cases package_name data (VDict [("error", VStr msg)])
                  (VDict [("weekly_trends", VList buckets); ("error", VNone)]))
        as [[e ->]|[->|(? & ? & ? & ? & ? & ? & Habs & _)]];
        [error_record|error_record|discriminate Habs].
  - (* the usage statistics were fetched *)
    cbn [truthy]. rewrite snd_bind. rewrite Hfault.
    destruct (fetch_weekly_trends_shape w package_name)
      as [[msg' Htrends]|(start_date & Hstart & Hfault' & buckets & Htrends)];
      rewrite Htrends; cbn [Py.bind]; rewrite snd_bind, snd_lift;
      cbn [get Py.lookup String.eqb Ascii.eqb Bool.eqb Py.bind].
    + destruct (truthy (VStr msg')); [error_record|]. rewrite snd_lift.
      destruct (compose_cases package_name data
                  (VDict [("total_downloads", total);
                          ("dependent_count", dependents); ("error", VNone)])
                  (VDict [("error", VStr msg')]))
        as [[e ->]|[->|(? & ? & ? & ? & ? & ? & _ & Habs & _)]];
        [error_record|error_record|discriminate Habs].
    + cbn [truthy]. rewrite snd_lift. rewrite Hstart, Hfault'.
      destruct (compose_cases package_name data
                  (VDict [("total_downloads", total);
                          ("dependent_count", dependents); ("error", VNone)])
                  (VDict [("weekly_trends", VList buckets); ("error", VNone)]))
        as [[e ->]|[->|(description & dependencies & total' & weekly & count
                        & latest & _ & _ & ->)]];
        [error_record|error_record|].
      right. split; [reflexivity|]. do 6 eexists. reflexivity.
Qed.

End Pipeline.

(* ===================================================================== *)
(** ** The batch of the processor                                         *)
(* ===================================================================== *)

Section Batch.

(** [fetch_package_info] returns, and the record it returns carries the
    name it was given. *)
Lemma fetch_package_info_returns (w : world) (package_name : string) :
  exists record,
    snd (Processor.fetch_package_info w package_name) = Return record
    /\ getitem record (VStr "name") = Return (VStr package_name).
Proof.
  destruct (fetch_package_info_cases w package_name)
    as [[msg ->]|(_ & ? & ? & ? & ? & ? & ? & ->)];
    eexists; split; reflexivity.
Qed.

Lemma first_raise_none {A} (xs : list A) (completion : list nat) :
  Processor.first_raise (map Return xs) completion = None.
Proof.
  induction completion as [|i rest IH]; [reflexivity|].
  cbn [Processor.first_raise]. rewrite nth_error_map.
  destruct (nth_error xs i); exact IH.
Qed.

Lemma results_all {A} (xs : list A) : Processor.results (map Return xs) = Some xs.
Proof.
  induction xs as [|x xs IH]; [reflexivity|].
  cbn [map Processor.results]. rewrite IH. reflexivity.
Qed.

(** When no child raises, [gather] hands over the results in the order of
    the children, whatever the order in which they completed. *)
Lemma gather_all_return {A} (xs : list A) (completion : list nat) :
  Permutation completion (seq 0 (length xs)) ->
  Processor.gather (map Return xs) completion = Some (Return xs).
Proof.
  intros Hperm. unfold Processor.gather.
  rewrite first_raise_none, results_all, length_map.
  replace (forallb _ _) with true; [reflexivity|].
  symmetry. apply forallb_forall. intros i Hi.
  apply existsb_exists. exists i. split; [|apply Nat.eqb_refl].
  apply (Permutation_in i (Permutation_sym Hperm) Hi).
Qed.

(** The records of a batch are those of its coroutines, position by
    position. *)
Lemma process_packages_records (w : world) (package_names : list string)
    (completion : list nat) :
  Permutation completion (seq 0 (length package_names)) ->
  exists records,
    Processor.process_packages w package_names completion = Some (Return records)
    /\ map Return records =
       map (fun name => snd (Processor.fetch_package_info w name)) package_names.
Proof.
  intros Hperm.
  assert (Hall : exists records,
             map (fun name => snd (Processor.fetch_package_info w name))
                 package_names = map Return records).
  { clear Hperm. induction package_names as [|name names [records IH]].
    - exists []. reflexivity.
    - destruct (fetch_package_info_returns w name) as (record & Hrec & _).
      exists (record :: records). cbn [map]. rewrite Hrec, IH. reflexivity. }
  destruct Hall as [records Hall]. exists records. split; [|symmetry; exact Hall].
  unfold Processor.process_packages. rewrite map_map, Hall.
  apply gather_all_return.
  assert (Hlen : length records = length package_names).
  { apply (f_equal (@length _)) in Hall. rewrite !length_map in Hall.
    symmetry. exact Hall. }
  rewrite Hlen. exact Hperm.
Qed.

End Batch.

(* ===================================================================== *)
(** ** Faults and error records                                           *)
(* ===================================================================== *)

Section Faults.




End Faults.



(** C5.  The records of a batch come in the order of the names: for a
    batch whose coroutines complete in any order, the result has the
    length of the input and its record at each position is the one
    [fetch_package_info] returns for the name at that position, and
    carries that name. *)
Theorem process_packages_preserves_order (w : world) (package_names : list string)
    (completion : list nat) :
  Permutation completion (seq 0 (length package_names)) ->
  exists records,
    Processor.process_packages w package_names completion = Some (Return records)
    /\ length records = length package_names
    /\ forall i name,
         nth_error package_names i = Some name ->
         exists record,
           nth_error records i = Some record
           /\ snd (Processor.fetch_package_info w name) = Return record
           /\ getitem record (VStr "name") = Return (VStr name).
Proof.
  intros Hperm.
  destruct (process_packages_records w package_names completion Hperm)
    as (records & Hrun & Hmap).
  exists records. split; [exact Hrun|]. split.
  - apply (f_equal (@length _)) in Hmap. rewrite !length_map in Hmap.
    exact Hmap.
  - intros i name Hname.
    apply (f_equal (fun l => nth_error l i)) in Hmap.
    rewrite !nth_error_map, Hname in Hmap. cbn [option_map] in Hmap.
    destruct (nth_error records i) as [record|]; [|discriminate Hmap].
    exists record. injection Hmap as Hrec. split; [reflexivity|].
    split; [symmetry; exact Hrec|].
    destruct (fetch_package_info_returns w name) as (record' & Hrun' & Hname').
    rewrite Hrun' in Hrec. injection Hrec as ->. exact Hname'.
Qed.

Lemma process_packages_preserves_order_witness :
  Permutation [2%nat; 0%nat; 1%nat] (seq 0 (length ["left-pad"; "react"; "vue"]))
  /\ exists records,
       Processor.process_packages (Examples.healthy Examples.trailing_window)
         ["left-pad"; "react"; "vue"] [2%nat; 0%nat; 1%nat]
       = Some (Return records)
       /\ map (fun record => getitem record (VStr "name")) records
          = [Return (VStr "left-pad"); Return (VStr "react"); Return (VStr "vue")].
Proof.
  assert (Hperm : Permutation [2%nat; 0%nat; 1%nat]
                    (seq 0 (length ["left-pad"; "react"; "vue"]))).
  { cbn. apply Permutation_sym.
    apply (Permutation_cons_app [2%nat] [1%nat] 0%nat). apply perm_swap. }
  split; [exact Hperm|].
  destruct (process_packages_preserves_order
              (Examples.healthy Examples.trailing_window)
              ["left-pad"; "react"; "vue"] [2%nat; 0%nat; 1%nat] Hperm)
    as (records & Hrun & Hlen & Hnth).
  exists records. split; [exact Hrun|].
  destruct records as [|r0 [|r1 [|r2 [|? ?]]]]; try discriminate Hlen.
  destruct (Hnth 0%nat "left-pad" eq_refl) as (? & H0 & _ & Hn0).
  destruct (Hnth 1%nat "react" eq_refl) as (? & H1 & _ & Hn1).
  destruct (Hnth 2%nat "vue" eq_refl) as (? & H2 & _ & Hn2).
  cbn [nth_error] in H0, H1, H2.
  injection H0 as <-. injection H1 as <-. injection H2 as <-.
  cbn [map]. rewrite Hn0, Hn1, Hn2. reflexivity.
Defined.

(* ===================================================================== *)
(** ** The version check and the composed record                          *)
(* ===================================================================== *)

Section Composition.

Variables (w : world) (package_name : string).
Variables (data : list (string * value)).
Variables (total dependents : value) (downloads_by_week : list value).

(** With the three requests answered, [fetch_package_info] returns what
    the version check and the composition give, an exception of theirs
    turned into an error record. *)
Lemma fetch_package_info_after_fetches :
  responds w (Processor.registry_request package_name) (VDict data) ->
  snd (Processor.fetch_ecosystem_stats w package_name) =
    Return (ecosystem_stats total dependents) ->
  snd (Processor.fetch_weekly_trends w package_name) =
    Return (weekly_stats downloads_by_week) ->
  snd (Processor.fetch_package_info w package_name) =
  Return (match Processor.compose package_name (VDict data)
                  (ecosystem_stats total dependents)
                  (weekly_stats downloads_by_week) with
          | Return record => record
          | Raise e => Processor._create_error_entry package_name (VStr (str_exn e))
          end).
Proof.
  intros (r & Hget & Hstatus & Hjson) Hstats Htrends.
  unfold Processor.fetch_package_info.
  rewrite snd_try_except, snd_with_semaphore, snd_bind, snd_request, Hget.
  cbn [Py.bind]. rewrite Hstatus, Hjson. cbn [negb Z.eqb Pos.eqb Py.bind].
  rewrite snd_bind, Hstats. cbn [Py.bind]. rewrite snd_bind, snd_lift.
  cbn [ecosystem_stats get Py.lookup String.eqb Ascii.eqb Bool.eqb Py.bind truthy].
  rewrite snd_bind, Htrends. cbn [Py.bind]. rewrite snd_bind, snd_lift.
  cbn [weekly_stats get Py.lookup String.eqb Ascii.eqb Bool.eqb Py.bind truthy].
  rewrite snd_lift.
  destruct (Processor.compose _ _ _ _); reflexivity.
Qed.


(** With a latest version entry whose dependencies are a map (or
    missing), the composition returns the record of the package. *)
Lemma compose_latest_version (latest_version dependencies : value)
    (latest_data : list (string * value)) :
  latest_version_entry data latest_version latest_data ->
  declared_names "dependencies" latest_data = Return dependencies ->
  Processor.compose package_name (VDict data)
    (ecosystem_stats total dependents) (weekly_stats downloads_by_week) =
  Return (package_record package_name
            (field_or "description" (VStr "") data) dependencies
            total (VList downloads_by_week) dependents latest_version).
Proof.
  intros (Hlatest & Htruthy & Hentry) Hdeps.
  unfold Processor.compose. unfold latest_tag in Hlatest.
  destruct (get (VDict data) "dist-tags" (VDict [])) as [e|dist_tags];
    [discriminate Hlatest|].
  cbn [Py.bind] in *. rewrite Hlatest. cbn [Py.bind].
  rewrite Htruthy. cbn [negb contains Py.bind].
  destruct (getitem (VDict data) (VStr "versions")) as [e|versions] eqn:Hversions;
    [discriminate Hentry|].
  cbn [getitem] in Hversions.
  destruct (Py.lookup "versions" data) as [v|]; [|discriminate Hversions].
  cbn [negb Py.bind] in *. rewrite Hentry. cbn [Py.bind].
  unfold declared_names in Hdeps.
  destruct (get (VDict latest_data) "dependencies" (VDict [])) as [e|declared];
    [discriminate Hdeps|].
  cbn [Py.bind] in *. rewrite Hdeps. reflexivity.
Qed.

End Composition.

(* ===================================================================== *)
(** ** The per-package pipeline of the updater                            *)
(* ===================================================================== *)

Section UpdaterPipeline.

Lemma bind_return {A B} (m : task A) (f : A -> task B) (a : A) :
  snd m = Return a -> Async.bind m f = (fst m ++ fst (f a), snd (f a)).
Proof. intros H. unfold Async.bind. rewrite H. reflexivity. Qed.

Lemma bind_raise {A B} (m : task A) (f : A -> task B) (e : exn) :
  snd m = Raise e -> Async.bind m f = (fst m, Raise e).
Proof. intros H. unfold Async.bind. rewrite H. reflexivity. Qed.

Variables (w : world) (package_doc : value) (package_name : string).
Variables (data : list (string * value)).
Variables (total dependents : value) (downloads_by_week : list value).

(** With the three requests answered, [update_package_info] ends by
    writing the update, or, when the version check or the composition
    raises, by recording the failure. *)
Lemma update_package_info_after_fetches :
  getitem package_doc (VStr "name") = Return (VStr package_name) ->
  responds w (Updater.registry_request (VStr package_name)) (VDict data) ->
  snd (Updater.fetch_ecosystem_stats w (VStr package_name)) =
    Return (ecosystem_stats total dependents) ->
  snd (Updater.fetch_weekly_trends w (VStr package_name)) =
    Return (weekly_stats downloads_by_week) ->
  exists events,
    Updater.update_package_info w package_doc =
    (events ++
       [match Updater.update_fields w (VStr package_name) (VDict data)
                (ecosystem_stats total dependents)
                (weekly_stats downloads_by_week) with
        | Return fields =>
            UpdateOne (VDict [("name", VStr package_name)])
                      (VDict [("$set", fields)])
        | Raise e => failed_update (now w) package_name (str_exn e)
        end],
     Return tt).
Proof.
  intros Hname (r & Hget & Hstatus & Hjson) Hstats Htrends.
  unfold Updater.update_package_info.
  rewrite (bind_return _ _ (VStr package_name)) by exact Hname.
  cbv beta. cbn [lift fst app].
  match goal with
  | |- context [try_except ?m _] => set (body := m)
  end.
  set (outcome_of_fields :=
         Updater.update_fields w (VStr package_name) (VDict data)
           (ecosystem_stats total dependents) (weekly_stats downloads_by_week)).
  set (events :=
         (fst (with_semaphore
                 (request w (Updater.registry_request (VStr package_name))
                    (fun response : response =>
                       if negb (status response =? 200)
                       then Raise (Exception (VStr ("Failed to fetch package info: "
                                                      +:+ decimal (status response))))
                       else json response)))
          ++ fst (Updater.fetch_ecosystem_stats w (VStr package_name))
          ++ fst (Updater.fetch_weekly_trends w (VStr package_name)))).
  assert (Hbody :
    body = (events ++ match outcome_of_fields with
                      | Return fields =>
                          [UpdateOne (VDict [("name", VStr package_name)])
                                     (VDict [("$set", fields)])]
                      | Raise _ => []
                      end,
            match outcome_of_fields with
            | Return _ => Return tt
            | Raise e => Raise e
            end)).
  { subst body.
    rewrite (bind_return _ _ (VDict data)).
    2:{ rewrite snd_with_semaphore, snd_request, Hget. cbn [Py.bind].
        rewrite Hstatus, Hjson. reflexivity. }
    cbv beta.
    rewrite (bind_return _ _ (ecosystem_stats total dependents)) by exact Hstats.
    cbv beta.
    rewrite (bind_return _ _ VNone) by reflexivity.
    cbv beta. cbn [truthy lift fst app].
    rewrite (bind_return _ _ (weekly_stats downloads_by_week)) by exact Htrends.
    cbv beta.
    rewrite (bind_return _ _ VNone) by reflexivity.
    cbv beta. cbn [truthy lift fst app].
    fold outcome_of_fields.
    destruct outcome_of_fields as [e|fields] eqn:Hfields.
    - rewrite (bind_raise _ _ e) by reflexivity.
      cbn [lift fst snd]. unfold events.
      repeat rewrite app_nil_r. repeat rewrite <- app_assoc. reflexivity.
    - rewrite (bind_return _ _ fields) by reflexivity.
      cbn [lift fst snd app]. unfold events.
      repeat rewrite app_nil_r. repeat rewrite <- app_assoc. reflexivity. }
  exists events. unfold try_except. rewrite Hbody. cbn [fst snd].
  destruct outcome_of_fields as [e|fields]; cbn [fst snd].
  - rewrite app_nil_r. reflexivity.
  - reflexivity.
Qed.


(** With a latest version entry whose dependencies and peer dependencies
    are maps (or missing), the fields of the update. *)
Lemma update_fields_latest_version
    (latest_version dependencies peer_dependencies : value)
    (latest_data : list (string * value)) :
  latest_version_entry data latest_version latest_data ->
  declared_names "dependencies" latest_data = Return dependencies ->
  declared_names "peerDependencies" latest_data = Return peer_dependencies ->
  Updater.update_fields w (VStr package_name) (VDict data)
    (ecosystem_stats total dependents) (weekly_stats downloads_by_week) =
  Return (VDict
    [("description", field_or "description" (VStr "") data);
     ("link", VStr ("https://www.npmjs.com/package/" +:+ package_name));
     ("dependencies", dependencies);
     ("peerDependencies", peer_dependencies);
     ("downloads", VDict [("total", total);
                          ("weekly_trends", VList downloads_by_week)]);
     ("dependent_packages_count", dependents);
     ("latest_version", latest_version);
     ("last_updated", VDatetime (now w))]).
Proof.
  intros (Hlatest & Htruthy & Hentry) Hdeps Hpeers.
  unfold Updater.update_fields. unfold latest_tag in Hlatest.
  destruct (get (VDict data) "dist-tags" (VDict [])) as [e|dist_tags];
    [discriminate Hlatest|].
  cbn [Py.bind] in *. rewrite Hlatest. cbn [Py.bind].
  rewrite Htruthy. cbn [negb contains Py.bind].
  destruct (getitem (VDict data) (VStr "versions")) as [e|versions] eqn:Hversions;
    [discriminate Hentry|].
  cbn [getitem] in Hversions.
  destruct (Py.lookup "versions" data) as [v|]; [|discriminate Hversions].
  cbn [negb Py.bind] in *. rewrite Hentry. cbn [Py.bind].
  unfold declared_names in Hdeps, Hpeers.
  destruct (get (VDict latest_data) "peerDependencies" (VDict [])) as [e|declared'];
    [discriminate Hpeers|].
  cbn [Py.bind] in *. rewrite Hpeers. cbn [Py.bind].
  destruct (get (VDict latest_data) "dependencies" (VDict [])) as [e|declared];
    [discriminate Hdeps|].
  cbn [Py.bind] in *. rewrite Hdeps. reflexivity.
Qed.

End UpdaterPipeline.

(* ===================================================================== *)
(** ** Missing version information                                        *)
(* ===================================================================== *)


(* ===================================================================== *)
(** ** The fields of the composed record                                  *)
(* ===================================================================== *)

(** C8, as the claim states it, fails on the processor: the latest
    version declares a peer dependency, and the record composed by
    [fetch_package_info] has no peer-dependency names; it is the record
    composed for the same document without the peer dependencies. *)
Lemma processor_record_without_peer_dependencies :
  responds (Examples.healthy Examples.trailing_window)
    (Processor.registry_request "left-pad") Examples.registry_body
  /\ latest_version_entry Examples.registry_document (VStr "1.3.0")
       Examples.latest_entry
  /\ declared_names "peerDependencies" Examples.latest_entry
     = Return (VList [VStr "react"])
  /\ (exists weekly_trends,
        snd (Processor.fetch_package_info
               (Examples.healthy Examples.trailing_window) "left-pad") =
        Return (package_record "left-pad" (VStr "String left pad")
                  (VList [VStr "repeat-string"]) (VInt 1000) weekly_trends
                  (VInt 42) (VStr "1.3.0"))
        /\ get (package_record "left-pad" (VStr "String left pad")
                  (VList [VStr "repeat-string"]) (VInt 1000) weekly_trends
                  (VInt 42) (VStr "1.3.0")) "peerDependencies" VNone
           = Return VNone)
  /\ snd (Processor.fetch_package_info
            (Examples.healthy Examples.trailing_window) "left-pad") =
     snd (Processor.fetch_package_info
            (Examples.healthy_without_peers Examples.trailing_window) "left-pad").
Proof.
  split; [eexists; repeat split; reflexivity|].
  split; [repeat split; reflexivity|].
  split; [reflexivity|].
  split; [|vm_compute; reflexivity].
  eexists. split; [vm_compute; reflexivity|reflexivity].
Qed.

(** C8, amended.  For a registry document answered with status 200 whose
    latest version resolves to a version entry, and with the usage
    statistics and the download trends fetched: the record composed by
    [fetch_package_info] holds the description (the empty string when the
    document has none) and the dependency names of the latest version
    (none when it declares no dependencies), and no peer-dependency
    names; the update composed by [update_package_info] holds the
    description, the dependency names and the peer-dependency names of
    the latest version (none when it declares no peer dependencies). *)
Theorem composed_record_fields (w : world) (package_name : string)
    (data latest_data : list (string * value))
    (latest_version dependencies total dependents : value)
    (downloads_by_week : list value) :
  responds w (Processor.registry_request package_name) (VDict data) ->
  latest_version_entry data latest_version latest_data ->
  declared_names "dependencies" latest_data = Return dependencies ->
  snd (Processor.fetch_ecosystem_stats w package_name) =
    Return (ecosystem_stats total dependents) ->
  snd (Processor.fetch_weekly_trends w package_name) =
    Return (weekly_stats downloads_by_week) ->
  snd (Processor.fetch_package_info w package_name) =
    Return (package_record package_name
              (field_or "description" (VStr "") data) dependencies
              total (VList downloads_by_week) dependents latest_version)
  /\ (Py.lookup "dependencies" latest_data = None -> dependencies = VList [])
  /\ (forall declared,
        Py.lookup "dependencies" latest_data = Some (VDict declared) ->
        dependencies = VList (map (fun kv => VStr (fst kv)) declared))
  /\ (forall peer_dependencies weekly_trends package_doc,
        getitem package_doc (VStr "name") = Return (VStr package_name) ->
        declared_names "peerDependencies" latest_data = Return peer_dependencies ->
        snd (Updater.fetch_weekly_trends w (VStr package_name)) =
          Return (weekly_stats weekly_trends) ->
        (exists events,
           Updater.update_package_info w package_doc =
           (events ++ [package_update (now w) package_name
                         (field_or "description" (VStr "") data)
                         dependencies peer_dependencies total
                         (VList weekly_trends) dependents latest_version],
            Return tt))
        /\ (Py.lookup "peerDependencies" latest_data = None ->
            peer_dependencies = VList [])
        /\ (forall declared,
              Py.lookup "peerDependencies" latest_data = Some (VDict declared) ->
              peer_dependencies = VList (map (fun kv => VStr (fst kv)) declared))).
Proof.
  intros Hreg Hentry Hdeps Hstats Htrends.
  assert (Hnames : forall field names,
             declared_names field latest_data = Return names ->
             (Py.lookup field latest_data = None -> names = VList [])
             /\ (forall declared,
                   Py.lookup field latest_data = Some (VDict declared) ->
                   names = VList (map (fun kv => VStr (fst kv)) declared))).
  { intros field names Hfield. unfold declared_names in Hfield.
    cbn [get Py.bind] in Hfield. split.
    - intros Hnone. rewrite Hnone in Hfield. cbn [keys map] in Hfield.
      congruence.
    - intros declared Hsome. rewrite Hsome in Hfield. cbn [keys] in Hfield.
      congruence. }
  split; [|split; [apply (Hnames _ _ Hdeps)|split; [apply (Hnames _ _ Hdeps)|]]].
  - rewrite (fetch_package_info_after_fetches _ _ _ _ _ _ Hreg Hstats Htrends).
    rewrite (compose_latest_version _ _ _ _ _ _ _ _ Hentry Hdeps). reflexivity.
  - intros peer_dependencies weekly_trends package_doc Hname Hpeers Htrends'.
    split; [|split; apply (Hnames _ _ Hpeers)].
    destruct (update_package_info_after_fetches w package_doc package_name
                data total dependents weekly_trends Hname Hreg Hstats Htrends')
      as [events Hrun].
    exists events. rewrite Hrun.
    rewrite (update_fields_latest_version _ _ _ _ _ _ _ _ _ _
               Hentry Hdeps Hpeers).
    reflexivity.
Qed.

Lemma composed_record_fields_witness :
  responds (Examples.healthy Examples.refresh_window)
    (Processor.registry_request "left-pad") Examples.registry_body
  /\ snd (Processor.fetch_package_info
            (Examples.healthy Examples.refresh_window) "left-pad") =
     Return (package_record "left-pad" (VStr "String left pad")
               (VList [VStr "repeat-string"]) (VInt 1000)
               (VList Examples.fixed_buckets) (VInt 42) (VStr "1.3.0"))
  /\ exists events,
       Updater.update_package_info
         (Examples.healthy Examples.refresh_window)
         (Examples.package_doc "left-pad") =
       (events ++ [package_update Examples.today "left-pad"
                     (VStr "String left pad") (VList [VStr "repeat-string"])
                     (VList [VStr "react"]) (VInt 1000)
                     (VList Examples.calendar_buckets)
                     (VInt 42) (VStr "1.3.0")],
        Return tt).
Proof.
  assert (Hreg : responds (Examples.healthy Examples.refresh_window)
                   (Processor.registry_request "left-pad") Examples.registry_body)
    by (eexists; repeat split; reflexivity).
  split; [exact Hreg|].
  destruct (composed_record_fields
              (Examples.healthy Examples.refresh_window) "left-pad"
              Examples.registry_document Examples.latest_entry
              (VStr "1.3.0") (VList [VStr "repeat-string"])
              (VInt 1000) (VInt 42) Examples.fixed_buckets Hreg)
    as (Hrecord & _ & _ & Hupdate).
  - repeat split; reflexivity.
  - reflexivity.
  - vm_compute. reflexivity.
  - vm_compute. reflexivity.
  - split; [exact Hrecord|].
    destruct (Hupdate (VList [VStr "react"]) Examples.calendar_buckets
                (Examples.package_doc "left-pad"))
      as (Hrun & _).
    + reflexivity.
    + reflexivity.
    + vm_compute. reflexivity.
    + exact Hrun.
Defined.

(* ===================================================================== *)
(** ** The processor under the semaphore, on a sample batch               *)
(* ===================================================================== *)

Lemma processor_outbound_bound_witness :
  exists s,
    Loop.reachable
      (Loop.start Processor.semaphore
         (Processor.scripts (Examples.healthy Examples.trailing_window)
            Examples.eleven_names)) s
    /\ Loop.outbound s = 10
    /\ Loop.step 10 s = None
    /\ Loop.outbound s <= 10.
Proof.
  set (s0 := Loop.start Processor.semaphore
               (Processor.scripts (Examples.healthy Examples.trailing_window)
                  Examples.eleven_names)).
  destruct (Loop.run Examples.first_wave s0) as [s|] eqn:Hrun;
    [|vm_compute in Hrun; discriminate Hrun].
  assert (Hreach : Loop.reachable s0 s) by (exists Examples.first_wave; exact Hrun).
  exists s. split; [exact Hreach|].
  split; [vm_compute in Hrun; injection Hrun as <-; reflexivity|].
  split; [vm_compute in Hrun; injection Hrun as <-; reflexivity|].
  exact (processor_outbound_bound _ _ _ Hreach).
Defined.

(* ===================================================================== *)
(** ** The window of the updater                                          *)
(* ===================================================================== *)

(** X2.  [get_week_boundaries] returns, for a clock from 0001-03-04 on,
    the Sunday on or before today as the end of the window and the day
    eight weeks before it, again a Sunday, as its start: the window asked
    of the time-series endpoint has 57 days and starts the day before a
    Monday. *)
Theorem get_week_boundaries_window (w : world) :
  63 <= now w <= Datetime.MAXORDINAL ->
  exists start_date end_date,
    Updater.get_week_boundaries w = Return (start_date, end_date)
    /\ Datetime.weekday end_date = 6
    /\ now w - 6 <= end_date <= now w
    /\ start_date = end_date - 56
    /\ Datetime.weekday start_date = 6
    /\ Datetime.weekday (start_date + 1) = 0.
Proof.
  intros Hnow. unfold Updater.get_week_boundaries, Datetime.add_days,
    Datetime.weekday, Datetime.MAXORDINAL in *.
  set (since := ((now w + 6) mod 7 + 1) mod 7).
  assert (Hsince : 0 <= since <= 6
                   /\ (now w - since + 6) mod 7 = 6)
    by (unfold since; Z.div_mod_to_equations; lia).
  destruct Hsince as [Hrange Hsunday].
  replace ((1 <=? now w + - since) && (now w + - since <=? 3652059)) with true
    by (symmetry; apply andb_true_intro; split; apply Z.leb_le; lia).
  cbn [Py.bind].
  replace ((1 <=? now w + - since + - (8 * 7))
           && (now w + - since + - (8 * 7) <=? 3652059)) with true
    by (symmetry; apply andb_true_intro; split; apply Z.leb_le; lia).
  cbn [Py.bind].
  exists (now w + - since + - (8 * 7)), (now w + - since).
  split; [reflexivity|].
  repeat split; try lia.
  - replace (now w + - since + 6) with (now w - since + 6) by lia. exact Hsunday.
  - revert Hsunday. Z.div_mod_to_equations. lia.
  - revert Hsunday. Z.div_mod_to_equations. lia.
Qed.

Lemma get_week_boundaries_window_witness :
  63 <= now (Examples.healthy Examples.refresh_window) <= Datetime.MAXORDINAL
  /\ Updater.get_week_boundaries (Examples.healthy Examples.refresh_window) =
     Return (Datetime.ymd2ord 2024 1 14, Datetime.ymd2ord 2024 3 10).
Proof.
  assert (Hnow : 63 <= now (Examples.healthy Examples.refresh_window)
                 <= Datetime.MAXORDINAL) by (vm_compute; split; discriminate).
  split; [exact Hnow|].
  destruct (get_week_boundaries_window _ Hnow)
    as (start_date & end_date & Hrun & _).
  rewrite Hrun. vm_compute in Hrun. injection Hrun as <- <-. reflexivity.
Defined.

(* ===================================================================== *)
(** ** The number and the span of the fixed-chunk buckets                 *)
(* ===================================================================== *)

Section ChunkIndex.

Lemma chunks_length (series : list DailyDownload) :
  length (chunks series) = ((length series + 6) / 7)%nat.
Proof.
  remember (length series) as n eqn:Hn. revert series Hn.
  induction n as [n IH] using lt_wf_ind. intros series Hn.
  destruct series as [|d series].
  - subst n. reflexivity.
  - rewrite chunks_cons. cbn [length].
    rewrite (IH (length (skipn 7 (d :: series)))); [| |reflexivity].
    + rewrite length_skipn. subst n. cbn [length].
      generalize (length series). intros m.
      destruct (Nat.le_gt_cases 7 (S m)) as [Hle|Hgt].
      * replace (S m + 6)%nat with ((S m - 7 + 6) + 1 * 7)%nat by lia.
        rewrite Nat.div_add by discriminate. lia.
      * replace (S m - 7)%nat with 0%nat by lia.
        cbn [Nat.add]. rewrite (Nat.div_small 6 7) by lia.
        apply (Nat.div_unique (S m + 6) 7 1 m); lia.
    + rewrite length_skipn. subst n. cbn [length]. lia.
Qed.

Lemma chunks_nth (series : list DailyDownload) :
  forall j chunk,
    nth_error (chunks series) j = Some chunk ->
    chunk = firstn 7 (skipn (7 * j) series).
Proof.
  remember (length series) as n eqn:Hn. revert series Hn.
  induction n as [n IH] using lt_wf_ind. intros series Hn j chunk Hnth.
  destruct series as [|d series]; [destruct j; discriminate Hnth|].
  rewrite chunks_cons in Hnth. destruct j as [|j].
  - cbn [nth_error] in Hnth. rewrite Nat.mul_0_r. cbn [skipn]. congruence.
  - cbn [nth_error] in Hnth.
    assert (Hlen : (length (skipn 7 (d :: series)) < n)%nat)
      by (rewrite length_skipn; subst n; simpl; lia).
    rewrite (IH _ Hlen _ eq_refl j chunk Hnth).
    rewrite skipn_skipn. do 2 f_equal. lia.
Qed.

End ChunkIndex.

(** X3.  [Processor.bucketize] returns one bucket for every started run
    of seven entries, that is, the number of entries divided by seven and
    rounded up; the bucket at position [j] covers the entries from
    position [7 j] up to position [7 j + 6] (or the end of the series): it
    ends on the day of the last of them and sums their counts. *)
Theorem bucketize_fixed_count (download_data : list (string * value))
    (series : list DailyDownload) :
  holds_series download_data series ->
  exists buckets,
    Processor.bucketize (VDict download_data) = Return buckets
    /\ length buckets = ((length series + 6) / 7)%nat
    /\ forall j bucket,
         nth_error buckets j = Some bucket ->
         bucket =
         Processor.bucket
           (VStr (last_day (firstn 7 (skipn (7 * j) series))))
           (zsum (map downloads (firstn 7 (skipn (7 * j) series)))).
Proof.
  intros Hholds.
  exists (map encode_bucket (fixed_chunk_spec series)).
  split; [apply bucketize_fixed_spec, Hholds|].
  unfold fixed_chunk_spec. split.
  - rewrite !length_map. apply chunks_length.
  - intros j bucket Hnth. rewrite map_map, nth_error_map in Hnth.
    destruct (nth_error (chunks series) j) as [chunk|] eqn:Hchunk;
      [|discriminate Hnth].
    cbn [option_map] in Hnth. injection Hnth as <-.
    rewrite (chunks_nth _ _ _ Hchunk). reflexivity.
Qed.

Lemma bucketize_fixed_count_witness :
  holds_series (Examples.download_data Examples.trailing_window)
    Examples.trailing_window
  /\ exists buckets,
       Processor.bucketize (VDict (Examples.download_data Examples.trailing_window))
       = Return buckets
       /\ length buckets = 9%nat
       /\ nth_error buckets 8 = Some (Processor.bucket (VStr "2024-03-13") 5).
Proof.
  assert (Hholds : holds_series (Examples.download_data Examples.trailing_window)
                     Examples.trailing_window) by (left; reflexivity).
  split; [exact Hholds|].
  destruct (bucketize_fixed_count _ _ Hholds) as (buckets & Hrun & Hlen & Hnth).
  exists buckets. split; [exact Hrun|]. split; [rewrite Hlen; reflexivity|].
  destruct (nth_error buckets 8) as [bucket|] eqn:Hbucket.
  - rewrite (Hnth _ _ Hbucket). vm_compute. reflexivity.
  - apply nth_error_None in Hbucket. rewrite Hlen in Hbucket.
    vm_compute in Hbucket. lia.
Defined.

(* ===================================================================== *)
(** ** The failing stage and its message                                  *)
(* ===================================================================== *)

Section Failures.

Variables (w : world) (package_name : string).

Lemma failure_text_none (url prefix : string) :
  failure_text w url prefix = None ->
  exists r data,
    http_get w url = Return r /\ (status r =? 200) = true /\ json r = Return data.
Proof.
  unfold failure_text.
  destruct (http_get w url) as [e|r] eqn:Hget; [discriminate|].
  destruct (status r =? 200) eqn:Hstatus; cbn [negb]; [|discriminate].
  destruct (json r) as [e|data] eqn:Hjson; [discriminate|].
  intros _. exists r, data. auto.
Qed.

Lemma responds_status (url : string) (data : value) :
  responds w url data ->
  exists r,
    http_get w url = Return r /\ (status r =? 200) = true /\ json r = Return data.
Proof.
  intros (r & Hget & Hstatus & Hjson). exists r. rewrite Hstatus. auto.
Qed.

Lemma truthy_text (msg : string) : msg <> "" -> truthy (VStr msg) = true.
Proof.
  intros Hne. cbn [truthy]. apply negb_true_iff. apply String.eqb_neq. exact Hne.
Qed.

(** A failing usage-statistics request makes [fetch_ecosystem_stats]
    return an error dictionary with the text of the failure. *)
Lemma fetch_ecosystem_stats_failure (msg : string) :
  failure_text w (Processor.ecosystem_request package_name)
    "Failed to fetch ecosystem stats: " = Some msg ->
  Processor.fetch_ecosystem_stats w package_name =
  ([Start (Processor.ecosystem_request package_name);
    Finish (Processor.ecosystem_request package_name)],
   Return (VDict [("error", VStr msg)])).
Proof.
  unfold failure_text, Processor.fetch_ecosystem_stats, try_except, request.
  cbn [fst snd].
  destruct (http_get w _) as [e|r]; cbn [Py.bind fst snd ret app].
  - intros H. injection H as <-. reflexivity.
  - destruct (status r =? 200); cbn [negb Py.bind fst snd ret app].
    + destruct (json r) as [e|data]; cbn [Py.bind fst snd ret app];
        [|discriminate].
      intros H. injection H as <-. reflexivity.
    + intros H. injection H as <-. reflexivity.
Qed.

(** A usage-statistics request answered with a JSON object makes it return
    the two figures, 0 for a missing one. *)
Lemma fetch_ecosystem_stats_success (body : list (string * value)) :
  responds w (Processor.ecosystem_request package_name) (VDict body) ->
  Processor.fetch_ecosystem_stats w package_name =
  ([Start (Processor.ecosystem_request package_name);
    Finish (Processor.ecosystem_request package_name)],
   Return (ecosystem_stats (field_or "downloads" (VInt 0) body)
             (field_or "dependent_packages_count" (VInt 0) body))).
Proof.
  intros Hresp. destruct (responds_status _ _ Hresp) as (r & Hget & Hstatus & Hjson).
  unfold Processor.fetch_ecosystem_stats, try_except, request. cbn [fst snd].
  rewrite Hget. cbn [Py.bind]. rewrite Hstatus, Hjson. reflexivity.
Qed.

(** A failing time-series request makes [fetch_weekly_trends] return an
    error dictionary with the text of the failure. *)
Lemma fetch_weekly_trends_failure (start_date : Z) (msg : string) :
  Datetime.add_days (now w) (-60) = Return start_date ->
  failure_text w (Processor.downloads_request start_date (now w) package_name)
    "Failed to fetch download stats: " = Some msg ->
  Processor.fetch_weekly_trends w package_name =
  ([Start (Processor.downloads_request start_date (now w) package_name);
    Finish (Processor.downloads_request start_date (now w) package_name)],
   Return (VDict [("error", VStr msg)])).
Proof.
  intros Hstart. unfold failure_text, Processor.fetch_weekly_trends.
  rewrite Hstart. unfold try_except, Async.bind, request, lift.
  cbn [fst snd app].
  destruct (http_get w _) as [e|r]; cbn [Py.bind fst snd ret app].
  - intros H. injection H as <-. reflexivity.
  - destruct (status r =? 200); cbn [negb Py.bind fst snd ret app].
    + destruct (json r) as [e|data]; cbn [Py.bind fst snd ret app];
        [|discriminate].
      intros H. injection H as <-. reflexivity.
    + intros H. injection H as <-. reflexivity.
Qed.

(** A time-series request answered with a daily series makes it return
    the fixed-chunk buckets of the series. *)
Lemma fetch_weekly_trends_success (start_date : Z)
    (download_data : list (string * value)) (series : list DailyDownload) :
  Datetime.add_days (now w) (-60) = Return start_date ->
  responds w (Processor.downloads_request start_date (now w) package_name)
    (VDict download_data) ->
  holds_series download_data series ->
  Processor.fetch_weekly_trends w package_name =
  ([Start (Processor.downloads_request start_date (now w) package_name);
    Finish (Processor.downloads_request start_date (now w) package_name)],
   Return (weekly_stats (map encode_bucket (fixed_chunk_spec series)))).
Proof.
  intros Hstart Hresp Hholds.
  destruct (responds_status _ _ Hresp) as (r & Hget & Hstatus & Hjson).
  unfold Processor.fetch_weekly_trends.
  rewrite Hstart. unfold try_except, Async.bind, request, lift.
  cbn [fst snd app]. rewrite Hget. cbn [Py.bind]. rewrite Hstatus, Hjson.
  cbn [negb Py.bind fst snd ret app].
  rewrite (bucketize_fixed_spec _ _ Hholds). reflexivity.
Qed.

End Failures.

Ltac run_pipeline :=
  cbn [Async.bind try_except with_semaphore request lift ret fst snd app
       Py.bind negb get getitem Py.lookup String.eqb Ascii.eqb Bool.eqb
       truthy ecosystem_stats weekly_stats].

(** X4.  The error record of [fetch_package_info] carries the text of the
    first failing request, and no request is made after it.  A failing
    registry request (an exception, a status other than 200, a body that
    does not decode) is reported with its text.  With the registry
    document fetched, a failing usage-statistics request is reported with
    its text, and with the usage statistics fetched too, a failing
    time-series request is, provided the text is not empty. *)
Theorem first_failure_reported (w : world) (package_name : string) :
  (forall msg,
      failure_text w (Processor.registry_request package_name)
        "Failed to fetch package info: " = Some msg ->
      Processor.fetch_package_info w package_name =
      ([Acquire;
        Start (Processor.registry_request package_name);
        Finish (Processor.registry_request package_name);
        Release],
       Return (Processor._create_error_entry package_name (VStr msg))))
  /\ (forall msg,
        failure_text w (Processor.registry_request package_name)
          "Failed to fetch package info: " = None ->
        failure_text w (Processor.ecosystem_request package_name)
          "Failed to fetch ecosystem stats: " = Some msg ->
        msg <> "" ->
        Processor.fetch_package_info w package_name =
        ([Acquire;
          Start (Processor.registry_request package_name);
          Finish (Processor.registry_request package_name);
          Start (Processor.ecosystem_request package_name);
          Finish (Processor.ecosystem_request package_name);
          Release],
         Return (Processor._create_error_entry package_name (VStr msg))))
  /\ (forall msg body start_date,
        failure_text w (Processor.registry_request package_name)
          "Failed to fetch package info: " = None ->
        responds w (Processor.ecosystem_request package_name) (VDict body) ->
        Datetime.add_days (now w) (-60) = Return start_date ->
        failure_text w
          (Processor.downloads_request start_date (now w) package_name)
          "Failed to fetch download stats: " = Some msg ->
        msg <> "" ->
        Processor.fetch_package_info w package_name =
        ([Acquire;
          Start (Processor.registry_request package_name);
          Finish (Processor.registry_request package_name);
          Start (Processor.ecosystem_request package_name);
          Finish (Processor.ecosystem_request package_name);
          Start (Processor.downloads_request start_date (now w) package_name);
          Finish (Processor.downloads_request start_date (now w) package_name);
          Release],
         Return (Processor._create_error_entry package_name (VStr msg)))).
Proof.
  split; [|split].
  - intros msg. unfold failure_text, Processor.fetch_package_info.
    unfold request.
    destruct (http_get w (Processor.registry_request package_name)) as [e|r].
    + intros H. injection H as <-. reflexivity.
    + run_pipeline. destruct (status r =? 200); run_pipeline.
      * destruct (json r) as [e|data]; run_pipeline; [|discriminate].
        intros H. injection H as <-. reflexivity.
      * intros H. injection H as <-. reflexivity.
  - intros msg Hreg Hstats Hmsg.
    destruct (failure_text_none _ _ _ Hreg) as (r & data & Hget & Hstatus & Hjson).
    unfold Processor.fetch_package_info. unfold request.
    rewrite Hget. run_pipeline. rewrite Hstatus, Hjson. run_pipeline.
    rewrite (fetch_ecosystem_stats_failure _ _ _ Hstats). run_pipeline.
    rewrite (proj2 (String.eqb_neq _ _) Hmsg). reflexivity.
  - intros msg body start_date Hreg Hstats Hstart Htrends Hmsg.
    destruct (failure_text_none _ _ _ Hreg) as (r & data & Hget & Hstatus & Hjson).
    unfold Processor.fetch_package_info. unfold request.
    rewrite Hget. run_pipeline. rewrite Hstatus, Hjson. run_pipeline.
    rewrite (fetch_ecosystem_stats_success _ _ _ Hstats). run_pipeline.
    rewrite (fetch_weekly_trends_failure _ _ _ _ Hstart Htrends). run_pipeline.
    rewrite (proj2 (String.eqb_neq _ _) Hmsg). reflexivity.
Qed.

Lemma first_failure_reported_witness :
  failure_text Examples.untagged_without_stats
    (Processor.registry_request "left-pad") "Failed to fetch package info: "
  = None
  /\ failure_text Examples.untagged_without_stats
       (Processor.ecosystem_request "left-pad")
       "Failed to fetch ecosystem stats: "
     = Some "Failed to fetch ecosystem stats: 404"
  /\ snd (Processor.fetch_package_info Examples.untagged_without_stats "left-pad")
     = Return (Processor._create_error_entry "left-pad"
                 (VStr "Failed to fetch ecosystem stats: 404")).
Proof.
  split; [reflexivity|]. split; [reflexivity|].
  destruct (first_failure_reported Examples.untagged_without_stats "left-pad")
    as (_ & Hstats & _).
  rewrite (Hstats "Failed to fetch ecosystem stats: 404");
    [reflexivity|reflexivity|reflexivity|discriminate].
Defined.

(** X5.  With the three requests answered (a registry document whose
    latest version resolves to an entry, usage statistics as a JSON
    object, a daily series), [fetch_package_info] makes the three
    requests in order while holding the semaphore and returns the record
    of the package: its name, the description, the link built from the
    name, the dependency names of the latest version, the total downloads
    and dependent count of the usage statistics (0 when missing), the
    fixed-chunk buckets of the series and the latest version, with no
    error; line 170 counts it as successful. *)
Theorem fetch_package_info_success (w : world) (package_name : string)
    (data latest_data body download_data : list (string * value))
    (latest_version dependencies : value) (start_date : Z)
    (series : list DailyDownload) :
  responds w (Processor.registry_request package_name) (VDict data) ->
  latest_version_entry data latest_version latest_data ->
  declared_names "dependencies" latest_data = Return dependencies ->
  responds w (Processor.ecosystem_request package_name) (VDict body) ->
  Datetime.add_days (now w) (-60) = Return start_date ->
  responds w (Processor.downloads_request start_date (now w) package_name)
    (VDict download_data) ->
  holds_series download_data series ->
  Processor.fetch_package_info w package_name =
    ([Acquire;
      Start (Processor.registry_request package_name);
      Finish (Processor.registry_request package_name);
      Start (Processor.ecosystem_request package_name);
      Finish (Processor.ecosystem_request package_name);
      Start (Processor.downloads_request start_date (now w) package_name);
      Finish (Processor.downloads_request start_date (now w) package_name);
      Release],
     Return (package_record package_name
               (field_or "description" (VStr "") data) dependencies
               (field_or "downloads" (VInt 0) body)
               (VList (map encode_bucket (fixed_chunk_spec series)))
               (field_or "dependent_packages_count" (VInt 0) body)
               latest_version))
  /\ Processor.successful
       [package_record package_name
          (field_or "description" (VStr "") data) dependencies
          (field_or "downloads" (VInt 0) body)
          (VList (map encode_bucket (fixed_chunk_spec series)))
          (field_or "dependent_packages_count" (VInt 0) body)
          latest_version] = 1%nat.
Proof.
  intros Hreg Hentry Hdeps Hstats Hstart Htrends Hholds.
  split; [|reflexivity].
  destruct (responds_status _ _ _ Hreg) as (r & Hget & Hstatus & Hjson).
  unfold Processor.fetch_package_info. unfold request.
  rewrite Hget. run_pipeline. rewrite Hstatus, Hjson. run_pipeline.
  rewrite (fetch_ecosystem_stats_success _ _ _ Hstats). run_pipeline.
  rewrite (fetch_weekly_trends_success _ _ _ _ _ Hstart Htrends Hholds).
  run_pipeline.
  change (VDict [("total_downloads", field_or "downloads" (VInt 0) body);
                 ("dependent_count",
                  field_or "dependent_packages_count" (VInt 0) body);
                 ("error", VNone)])
    with (ecosystem_stats (field_or "downloads" (VInt 0) body)
            (field_or "dependent_packages_count" (VInt 0) body)).
  change (VDict [("weekly_trends",
                  VList (map encode_bucket (fixed_chunk_spec series)));
                 ("error", VNone)])
    with (weekly_stats (map encode_bucket (fixed_chunk_spec series))).
  rewrite (compose_latest_version _ _ _ _ _ _ _ _ Hentry Hdeps).
  reflexivity.
Qed.

Lemma fetch_package_info_success_witness :
  responds (Examples.healthy Examples.trailing_window)
    (Processor.registry_request "left-pad") Examples.registry_body
  /\ holds_series (Examples.download_data Examples.trailing_window)
       Examples.trailing_window
  /\ snd (Processor.fetch_package_info
            (Examples.healthy Examples.trailing_window) "left-pad") =
     Return (package_record "left-pad" (VStr "String left pad")
               (VList [VStr "repeat-string"]) (VInt 1000)
               (VList (map encode_bucket
                         (fixed_chunk_spec Examples.trailing_window)))
               (VInt 42) (VStr "1.3.0")).
Proof.
  assert (Hreg : responds (Examples.healthy Examples.trailing_window)
                   (Processor.registry_request "left-pad") Examples.registry_body)
    by (eexists; repeat split; reflexivity).
  assert (Hholds : holds_series (Examples.download_data Examples.trailing_window)
                     Examples.trailing_window) by (left; reflexivity).
  split; [exact Hreg|]. split; [exact Hholds|].
  destruct (fetch_package_info_success
              (Examples.healthy Examples.trailing_window) "left-pad"
              Examples.registry_document Examples.latest_entry
              [("name", VStr "left-pad"); ("downloads", VInt 1000);
               ("dependent_packages_count", VInt 42)]
              (Examples.download_data Examples.trailing_window)
              (VStr "1.3.0") (VList [VStr "repeat-string"])
              (Datetime.ymd2ord 2024 1 13) Examples.trailing_window Hreg)
    as [Hrun _].
  - repeat split; reflexivity.
  - reflexivity.
  - eexists. repeat split; reflexivity.
  - reflexivity.
  - eexists. repeat split; reflexivity.
  - exact Hholds.
  - rewrite Hrun. reflexivity.
Defined.

(* ===================================================================== *)
(** ** The effects of the updater                                         *)
(* ===================================================================== *)

Section UpdaterEffects.

Lemma writes_app (es es' : list event) :
  writes (es ++ es') = (writes es + writes es')%nat.
Proof. unfold writes. rewrite filter_app, length_app. reflexivity. Qed.

Lemma failures_app (es es' : list event) :
  failures (es ++ es') = (failures es + failures es')%nat.
Proof. unfold failures. rewrite filter_app, length_app. reflexivity. Qed.

Lemma quiet_app (es es' : list event) : quiet es -> quiet es' -> quiet (es ++ es').
Proof.
  intros [Hw Hf] [Hw' Hf']. split.
  - rewrite writes_app, Hw, Hw'. reflexivity.
  - rewrite failures_app, Hf, Hf'. reflexivity.
Qed.

Lemma quiet_ret {A} (a : A) : quiet (fst (ret a)).
Proof. split; reflexivity. Qed.

Lemma quiet_lift {A} (o : outcome A) : quiet (fst (lift o)).
Proof. split; reflexivity. Qed.

Lemma quiet_request {A} (w : world) (url : string) (body : response -> outcome A) :
  quiet (fst (request w url body)).
Proof. split; reflexivity. Qed.

Lemma quiet_with_semaphore {A} (m : task A) :
  quiet (fst m) -> quiet (fst (with_semaphore m)).
Proof.
  intros Hm. unfold with_semaphore. cbn [fst].
  change (Acquire :: fst m ++ [Release]) with ([Acquire] ++ fst m ++ [Release]).
  repeat apply quiet_app; try exact Hm; split; reflexivity.
Qed.

Lemma quiet_bind {A B} (m : task A) (f : A -> task B) :
  quiet (fst m) -> (forall a, quiet (fst (f a))) -> quiet (fst (Async.bind m f)).
Proof.
  intros Hm Hf. unfold Async.bind. destruct (snd m) as [e|a]; cbn [fst].
  - exact Hm.
  - apply quiet_app; [exact Hm|apply Hf].
Qed.

Lemma quiet_try_except {A} (m : task A) (handler : exn -> task A) :
  quiet (fst m) -> (forall e, quiet (fst (handler e))) ->
  quiet (fst (try_except m handler)).
Proof.
  intros Hm Hh. unfold try_except. destruct (snd m) as [e|a]; cbn [fst].
  - apply quiet_app; [exact Hm|apply Hh].
  - exact Hm.
Qed.

Create HintDb quiet discriminated.
#[local] Hint Resolve quiet_ret quiet_lift quiet_request quiet_with_semaphore
  quiet_bind quiet_try_except : quiet.

Lemma quiet_fetch_ecosystem_stats (w : world) (package_name : value) :
  quiet (fst (Updater.fetch_ecosystem_stats w package_name)).
Proof. unfold Updater.fetch_ecosystem_stats. auto with quiet. Qed.

Lemma quiet_fetch_weekly_trends (w : world) (package_name : value) :
  quiet (fst (Updater.fetch_weekly_trends w package_name)).
Proof.
  unfold Updater.fetch_weekly_trends.
  apply quiet_try_except; [|auto with quiet].
  apply quiet_bind; [auto with quiet|]. intros [start_date end_date].
  apply quiet_bind; [auto with quiet|]. intros [returned|download_data];
    auto with quiet.
Qed.

#[local] Hint Resolve quiet_fetch_ecosystem_stats quiet_fetch_weekly_trends : quiet.

Lemma writes_once_bind {A} (m : task A) (f : A -> task unit) :
  quiet (fst m) -> (forall a, writes_once_or_raises (f a)) ->
  writes_once_or_raises (Async.bind m f).
Proof.
  intros [Hw Hf] Hcont. unfold Async.bind.
  destruct (snd m) as [e|a]; cbn [fst snd].
  - left. exists e. split; [reflexivity|]. split; assumption.
  - destruct (Hcont a) as [(e & Hraise & [Hw' Hf'])|(Hret & Hw' & Hf')].
    + left. exists e. cbn [fst snd]. split; [exact Hraise|].
      apply quiet_app; split; assumption.
    + right. cbn [fst snd]. split; [exact Hret|].
      rewrite writes_app, failures_app, Hw, Hf, Hw', Hf'. split; reflexivity.
Qed.

Lemma writes_once_raise (e : exn) : writes_once_or_raises (lift (Raise e)).
Proof. left. exists e. split; [reflexivity|split; reflexivity]. Qed.

(** A package document with a name: the coroutine returns, and either
    writes once and records no failure, or records one failure and writes
    nothing. *)
Lemma update_package_info_effects (w : world) (package_doc package_name : value) :
  getitem package_doc (VStr "name") = Return package_name ->
  snd (Updater.update_package_info w package_doc) = Return tt
  /\ ((writes (fst (Updater.update_package_info w package_doc)) = 1%nat
       /\ failures (fst (Updater.update_package_info w package_doc)) = 0%nat)
      \/ (writes (fst (Updater.update_package_info w package_doc)) = 0%nat
          /\ failures (fst (Updater.update_package_info w package_doc)) = 1%nat)).
Proof.
  intros Hname. unfold Updater.update_package_info.
  rewrite (bind_return _ _ package_name) by exact Hname.
  cbv beta. cbn [lift fst snd app].
  match goal with
  | |- context [try_except ?m _] => set (body := m)
  end.
  assert (Hbody : writes_once_or_raises body).
  { subst body.
    apply writes_once_bind; [auto with quiet|]. intros data.
    apply writes_once_bind; [auto with quiet|]. intros ecosystem_stats.
    apply writes_once_bind; [auto with quiet|]. intros failed.
    destruct (truthy failed).
    - apply writes_once_bind; [auto with quiet|]. intros error_msg.
      apply writes_once_raise.
    - apply writes_once_bind; [auto with quiet|]. intros weekly_stats.
      apply writes_once_bind; [auto with quiet|]. intros failed'.
      destruct (truthy failed').
      + apply writes_once_bind; [auto with quiet|]. intros error_msg.
        apply writes_once_raise.
      + apply writes_once_bind; [auto with quiet|]. intros fields.
        right. repeat split; reflexivity. }
  unfold try_except.
  destruct Hbody as [(e & Hraise & [Hw Hf])|(Hret & Hw & Hf)].
  - rewrite Hraise. cbn [fst snd]. split; [reflexivity|]. right.
    rewrite writes_app, failures_app, Hw, Hf. split; reflexivity.
  - rewrite Hret. split; [exact Hret|]. left. split; assumption.
Qed.

End UpdaterEffects.

(** X6.  For a package document that has a name, [update_package_info]
    never raises, whatever the upstream services do, and has exactly one
    effect: it writes the update to the collection once and records no
    failure, or it appends one entry to [self.failed_updates] and writes
    nothing. *)
Theorem update_package_info_one_effect (w : world) (package_doc package_name : value) :
  getitem package_doc (VStr "name") = Return package_name ->
  snd (Updater.update_package_info w package_doc) = Return tt
  /\ (writes (fst (Updater.update_package_info w package_doc))
      + failures (fst (Updater.update_package_info w package_doc)) = 1)%nat
  /\ (failures (fst (Updater.update_package_info w package_doc)) = 0%nat
      <-> writes (fst (Updater.update_package_info w package_doc)) = 1%nat).
Proof.
  intros Hname.
  destruct (update_package_info_effects w package_doc package_name Hname)
    as (Hret & [[Hw Hf]|[Hw Hf]]); rewrite Hw, Hf;
    (split; [exact Hret|]); split; try reflexivity; split; intros H;
    try reflexivity; discriminate H.
Qed.

Lemma update_package_info_one_effect_witness :
  getitem (Examples.package_doc "left-pad") (VStr "name") = Return (VStr "left-pad")
  /\ snd (Updater.update_package_info Examples.untagged_without_stats
            (Examples.package_doc "left-pad")) = Return tt
  /\ writes (fst (Updater.update_package_info Examples.untagged_without_stats
                    (Examples.package_doc "left-pad"))) = 0%nat
  /\ failures (fst (Updater.update_package_info Examples.untagged_without_stats
                      (Examples.package_doc "left-pad"))) = 1%nat.
Proof.
  assert (Hname : getitem (Examples.package_doc "left-pad") (VStr "name")
                  = Return (VStr "left-pad")) by reflexivity.
  split; [exact Hname|].
  destruct (update_package_info_one_effect Examples.untagged_without_stats
              _ _ Hname) as (Hret & Hsum & _).
  split; [exact Hret|]. split; vm_compute; reflexivity.
Defined.

(* ===================================================================== *)
(** ** The batch of the updater                                           *)
(* ===================================================================== *)

Section UpdaterBatch.

Variable w : world.

Lemma update_all_outcomes (packages : list value) :
  Forall named packages ->
  map snd (map (Updater.update_package_info w) packages) =
  map Return (map (fun _ => tt) packages).
Proof.
  induction 1 as [|doc docs [name Hname] _ IH]; [reflexivity|].
  cbn [map]. rewrite IH.
  destruct (update_package_info_effects w doc name Hname) as [-> _].
  reflexivity.
Qed.

Lemma update_all_effects (packages : list value) :
  Forall named packages ->
  (writes (concat (map fst (map (Updater.update_package_info w) packages)))
   + failures (concat (map fst (map (Updater.update_package_info w) packages)))
   = length packages)%nat.
Proof.
  induction 1 as [|doc docs [name Hname] _ IH]; [reflexivity|].
  cbn [map concat length]. rewrite writes_app, failures_app.
  destruct (update_package_info_effects w doc name Hname)
    as (_ & [[Hw Hf]|[Hw Hf]]); rewrite Hw, Hf; lia.
Qed.

(** A document without a name makes its coroutine raise at once. *)
Lemma update_package_info_nameless (doc : list (string * value)) :
  Py.lookup "name" doc = None ->
  Updater.update_package_info w (VDict doc) = ([], Raise (KeyError (VStr "name"))).
Proof.
  intros Hnone. unfold Updater.update_package_info.
  apply bind_raise. cbn [lift snd getitem]. rewrite Hnone. reflexivity.
Qed.

Lemma update_package_info_outcome (doc : list (string * value)) :
  snd (Updater.update_package_info w (VDict doc)) = Return tt
  \/ snd (Updater.update_package_info w (VDict doc))
     = Raise (KeyError (VStr "name")).
Proof.
  destruct (Py.lookup "name" doc) as [name|] eqn:Hname.
  - left.
    apply (update_package_info_effects w (VDict doc) name).
    cbn [getitem]. rewrite Hname. reflexivity.
  - right. rewrite (update_package_info_nameless doc Hname). reflexivity.
Qed.

(** When every child that raises raises [e] and one of them is among the
    completed ones, [gather] raises [e]. *)
Lemma first_raise_some {A} (children : list (outcome A)) (e : exn)
    (completion : list nat) (i : nat) :
  (forall j e', nth_error children j = Some (Raise e') -> e' = e) ->
  In i completion ->
  nth_error children i = Some (Raise e) ->
  Processor.first_raise children completion = Some e.
Proof.
  intros Hsame Hin Hraise.
  induction completion as [|j rest IH]; [contradiction|].
  cbn [Processor.first_raise].
  destruct (nth_error children j) as [[e'|a]|] eqn:Hj.
  - rewrite (Hsame _ _ Hj). reflexivity.
  - destruct Hin as [->|Hin]; [congruence|exact (IH Hin)].
  - destruct Hin as [->|Hin]; [congruence|exact (IH Hin)].
Qed.

End UpdaterBatch.

(** X7.  When every package document has a name, [update_all_packages]
    completes in whatever order its coroutines do, and its summary adds
    up: the failures it counts are the entries of [self.failed_updates],
    and the successes it prints, the total less the failures, are exactly
    the writes made to the collection. *)
Theorem update_all_packages_summary (w : world) (packages : list value)
    (completion : list nat) :
  Forall named packages ->
  Permutation completion (seq 0 (length packages)) ->
  exists report,
    Updater.update_all_packages w packages completion = Some (Return report)
    /\ Updater.total_packages report = Z.of_nat (length packages)
    /\ Updater.total_failed report =
       Z.of_nat (failures (concat (Updater.scripts w packages)))
    /\ Updater.total_successful report =
       Z.of_nat (writes (concat (Updater.scripts w packages)))
    /\ 0 <= Updater.total_failed report <= Updater.total_packages report.
Proof.
  intros Hnamed Hperm. unfold Updater.update_all_packages.
  rewrite (update_all_outcomes w packages Hnamed).
  rewrite gather_all_return by (rewrite length_map; exact Hperm).
  pose proof (update_all_effects w packages Hnamed) as Hsum.
  unfold Updater.scripts. rewrite map_map in Hsum.
  eexists. split; [reflexivity|].
  cbn [Updater.total_packages Updater.total_failed Updater.total_successful].
  rewrite map_map. repeat split; lia.
Qed.

Lemma update_all_packages_summary_witness :
  Forall named (map Examples.package_doc ["left-pad"; "react"])
  /\ Permutation [1%nat; 0%nat] (seq 0 2)
  /\ Updater.update_all_packages Examples.untagged_without_stats
       (map Examples.package_doc ["left-pad"; "react"]) [1%nat; 0%nat]
     = Some (Return {| Updater.total_packages := 2;
                       Updater.total_failed := 2;
                       Updater.total_successful := 0 |}).
Proof.
  assert (Hnamed : Forall named (map Examples.package_doc ["left-pad"; "react"]))
    by (repeat constructor; eexists; reflexivity).
  assert (Hperm : Permutation [1%nat; 0%nat] (seq 0 2)) by apply perm_swap.
  split; [exact Hnamed|]. split; [exact Hperm|].
  destruct (update_all_packages_summary Examples.untagged_without_stats
              (map Examples.package_doc ["left-pad"; "react"])
              [1%nat; 0%nat] Hnamed Hperm) as (report & Hrun & _).
  rewrite Hrun. vm_compute in Hrun. injection Hrun as <-. reflexivity.
Defined.

(** X8.  A package document without a name aborts the batch of the
    updater: line 100 reads the name outside the [try], the coroutine
    raises [KeyError] without any request, and [gather] hands the
    exception to [update_all_packages], which prints no summary. *)
Theorem update_all_packages_aborts (w : world) (docs : list (list (string * value)))
    (completion : list nat) :
  Permutation completion (seq 0 (length docs)) ->
  Exists (fun doc => Py.lookup "name" doc = None) docs ->
  Updater.update_all_packages w (map VDict docs) completion =
  Some (Raise (KeyError (VStr "name")))
  /\ forall doc,
       In doc docs -> Py.lookup "name" doc = None ->
       Updater.update_package_info w (VDict doc) =
       ([], Raise (KeyError (VStr "name"))).
Proof.
  intros Hperm Hexists. split.
  2:{ intros doc _ Hnone. apply update_package_info_nameless, Hnone. }
  apply Exists_exists in Hexists. destruct Hexists as (doc & Hin & Hnone).
  apply In_nth_error in Hin. destruct Hin as [i Hi].
  unfold Updater.update_all_packages.
  set (children := map snd (map (Updater.update_package_info w) (map VDict docs))).
  assert (Hraise : nth_error children i = Some (Raise (KeyError (VStr "name")))).
  { unfold children. rewrite !nth_error_map, Hi. cbn [option_map].
    rewrite (update_package_info_nameless w doc Hnone). reflexivity. }
  assert (Hsame : forall j e',
             nth_error children j = Some (Raise e') -> e' = KeyError (VStr "name")).
  { intros j e' Hj. unfold children in Hj. rewrite !nth_error_map in Hj.
    destruct (nth_error docs j) as [doc'|]; [|discriminate Hj].
    cbn [option_map] in Hj.
    destruct (update_package_info_outcome w doc') as [Hret|Hkey];
      rewrite ?Hret, ?Hkey in Hj; congruence. }
  assert (Hin : In i completion).
  { apply (Permutation_in i (Permutation_sym Hperm)). apply in_seq.
    assert (i < length docs)%nat by (apply nth_error_Some; congruence). lia. }
  unfold Processor.gather.
  rewrite (first_raise_some children _ completion i Hsame Hin Hraise).
  reflexivity.
Qed.

Lemma update_all_packages_aborts_witness :
  Permutation [0%nat; 1%nat]
    (seq 0 (length [[("name", VStr "react")]; [("_id", VStr "655")]]))
  /\ Updater.update_all_packages (Examples.healthy Examples.refresh_window)
       (map VDict [[("name", VStr "react")]; [("_id", VStr "655")]])
       [0%nat; 1%nat]
     = Some (Raise (KeyError (VStr "name"))).
Proof.
  assert (Hperm : Permutation [0%nat; 1%nat]
                    (seq 0 (length [[("name", VStr "react")];
                                    [("_id", VStr "655")]])))
    by apply Permutation_refl.
  split; [exact Hperm|].
  apply (update_all_packages_aborts (Examples.healthy Examples.refresh_window)
           [[("name", VStr "react")]; [("_id", VStr "655")]] [0%nat; 1%nat] Hperm).
  apply Exists_cons_tl. apply Exists_cons_hd. reflexivity.
Defined.

(* ===================================================================== *)
(** ** Dates as text and back                                             *)
(* ===================================================================== *)

Section DateText.

Import Datetime.

Lemma upto_in (first count n : Z) :
  first <= n < first + count -> In n (upto first count).
Proof.
  intros Hn. unfold upto. apply in_map_iff.
  exists (Z.to_nat (n - first)). split; [lia|]. apply in_seq. lia.
Qed.

Lemma month_and_day_checked :
  forallb (month_and_day_ok false) (upto 0 365)
  && forallb (month_and_day_ok true) (upto 0 365) = true.
Proof. vm_compute. reflexivity. Qed.

Lemma year_text_checked : forallb year_text_ok (upto 1 9999) = true.
Proof. vm_compute. reflexivity. Qed.

Lemma month_day_text_checked :
  forallb (fun m => forallb (month_day_text_ok m) (upto 1 31)) (upto 1 12) = true.
Proof. vm_compute. reflexivity. Qed.

Lemma month_and_day_spec (n : Z) (leapyear : bool) :
  0 <= n < 365 -> month_and_day_ok leapyear n = true.
Proof.
  intros Hn. pose proof month_and_day_checked as H.
  apply andb_true_iff in H. destruct H as [Hf Ht].
  destruct leapyear;
    [apply (proj1 (forallb_forall _ _) Ht)|apply (proj1 (forallb_forall _ _) Hf)];
    apply upto_in; lia.
Qed.

Lemma is_leap_true (y : Z) :
  is_leap y = true <-> (y mod 4 = 0 /\ (y mod 100 <> 0 \/ y mod 400 = 0)).
Proof.
  unfold is_leap. rewrite andb_true_iff, orb_true_iff, negb_true_iff.
  rewrite !Z.eqb_eq, Z.eqb_neq. reflexivity.
Qed.

Lemma ord2ymd_unfold (ordinal : Z) :
  ord2ymd ordinal =
  let n := ordinal - 1 in
  let n400 := n / 146097 in
  let n := n mod 146097 in
  let n100 := n / 36524 in
  let n := n mod 36524 in
  let n4 := n / 1461 in
  let n := n mod 1461 in
  let n1 := n / 365 in
  let n := n mod 365 in
  let year := n400 * 400 + 1 + n100 * 100 + n4 * 4 + n1 in
  if (n1 =? 4) || (n100 =? 4) then (year - 1, 12, 31)
  else
    let leapyear := (n1 =? 3) && (negb (n4 =? 24) || (n100 =? 3)) in
    (year, fst (month_and_day n leapyear), snd (month_and_day n leapyear)).
Proof.
  unfold ord2ymd, month_and_day, DI400Y, DI100Y, DI4Y. cbv zeta.
  destruct (_ || _); [reflexivity|].
  destruct (_ <? _); reflexivity.
Qed.

(** [_ord2ymd] yields a date that exists, and [_ymd2ord] leads back. *)
Lemma ord2ymd_spec (ordinal : Z) :
  1 <= ordinal <= MAXORDINAL ->
  exists y m d,
    ord2ymd ordinal = (y, m, d)
    /\ 1 <= y <= 9999 /\ 1 <= m <= 12 /\ 1 <= d <= 31
    /\ d <= days_in_month y m
    /\ ymd2ord y m d = ordinal.
Proof.
  intros Hrange. unfold MAXORDINAL in Hrange. rewrite ord2ymd_unfold. cbv zeta.
  set (n0 := ordinal - 1).
  set (n400 := n0 / 146097). set (r1 := n0 mod 146097).
  set (n100 := r1 / 36524). set (r2 := r1 mod 36524).
  set (n4 := r2 / 1461). set (r3 := r2 mod 1461).
  set (n1 := r3 / 365). set (r4 := r3 mod 365).
  assert (E0 : 0 <= n0 <= 3652058) by (unfold n0; lia).
  assert (E1 : n0 = 146097 * n400 + r1 /\ 0 <= r1 < 146097)
    by (unfold n400, r1; Z.div_mod_to_equations; lia).
  assert (E2 : r1 = 36524 * n100 + r2 /\ 0 <= r2 < 36524)
    by (unfold n100, r2; Z.div_mod_to_equations; lia).
  assert (E3 : r2 = 1461 * n4 + r3 /\ 0 <= r3 < 1461)
    by (unfold n4, r3; Z.div_mod_to_equations; lia).
  assert (E4 : r3 = 365 * n1 + r4 /\ 0 <= r4 < 365)
    by (unfold n1, r4; Z.div_mod_to_equations; lia).
  assert (En : ordinal = n0 + 1) by (unfold n0; lia).
  clearbody n400 r1 n100 r2 n4 r3 n1 r4 n0.
  destruct E1 as [E1 B1], E2 as [E2 B2], E3 as [E3 B3], E4 as [E4 B4].
  set (year := n400 * 400 + 1 + n100 * 100 + n4 * 4 + n1).
  destruct (Z.eqb_spec n1 4) as [H1|H1]; [|destruct (Z.eqb_spec n100 4) as [H100|H100]];
    cbn [orb].
  - (* the last day of a leap year *)
    assert (Hleap : is_leap (year - 1) = true)
      by (apply is_leap_true; unfold year; Z.div_mod_to_equations; lia).
    exists (year - 1), 12, 31. split; [reflexivity|].
    unfold days_in_month, ymd2ord, days_before_month, days_before_year.
    rewrite Hleap. cbn [Z.eqb Pos.eqb andb Z.ltb Z.compare Pos.compare
                        Pos.compare_cont DAYS_IN_MONTH DAYS_BEFORE_MONTH Z.b2z].
    cbv zeta. unfold year. repeat split; try lia; Z.div_mod_to_equations; lia.
  - (* the last day of a cycle of 400 years *)
    assert (Hleap : is_leap (year - 1) = true)
      by (apply is_leap_true; unfold year; Z.div_mod_to_equations; lia).
    exists (year - 1), 12, 31. split; [reflexivity|].
    unfold days_in_month, ymd2ord, days_before_month, days_before_year.
    rewrite Hleap. cbn [Z.eqb Pos.eqb andb Z.ltb Z.compare Pos.compare
                        Pos.compare_cont DAYS_IN_MONTH DAYS_BEFORE_MONTH Z.b2z].
    cbv zeta. unfold year. repeat split; try lia; Z.div_mod_to_equations; lia.
  - set (leapyear := (n1 =? 3) && (negb (n4 =? 24) || (n100 =? 3))).
    assert (Hleap : is_leap year = leapyear).
    { unfold leapyear. apply eq_true_iff_eq. rewrite is_leap_true.
      rewrite andb_true_iff, orb_true_iff, negb_true_iff, !Z.eqb_eq, Z.eqb_neq.
      unfold year. Z.div_mod_to_equations. lia. }
    pose proof (month_and_day_spec r4 leapyear B4) as Hmd.
    unfold month_and_day_ok in Hmd.
    destruct (month_and_day r4 leapyear) as [m d]. cbn [fst snd].
    rewrite !andb_true_iff, !Z.leb_le, Z.eqb_eq in Hmd.
    destruct Hmd as ((((Hm1 & Hm12) & Hd1) & Hdm) & Hsum).
    exists year, m, d. split; [reflexivity|].
    assert (Hdim : days_in_month year m
                   = if (m =? 2) && leapyear then 29 else DAYS_IN_MONTH m)
      by (unfold days_in_month; rewrite Hleap; reflexivity).
    assert (H31 : (if (m =? 2) && leapyear then 29 else DAYS_IN_MONTH m) <= 31).
    { destruct ((m =? 2) && leapyear); [lia|].
      assert (Hcases : m = 1 \/ m = 2 \/ m = 3 \/ m = 4 \/ m = 5 \/ m = 6
                       \/ m = 7 \/ m = 8 \/ m = 9 \/ m = 10 \/ m = 11 \/ m = 12)
        by lia.
      repeat (destruct Hcases as [->|Hcases]; [cbn; lia|]). subst m. cbn. lia. }
    rewrite Hdim.
    unfold ymd2ord, days_before_month, days_before_year. rewrite Hleap.
    cbv zeta. unfold year in *.
    repeat split; try lia; Z.div_mod_to_equations; lia.
Qed.

Lemma list_ascii_of_string_app (s s' : string) :
  list_ascii_of_string (s +:+ s')
  = list_ascii_of_string s ++ list_ascii_of_string s'.
Proof.
  induction s as [|c s IH]; [reflexivity|].
  cbn [String.append list_ascii_of_string app]. rewrite IH. reflexivity.
Qed.

(** The text of a date that exists parses to its day number. *)
Lemma strptime_text (y m d : Z) :
  1 <= y <= 9999 -> 1 <= m <= 12 -> 1 <= d <= 31 ->
  d <= days_in_month y m ->
  strptime (four_digits y +:+ "-" +:+ two_digits m +:+ "-" +:+ two_digits d)
  = Return (ymd2ord y m d).
Proof.
  intros Hy Hm Hd Hdim.
  assert (Hyear : year_text_ok y = true)
    by (apply (proj1 (forallb_forall _ _) year_text_checked); apply upto_in; lia).
  assert (Hmd : month_day_text_ok m d = true).
  { pose proof month_day_text_checked as H.
    assert (Hin : In m (upto 1 12)) by (apply upto_in; lia).
    pose proof (proj1 (forallb_forall _ _) H m Hin) as H'. cbv beta in H'.
    apply (proj1 (forallb_forall _ _) H'). apply upto_in. lia. }
  unfold strptime. rewrite list_ascii_of_string_app.
  unfold year_text_ok in Hyear.
  destruct (list_ascii_of_string (four_digits y))
    as [|a [|b [|c [|e [|? ?]]]]]; try discriminate Hyear.
  cbn [String.append list_ascii_of_string app].
  destruct (digit a) as [a'|]; [|discriminate Hyear].
  destruct (digit b) as [b'|]; [|discriminate Hyear].
  destruct (digit c) as [c'|]; [|discriminate Hyear].
  destruct (digit e) as [e'|]; [|discriminate Hyear].
  apply Z.eqb_eq in Hyear.
  cbn [String.append list_ascii_of_string app].
  change (Ascii.eqb "-"%char dash) with true. cbn [negb].
  rewrite list_ascii_of_string_app.
  cbn [String.append list_ascii_of_string app].
  unfold month_day_text_ok in Hmd. fold dash.
  destruct (parse_month _) as [[m' [|sep rest]]|]; try discriminate Hmd.
  rewrite !andb_true_iff in Hmd. destruct Hmd as [[Hm' Hsep] Hday].
  rewrite Hsep. cbn [negb].
  destruct (parse_day rest) as [[d' [|? ?]]|]; try discriminate Hday.
  apply Z.eqb_eq in Hm', Hday. subst m' d'. rewrite Hyear.
  replace (y =? 0) with false by (symmetry; apply Z.eqb_neq; lia).
  replace (days_in_month y m <? d) with false
    by (symmetry; apply Z.ltb_ge; lia).
  reflexivity.
Qed.

(** A date written by [strftime] is read back by [strptime]. *)
Lemma strptime_strftime (ordinal : Z) :
  1 <= ordinal <= MAXORDINAL ->
  strptime (strftime ordinal) = Return ordinal.
Proof.
  intros Hrange.
  destruct (ord2ymd_spec ordinal Hrange)
    as (y & m & d & Hymd & Hy & Hm & Hd & Hdim & Hback).
  unfold strftime. rewrite Hymd.
  rewrite (strptime_text y m d Hy Hm Hd Hdim). rewrite Hback. reflexivity.
Qed.

End DateText.

(* ===================================================================== *)
(** ** Calendar weeks ([Updater.bucketize])                               *)
(* ===================================================================== *)

Section CalendarWeeks.

Lemma consecutive_app (start : Z) (counts counts' : list Z) :
  consecutive start (counts ++ counts')
  = consecutive start counts
      ++ consecutive (start + Z.of_nat (length counts)) counts'.
Proof.
  revert start. induction counts as [|c counts IH]; intros start.
  - cbn [app consecutive length Z.of_nat]. rewrite Z.add_0_r. reflexivity.
  - cbn [app consecutive length]. rewrite IH. do 3 f_equal. lia.
Qed.

Lemma consecutive_length (start : Z) (counts : list Z) :
  length (consecutive start counts) = length counts.
Proof.
  revert start. induction counts as [|c counts IH]; intros start;
    cbn [consecutive length]; [reflexivity|]. rewrite IH. reflexivity.
Qed.

Lemma sum_ints (xs : list Z) : Py.sum (map VInt xs) = Return (zsum xs).
Proof. unfold Py.sum. rewrite sum_from_ints. reflexivity. Qed.

(** One pass of the loop over the entry of the day numbered [n]. *)
Lemma weekly_loop_entry (n c : Z) (rest acc : list value) (gathered : list Z)
    (current_week_start : option Z) :
  1 <= n <= Datetime.MAXORDINAL ->
  (gathered <> [] -> 2 <= n) ->
  Updater.weekly_loop
    (encode_day {| day := Datetime.strftime n; downloads := c |} :: rest)
    acc (map VInt gathered) current_week_start
  = if Datetime.weekday n =? 0
    then Updater.weekly_loop rest (acc ++ flushed n gathered) [VInt c] (Some n)
    else Updater.weekly_loop rest acc (map VInt (gathered ++ [c]))
           current_week_start.
Proof.
  intros Hn Hprev.
  cbn [Updater.weekly_loop encode_day getitem Py.lookup String.eqb Ascii.eqb
       Bool.eqb Py.bind day downloads Updater.strptime].
  rewrite (strptime_strftime n Hn). cbn [Py.bind].
  destruct (Datetime.weekday n =? 0).
  - destruct gathered as [|x gathered].
    + cbn [map truthy Py.bind flushed]. rewrite app_nil_r. reflexivity.
    + cbn [map truthy]. unfold Datetime.add_days. cbv zeta.
      assert (H2 : 2 <= n) by (apply Hprev; discriminate).
      replace ((1 <=? n + -1) && (n + -1 <=? Datetime.MAXORDINAL)) with true
        by (symmetry; apply andb_true_intro; split; apply Z.leb_le; lia).
      cbn [Py.bind].
      change (VInt x :: map VInt gathered) with (map VInt (x :: gathered)).
      rewrite sum_ints. cbn [Py.bind flushed].
      replace (n + -1) with (n - 1) by lia. reflexivity.
  - rewrite map_app. reflexivity.
Qed.

(** Days that are no Mondays are gathered in [current_week]. *)
Lemma weekly_loop_weekdays (counts : list Z) :
  forall (start : Z) (rest acc : list value) (gathered : list Z)
         (current_week_start : option Z),
    1 <= start ->
    start + Z.of_nat (length counts) - 1 <= Datetime.MAXORDINAL ->
    (forall i, 0 <= i < Z.of_nat (length counts) ->
               Datetime.weekday (start + i) <> 0) ->
    Updater.weekly_loop (map encode_day (consecutive start counts) ++ rest)
      acc (map VInt gathered) current_week_start
    = Updater.weekly_loop rest acc (map VInt (gathered ++ counts))
        current_week_start.
Proof.
  induction counts as [|c counts IH];
    intros start rest acc gathered current_week_start Hstart Hend Hdays.
  - cbn [consecutive map app]. rewrite app_nil_r. reflexivity.
  - cbn [consecutive map app]. cbn [length] in Hend, Hdays.
    rewrite weekly_loop_entry.
    + assert (Hday : Datetime.weekday start <> 0)
        by (rewrite <- (Z.add_0_r start); apply Hdays; lia).
      apply Z.eqb_neq in Hday. rewrite Hday.
      rewrite IH.
      * rewrite <- app_assoc. reflexivity.
      * lia.
      * lia.
      * intros i Hi. replace (start + 1 + i) with (start + (i + 1)) by lia.
        apply Hdays. lia.
    + lia.
    + intros _. assert (Hday : Datetime.weekday start <> 0)
        by (rewrite <- (Z.add_0_r start); apply Hdays; lia).
      unfold Datetime.weekday in Hday.
      destruct (Z.eq_dec start 1) as [->|]; [|lia].
      exfalso. apply Hday. reflexivity.
Qed.

(** A Monday and the days after it, up to six: the counts gathered before
    it are flushed and those of the new week gathered. *)
Lemma weekly_loop_monday (c : Z) (counts : list Z) (monday : Z)
    (rest acc : list value) (gathered : list Z) (current_week_start : option Z) :
  Datetime.weekday monday = 0 ->
  1 <= monday ->
  monday + Z.of_nat (length counts) <= Datetime.MAXORDINAL ->
  (gathered <> [] -> 2 <= monday) ->
  (length counts < 7)%nat ->
  Updater.weekly_loop
    (map encode_day (consecutive monday (c :: counts)) ++ rest)
    acc (map VInt gathered) current_week_start
  = Updater.weekly_loop rest (acc ++ flushed monday gathered)
      (map VInt (c :: counts)) (Some monday).
Proof.
  intros Hmonday Hstart Hend Hprev Hlen.
  cbn [consecutive map app].
  rewrite weekly_loop_entry by (auto; lia).
  rewrite Hmonday. cbn [Z.eqb].
  change [VInt c] with (map VInt [c]).
  rewrite weekly_loop_weekdays.
  - reflexivity.
  - lia.
  - lia.
  - intros i Hi. unfold Datetime.weekday in *.
    Z.div_mod_to_equations. lia.
Qed.

Lemma weeks_length (n : nat) (monday : Z) (counts : list Z) :
  length (weeks n monday counts) = n.
Proof.
  revert monday counts. induction n as [|n IH]; intros monday counts;
    cbn [weeks length]; [reflexivity|]. rewrite IH. reflexivity.
Qed.

Lemma weeks_nth (n : nat) :
  forall (monday : Z) (counts : list Z) (j : nat),
    (j < n)%nat ->
    nth_error (weeks n monday counts) j
    = Some (monday + 7 * Z.of_nat j + 6,
            zsum (firstn 7 (skipn (7 * j) counts))).
Proof.
  induction n as [|n IH]; intros monday counts j Hj; [lia|].
  destruct j as [|j].
  - cbn [weeks nth_error Nat.mul skipn Z.of_nat]. do 2 f_equal. lia.
  - cbn [weeks nth_error]. rewrite IH by lia.
    rewrite skipn_skipn.
    replace (7 * S j)%nat with (7 * j + 7)%nat by lia.
    do 2 f_equal. lia.
Qed.

(** The loop and the last week over a run that starts on a Monday: the
    counts gathered before it are flushed, then every full week. *)
Lemma weekly_loop_full_weeks (n : nat) :
  forall (counts : list Z) (monday : Z) (acc : list value) (gathered : list Z)
         (current_week_start : option Z),
    Datetime.weekday monday = 0 ->
    1 <= monday ->
    monday + Z.of_nat (length counts) - 1 <= Datetime.MAXORDINAL ->
    (gathered <> [] -> 2 <= monday) ->
    counts <> [] ->
    (length counts / 7 = n)%nat ->
    Py.bind (Updater.weekly_loop (map encode_day (consecutive monday counts))
               acc (map VInt gathered) current_week_start)
            last_week
    = Return (acc ++ flushed monday gathered
                  ++ map week_bucket (weeks n monday counts)).
Proof.
  induction n as [|n IH];
    intros counts monday acc gathered current_week_start
           Hmonday Hstart Hend Hprev Hne Hweeks.
  - (* fewer than seven days: they stay in [current_week] *)
    assert (Hlen : (length counts < 7)%nat).
    { destruct (Nat.lt_ge_cases (length counts) 7) as [|Hge]; [assumption|].
      apply (Nat.Div0.div_le_mono _ _ 7) in Hge.
      rewrite Nat.div_same in Hge by lia. lia. }
    destruct counts as [|c counts]; [contradiction|]. cbn [length] in Hlen, Hend.
    rewrite <- (app_nil_r (map encode_day _)).
    rewrite weekly_loop_monday by (auto; lia).
    cbn [Updater.weekly_loop Py.bind last_week weeks].
    rewrite length_map. cbn [map truthy andb].
    replace (length (c :: counts) =? 7)%nat with false
      by (symmetry; apply Nat.eqb_neq; cbn [length]; lia).
    rewrite app_nil_r. reflexivity.
  - assert (Hlen : (7 <= length counts)%nat).
    { destruct (Nat.lt_ge_cases (length counts) 7) as [Hlt|]; [|assumption].
      rewrite Nat.div_small in Hweeks by assumption. discriminate. }
    assert (Hweek : length (firstn 7 counts) = 7%nat)
      by (rewrite length_firstn; lia).
    assert (Hrest : length (skipn 7 counts) = (length counts - 7)%nat)
      by apply length_skipn.
    rewrite <- (firstn_skipn 7 counts) at 1.
    cbn [weeks map].
    remember (firstn 7 counts) as week eqn:Eweek.
    remember (skipn 7 counts) as rest eqn:Erest.
    rewrite consecutive_app, map_app, Hweek.
    destruct week as [|c week]; [discriminate Hweek|].
    cbn [length] in Hweek.
    rewrite weekly_loop_monday by (auto; lia).
    assert (Hn : (length rest / 7 = n)%nat).
    { rewrite Hrest.
      replace (length counts) with (length counts - 7 + 1 * 7)%nat in Hweeks by lia.
      rewrite Nat.div_add in Hweeks by lia. lia. }
    clear Eweek Erest.
    destruct rest as [|r rest].
    + (* the run ends with this week: the last week *)
      cbn [length] in Hn. cbn [Nat.div Nat.divmod fst] in Hn. subst n.
      cbn [consecutive map Updater.weekly_loop Py.bind last_week weeks length
           truthy andb].
      rewrite length_map, Hweek. cbn [Nat.eqb].
      unfold Datetime.add_days. cbv zeta.
      cbn [length] in Hrest.
      replace ((1 <=? monday + 6) && (monday + 6 <=? Datetime.MAXORDINAL)) with true
        by (symmetry; apply andb_true_intro; split; apply Z.leb_le; lia).
      cbn [Py.bind].
      change (VInt c :: map VInt week) with (map VInt (c :: week)).
      rewrite sum_ints. cbn [Py.bind]. rewrite <- app_assoc. reflexivity.
    + (* the next Monday flushes this week *)
      rewrite (IH (r :: rest) (monday + 7) _ (c :: week) (Some monday)).
      * rewrite <- app_assoc. cbn [flushed week_bucket fst snd app].
        replace (monday + 7 - 1) with (monday + 6) by lia. reflexivity.
      * unfold Datetime.weekday in *. Z.div_mod_to_equations. lia.
      * lia.
      * lia.
      * lia.
      * discriminate.
      * exact Hn.
Qed.

Lemma bucketize_last_week (download_data : value) :
  Updater.bucketize download_data =
  (series <- get download_data "downloads" (VList []) ;;
   days <- iter series ;;
   Py.bind (Updater.weekly_loop days [] [] None) last_week).
Proof. reflexivity. Qed.

(** The buckets of a run of consecutive days: the days before its first
    Monday make a bucket when there are some, then every full week from
    that Monday makes one. *)
Lemma bucketize_calendar (download_data : list (string * value))
    (start : Z) (lead body : list Z) :
  holds_series download_data (consecutive start (lead ++ body)) ->
  1 <= start ->
  start + Z.of_nat (length (lead ++ body)) - 1 <= Datetime.MAXORDINAL ->
  (length lead < 7)%nat ->
  Datetime.weekday (start + Z.of_nat (length lead)) = 0 ->
  body <> [] ->
  Updater.bucketize (VDict download_data) =
  Return (flushed (start + Z.of_nat (length lead)) lead
            ++ map week_bucket
                 (full_weeks (start + Z.of_nat (length lead)) body)).
Proof.
  intros Hholds Hstart Hend Hlead Hmonday Hbody.
  rewrite length_app in Hend.
  destruct Hholds as [Hget|[_ Hnil]].
  2:{ apply (f_equal (@length _)) in Hnil.
      rewrite consecutive_length, length_app in Hnil.
      destruct body; [contradiction|]. cbn [length] in Hnil. lia. }
  rewrite bucketize_last_week. cbn [get Py.bind]. rewrite Hget.
  cbn [iter Py.bind].
  rewrite consecutive_app, map_app.
  change (@nil value) with (map VInt []) at 2.
  rewrite weekly_loop_weekdays.
  - cbn [app]. unfold full_weeks.
    rewrite <- (app_nil_r (map encode_day (consecutive _ body))) at 1.
    rewrite app_nil_r.
    rewrite (weekly_loop_full_weeks (length body / 7) body); auto.
    + lia.
    + lia.
    + intros Hne. destruct lead; [contradiction|]. cbn [length]. lia.
  - exact Hstart.
  - lia.
  - intros i Hi. unfold Datetime.weekday in *. Z.div_mod_to_equations. lia.
Qed.

End CalendarWeeks.

(* ===================================================================== *)
(** ** The weekly trends of the updater                                   *)
(* ===================================================================== *)

Section CalendarSeries.

(** Days that are no Mondays, consecutive or not, are gathered in
    [current_week]. *)
Lemma weekly_loop_no_monday (entries : list (Z * Z)) :
  forall (acc : list value) (gathered : list Z) (current_week_start : option Z),
    Forall (fun entry => 1 <= fst entry <= Datetime.MAXORDINAL
                         /\ Datetime.weekday (fst entry) <> 0) entries ->
    Updater.weekly_loop (map encode_day (dated entries))
      acc (map VInt gathered) current_week_start
    = Return (acc, map VInt (gathered ++ map snd entries), current_week_start).
Proof.
  induction entries as [|[n c] entries IH];
    intros acc gathered current_week_start Hall.
  - cbn [dated map Updater.weekly_loop]. rewrite app_nil_r. reflexivity.
  - inversion Hall as [|? ? [Hn Hday] Hrest]; subst. cbn [fst] in Hn, Hday.
    unfold dated in *. cbn [map fst snd].
    rewrite weekly_loop_entry.
    + apply Z.eqb_neq in Hday. rewrite Hday.
      rewrite IH by assumption. rewrite <- app_assoc. reflexivity.
    + exact Hn.
    + intros _. destruct (Z.eq_dec n 1) as [->|]; [|lia].
      exfalso. apply Hday. reflexivity.
Qed.

(** The window the updater asks for, when the clock allows one. *)
Lemma get_week_boundaries_sundays (w : world) (start_date end_date : Z) :
  Updater.get_week_boundaries w = Return (start_date, end_date) ->
  1 <= start_date /\ end_date = start_date + 56
  /\ end_date <= Datetime.MAXORDINAL
  /\ Datetime.weekday start_date = 6.
Proof.
  unfold Updater.get_week_boundaries, Datetime.add_days. cbv zeta.
  set (since := (Datetime.weekday (now w) + 1) mod 7).
  assert (Hsince : Datetime.weekday (now w + - since) = 6)
    by (unfold since, Datetime.weekday; Z.div_mod_to_equations; lia).
  destruct ((1 <=? now w + - since) && (now w + - since <=? Datetime.MAXORDINAL))
    eqn:Hend; cbn [Py.bind]; [|discriminate].
  destruct ((1 <=? now w + - since + - (8 * 7))
            && (now w + - since + - (8 * 7) <=? Datetime.MAXORDINAL))
    eqn:Hstart; cbn [Py.bind]; [|discriminate].
  intros [= <- <-].
  apply andb_true_iff in Hend, Hstart.
  rewrite !Z.leb_le in Hend, Hstart.
  repeat split; try lia.
  revert Hsince. unfold Datetime.weekday. Z.div_mod_to_equations. lia.
Qed.

End CalendarSeries.

(** X9.  [Updater.bucketize] on a run of consecutive days that starts on
    a Monday returns one bucket for every full week of the run, in order:
    the bucket at position [j] ends on the Sunday of that week and sums
    its seven counts.  The one to six days left over after the last full
    week are in no bucket. *)
Theorem bucketize_calendar_weeks (download_data : list (string * value))
    (monday : Z) (counts : list Z) :
  holds_series download_data (consecutive monday counts) ->
  Datetime.weekday monday = 0 ->
  1 <= monday ->
  monday + Z.of_nat (length counts) - 1 <= Datetime.MAXORDINAL ->
  exists buckets,
    Updater.bucketize (VDict download_data) = Return buckets
    /\ length buckets = (length counts / 7)%nat
    /\ forall j bucket,
         nth_error buckets j = Some bucket ->
         bucket =
         Updater.bucket (monday + 7 * Z.of_nat j + 6)
                        (zsum (firstn 7 (skipn (7 * j) counts))).
Proof.
  intros Hholds Hmonday Hstart Hend.
  exists (map week_bucket (full_weeks monday counts)).
  split; [|split].
  - destruct counts as [|c counts].
    + destruct Hholds as [Hget|[Hget _]];
        unfold Updater.bucketize; cbn [get Py.bind]; rewrite Hget; reflexivity.
    + pose proof (bucketize_calendar download_data monday [] (c :: counts)) as H.
      cbn [app length Z.of_nat flushed] in H. rewrite Z.add_0_r in H.
      apply H; auto; [lia|discriminate].
  - unfold full_weeks. rewrite length_map. apply weeks_length.
  - intros j bucket Hnth. unfold full_weeks in Hnth.
    rewrite nth_error_map in Hnth.
    destruct (nth_error (weeks (length counts / 7) monday counts) j)
      as [week|] eqn:Hweek; [|discriminate Hnth].
    cbn [option_map] in Hnth. injection Hnth as <-.
    assert (Hj : (j < length counts / 7)%nat).
    { rewrite <- (weeks_length (length counts / 7) monday counts).
      apply nth_error_Some. congruence. }
    rewrite (weeks_nth _ monday counts j Hj) in Hweek.
    injection Hweek as <-. reflexivity.
Qed.

Lemma bucketize_calendar_weeks_witness :
  holds_series
    (Examples.download_data
       (consecutive (Datetime.ymd2ord 2024 1 15) (repeat 3 17)))
    (consecutive (Datetime.ymd2ord 2024 1 15) (repeat 3 17))
  /\ exists buckets,
       Updater.bucketize
         (VDict (Examples.download_data
                   (consecutive (Datetime.ymd2ord 2024 1 15) (repeat 3 17))))
       = Return buckets
       /\ length buckets = 2%nat
       /\ nth_error buckets 1
          = Some (Updater.bucket (Datetime.ymd2ord 2024 1 28) 21).
Proof.
  assert (Hholds :
    holds_series
      (Examples.download_data
         (consecutive (Datetime.ymd2ord 2024 1 15) (repeat 3 17)))
      (consecutive (Datetime.ymd2ord 2024 1 15) (repeat 3 17)))
    by (left; reflexivity).
  split; [exact Hholds|].
  destruct (bucketize_calendar_weeks _ (Datetime.ymd2ord 2024 1 15)
              (repeat 3 17) Hholds)
    as (buckets & Hrun & Hlen & Hnth);
    [reflexivity|vm_compute; discriminate|vm_compute; discriminate|].
  exists buckets. split; [exact Hrun|]. split; [rewrite Hlen; reflexivity|].
  destruct (nth_error buckets 1) as [bucket|] eqn:Hbucket.
  - rewrite (Hnth _ _ Hbucket). vm_compute. reflexivity.
  - apply nth_error_None in Hbucket. rewrite Hlen in Hbucket.
    vm_compute in Hbucket. lia.
Defined.

(** X10.  When a run of consecutive days starts one to six days before a
    Monday and reaches it, [Updater.bucketize] makes a first bucket of
    those days alone, ending on the Sunday before that Monday; after it
    come the buckets of the full weeks from that Monday on, and the days
    left over at the end are in no bucket. *)
Theorem bucketize_leading_days (download_data : list (string * value))
    (start : Z) (lead body : list Z) :
  holds_series download_data (consecutive start (lead ++ body)) ->
  1 <= start ->
  start + Z.of_nat (length (lead ++ body)) - 1 <= Datetime.MAXORDINAL ->
  lead <> [] ->
  (length lead < 7)%nat ->
  Datetime.weekday (start + Z.of_nat (length lead)) = 0 ->
  body <> [] ->
  exists buckets,
    Updater.bucketize (VDict download_data) =
    Return (Updater.bucket (start + Z.of_nat (length lead) - 1) (zsum lead)
              :: buckets)
    /\ length buckets = (length body / 7)%nat
    /\ forall j bucket,
         nth_error buckets j = Some bucket ->
         bucket =
         Updater.bucket (start + Z.of_nat (length lead) + 7 * Z.of_nat j + 6)
                        (zsum (firstn 7 (skipn (7 * j) body))).
Proof.
  intros Hholds Hstart Hend Hlead Hlen Hmonday Hbody.
  exists (map week_bucket (full_weeks (start + Z.of_nat (length lead)) body)).
  split; [|split].
  - rewrite (bucketize_calendar download_data start lead body) by assumption.
    destruct lead; [contradiction|]. reflexivity.
  - unfold full_weeks. rewrite length_map. apply weeks_length.
  - intros j bucket Hnth. unfold full_weeks in Hnth.
    rewrite nth_error_map in Hnth.
    destruct (nth_error (weeks (length body / 7) _ body) j)
      as [week|] eqn:Hweek; [|discriminate Hnth].
    cbn [option_map] in Hnth. injection Hnth as <-.
    assert (Hj : (j < length body / 7)%nat).
    { rewrite <- (weeks_length (length body / 7)
                    (start + Z.of_nat (length lead)) body).
      apply nth_error_Some. congruence. }
    rewrite (weeks_nth _ _ body j Hj) in Hweek.
    injection Hweek as <-. reflexivity.
Qed.

Lemma bucketize_leading_days_witness :
  holds_series
    (Examples.download_data
       (consecutive (Datetime.ymd2ord 2024 1 3) (repeat 2 5 ++ repeat 3 16)))
    (consecutive (Datetime.ymd2ord 2024 1 3) (repeat 2 5 ++ repeat 3 16))
  /\ exists buckets,
       Updater.bucketize
         (VDict (Examples.download_data
                   (consecutive (Datetime.ymd2ord 2024 1 3)
                      (repeat 2 5 ++ repeat 3 16))))
       = Return (Updater.bucket (Datetime.ymd2ord 2024 1 7) 10 :: buckets)
       /\ length buckets = 2%nat
       /\ nth_error buckets 0
          = Some (Updater.bucket (Datetime.ymd2ord 2024 1 14) 21).
Proof.
  assert (Hholds :
    holds_series
      (Examples.download_data
         (consecutive (Datetime.ymd2ord 2024 1 3) (repeat 2 5 ++ repeat 3 16)))
      (consecutive (Datetime.ymd2ord 2024 1 3) (repeat 2 5 ++ repeat 3 16)))
    by (left; reflexivity).
  split; [exact Hholds|].
  destruct (bucketize_leading_days _ (Datetime.ymd2ord 2024 1 3)
              (repeat 2 5) (repeat 3 16) Hholds)
    as (buckets & Hrun & Hlen & Hnth);
    [vm_compute; discriminate|vm_compute; discriminate|discriminate
    |vm_compute; lia|reflexivity|discriminate|].
  exists buckets. split; [exact Hrun|]. split; [rewrite Hlen; reflexivity|].
  destruct (nth_error buckets 0) as [bucket|] eqn:Hbucket.
  - rewrite (Hnth _ _ Hbucket). vm_compute. reflexivity.
  - apply nth_error_None in Hbucket. rewrite Hlen in Hbucket.
    vm_compute in Hbucket. lia.
Defined.

(** X11.  A series without a Monday, of consecutive days or not, gives
    [Updater.bucketize] no week to close: it returns no bucket, unless the
    series has exactly seven entries, in which case line 88 adds six days
    to the [None] still in [current_week_start] and a TypeError is
    raised. *)
Theorem bucketize_without_monday (download_data : list (string * value))
    (entries : list (Z * Z)) :
  holds_series download_data (dated entries) ->
  Forall (fun entry => 1 <= fst entry <= Datetime.MAXORDINAL
                       /\ Datetime.weekday (fst entry) <> 0) entries ->
  (length entries <> 7%nat ->
   Updater.bucketize (VDict download_data) = Return [])
  /\ (length entries = 7%nat ->
      Updater.bucketize (VDict download_data) =
      Raise (TypeError
        "unsupported operand type(s) for +: 'NoneType' and 'datetime.timedelta'")).
Proof.
  intros Hholds Hall.
  assert (Hrun : Updater.bucketize (VDict download_data) =
                 last_week ([], map VInt (map snd entries), None)).
  { rewrite bucketize_last_week. destruct Hholds as [Hget|[Hget Hnil]].
    - cbn [get Py.bind]. rewrite Hget. cbn [iter Py.bind].
      change (@nil value) with (map VInt []) at 2.
      rewrite weekly_loop_no_monday by assumption. reflexivity.
    - cbn [get Py.bind]. rewrite Hget. cbn [iter Py.bind Updater.weekly_loop].
      destruct entries; [reflexivity|discriminate Hnil]. }
  rewrite Hrun. unfold last_week. rewrite !length_map.
  split; intros Hlen.
  - apply Nat.eqb_neq in Hlen. rewrite Hlen, andb_false_r. reflexivity.
  - rewrite Hlen. destruct entries; [discriminate Hlen|]. reflexivity.
Qed.

Lemma bucketize_without_monday_witness :
  holds_series
    (Examples.download_data
       (dated [(Datetime.ymd2ord 2024 1 2, 1); (Datetime.ymd2ord 2024 1 3, 1);
               (Datetime.ymd2ord 2024 1 4, 1); (Datetime.ymd2ord 2024 1 5, 1);
               (Datetime.ymd2ord 2024 1 6, 1); (Datetime.ymd2ord 2024 1 7, 1);
               (Datetime.ymd2ord 2024 1 9, 1)]))
    (dated [(Datetime.ymd2ord 2024 1 2, 1); (Datetime.ymd2ord 2024 1 3, 1);
            (Datetime.ymd2ord 2024 1 4, 1); (Datetime.ymd2ord 2024 1 5, 1);
            (Datetime.ymd2ord 2024 1 6, 1); (Datetime.ymd2ord 2024 1 7, 1);
            (Datetime.ymd2ord 2024 1 9, 1)])
  /\ Updater.bucketize
       (VDict (Examples.download_data
                 (dated [(Datetime.ymd2ord 2024 1 2, 1);
                         (Datetime.ymd2ord 2024 1 3, 1);
                         (Datetime.ymd2ord 2024 1 4, 1);
                         (Datetime.ymd2ord 2024 1 5, 1);
                         (Datetime.ymd2ord 2024 1 6, 1);
                         (Datetime.ymd2ord 2024 1 7, 1);
                         (Datetime.ymd2ord 2024 1 9, 1)])))
     = Raise (TypeError
         "unsupported operand type(s) for +: 'NoneType' and 'datetime.timedelta'").
Proof.
  split; [left; reflexivity|].
  apply (bucketize_without_monday
           (Examples.download_data
              (dated [(Datetime.ymd2ord 2024 1 2, 1);
                      (Datetime.ymd2ord 2024 1 3, 1);
                      (Datetime.ymd2ord 2024 1 4, 1);
                      (Datetime.ymd2ord 2024 1 5, 1);
                      (Datetime.ymd2ord 2024 1 6, 1);
                      (Datetime.ymd2ord 2024 1 7, 1);
                      (Datetime.ymd2ord 2024 1 9, 1)]))
           [(Datetime.ymd2ord 2024 1 2, 1); (Datetime.ymd2ord 2024 1 3, 1);
            (Datetime.ymd2ord 2024 1 4, 1); (Datetime.ymd2ord 2024 1 5, 1);
            (Datetime.ymd2ord 2024 1 6, 1); (Datetime.ymd2ord 2024 1 7, 1);
            (Datetime.ymd2ord 2024 1 9, 1)]).
  - left. reflexivity.
  - repeat constructor; vm_compute; discriminate.
  - reflexivity.
Defined.

(** X12.  [Updater.fetch_weekly_trends] asks for the days from the Sunday
    eight weeks before the last Sunday up to the last Sunday, holding the
    semaphore for the request alone.  Answered with the counts of
    consecutive days from the first day asked for, it returns as first
    weekly bucket that first Sunday by itself, with the count of that one
    day, and after it one bucket for every full Monday-to-Sunday week
    answered: the bucket at position [j] ends [7 (j + 1)] days after the
    start of the window. *)
Theorem fetch_weekly_trends_window (w : world) (package_name : value)
    (start_date end_date : Z) (download_data : list (string * value))
    (first : Z) (body : list Z) :
  Updater.get_week_boundaries w = Return (start_date, end_date) ->
  responds w (Updater.downloads_request start_date end_date package_name)
    (VDict download_data) ->
  holds_series download_data (consecutive start_date (first :: body)) ->
  (0 < length body <= 56)%nat ->
  exists weeks,
    Updater.fetch_weekly_trends w package_name =
    ([Acquire;
      Start (Updater.downloads_request start_date end_date package_name);
      Finish (Updater.downloads_request start_date end_date package_name);
      Release],
     Return (VDict [("weekly_trends",
                     VList (Updater.bucket start_date first :: weeks));
                    ("error", VNone)]))
    /\ length weeks = (length body / 7)%nat
    /\ forall j bucket,
         nth_error weeks j = Some bucket ->
         bucket =
         Updater.bucket (start_date + 7 * (Z.of_nat j + 1))
                        (zsum (firstn 7 (skipn (7 * j) body))).
Proof.
  intros Hbounds (r & Hget & Hstatus & Hjson) Hholds Hlen.
  destruct (get_week_boundaries_sundays _ _ _ Hbounds)
    as (Hstart & Hend & Hmax & Hsunday).
  exists (map week_bucket (full_weeks (start_date + 1) body)).
  split; [|split].
  - unfold Updater.fetch_weekly_trends. rewrite Hbounds.
    unfold try_except, Async.bind, with_semaphore, request, lift.
    cbn [fst snd app]. rewrite Hget. cbn [Py.bind]. rewrite Hstatus, Hjson.
    cbn [negb Z.eqb Pos.eqb Py.bind fst snd ret app].
    rewrite (bucketize_calendar download_data start_date [first] body).
    + cbn [Py.bind length Z.of_nat Pos.of_succ_nat flushed zsum fold_right app].
      replace (start_date + 1 - 1) with start_date by lia.
      rewrite Z.add_0_r. reflexivity.
    + exact Hholds.
    + exact Hstart.
    + cbn [app length]. lia.
    + cbn [length]. lia.
    + cbn [length]. unfold Datetime.weekday in *. Z.div_mod_to_equations. lia.
    + destruct body; [cbn [length] in Hlen; lia|discriminate].
  - unfold full_weeks. rewrite length_map. apply weeks_length.
  - intros j bucket Hnth. unfold full_weeks in Hnth.
    rewrite nth_error_map in Hnth.
    destruct (nth_error (weeks (length body / 7) _ body) j)
      as [week|] eqn:Hweek; [|discriminate Hnth].
    cbn [option_map] in Hnth. injection Hnth as <-.
    assert (Hj : (j < length body / 7)%nat).
    { rewrite <- (weeks_length (length body / 7) (start_date + 1) body).
      apply nth_error_Some. congruence. }
    rewrite (weeks_nth _ _ body j Hj) in Hweek.
    injection Hweek as <-. unfold week_bucket. cbn [fst snd].
    replace (start_date + 7 * (Z.of_nat j + 1))
      with (start_date + 1 + 7 * Z.of_nat j + 6) by lia.
    reflexivity.
Qed.

Lemma fetch_weekly_trends_window_witness :
  Updater.get_week_boundaries (Examples.healthy Examples.refresh_window) =
  Return (Datetime.ymd2ord 2024 1 14, Datetime.ymd2ord 2024 3 10)
  /\ exists weeks,
       snd (Updater.fetch_weekly_trends
              (Examples.healthy Examples.refresh_window) (VStr "left-pad"))
       = Return (VDict [("weekly_trends",
                         VList (Updater.bucket (Datetime.ymd2ord 2024 1 14) 1
                                  :: weeks));
                        ("error", VNone)])
       /\ length weeks = 8%nat
       /\ nth_error weeks 7
          = Some (Updater.bucket (Datetime.ymd2ord 2024 3 10) 7).
Proof.
  split; [reflexivity|].
  destruct (fetch_weekly_trends_window
              (Examples.healthy Examples.refresh_window) (VStr "left-pad")
              (Datetime.ymd2ord 2024 1 14) (Datetime.ymd2ord 2024 3 10)
              (Examples.download_data Examples.refresh_window)
              1 (repeat 1 56))
    as (weeks & Hrun & Hlen & Hnth).
  - reflexivity.
  - eexists. split; [reflexivity|]. split; reflexivity.
  - left. vm_compute. reflexivity.
  - vm_compute. lia.
  - exists weeks. split; [rewrite Hrun; reflexivity|].
    split; [rewrite Hlen; reflexivity|].
    destruct (nth_error weeks 7) as [bucket|] eqn:Hbucket.
    + rewrite (Hnth _ _ Hbucket). vm_compute. reflexivity.
    + apply nth_error_None in Hbucket. rewrite Hlen in Hbucket.
      vm_compute in Hbucket. lia.
Defined.

(* ===================================================================== *)
(** ** The semaphore and the calls to npm in the updater                  *)
(* ===================================================================== *)

Section HostCalls.

Import Loop.

Variable host : string -> bool.

Lemma outbound_to_of_app (es es' : list event) :
  outbound_to_of host (es ++ es')
  = outbound_to_of host es + outbound_to_of host es'.
Proof. unfold outbound_to_of. rewrite map_app. apply zsum_app. Qed.

Lemma outbound_to_of_cons (e : event) (es : list event) :
  outbound_to_of host (e :: es)
  = outbound_delta_to host e + outbound_to_of host es.
Proof. reflexivity. Qed.

Lemma held_of_cons (e : event) (es : list event) :
  held_of (e :: es) = held_delta e + held_of es.
Proof. reflexivity. Qed.

(** Within a sequence of calls at most one is open, and no permit is
    taken. *)
Lemma calls_open (body : list event) :
  calls body ->
  forall k,
    outbound_to_of host (firstn k body) <= 1
    /\ held_of (firstn k body) = 0.
Proof.
  induction 1 as [|url rest _ IH]; intros k.
  - rewrite firstn_nil. split; [cbn; lia|reflexivity].
  - destruct k as [|[|k]].
    + split; [cbn; lia|reflexivity].
    + cbn [firstn]. rewrite outbound_to_of_cons, held_of_cons.
      cbn [outbound_delta_to held_delta].
      change (outbound_to_of host []) with 0. change (held_of []) with 0.
      destruct (host url); split; lia.
    + cbn [firstn]. rewrite !outbound_to_of_cons, !held_of_cons.
      cbn [outbound_delta_to held_delta].
      destruct (IH k) as [Hopen Hheld]. destruct (host url); split; lia.
Qed.

Lemma calls_closed (body : list event) :
  calls body -> outbound_to_of host body = 0 /\ held_of body = 0.
Proof.
  induction 1 as [|url rest _ [IHo IHh]]; [split; reflexivity|].
  rewrite !outbound_to_of_cons, !held_of_cons.
  cbn [outbound_delta_to held_delta]. destruct (host url); split; lia.
Qed.

Lemma guarded_closed (es : list event) :
  guarded host es -> outbound_to_of host es = 0 /\ held_of es = 0.
Proof.
  induction 1 as [|body rest Hbody _ [IHo IHh]|url rest Hurl _ [IHo IHh]
                  |filter update rest _ [IHo IHh]|entry rest _ [IHo IHh]].
  - split; reflexivity.
  - destruct (calls_closed body Hbody) as [Ho Hh].
    rewrite outbound_to_of_cons, held_of_cons, outbound_to_of_app, held_of_app.
    rewrite outbound_to_of_cons, held_of_cons.
    cbn [outbound_delta_to held_delta]. split; lia.
  - rewrite !outbound_to_of_cons, !held_of_cons.
    cbn [outbound_delta_to held_delta]. rewrite Hurl. split; lia.
  - rewrite outbound_to_of_cons, held_of_cons.
    cbn [outbound_delta_to held_delta]. split; lia.
  - rewrite outbound_to_of_cons, held_of_cons.
    cbn [outbound_delta_to held_delta]. split; lia.
Qed.

(** At every point of guarded events the calls to [host] that are open
    are covered by permits held. *)
Lemma guarded_prefix (es : list event) :
  guarded host es ->
  forall k, outbound_to_of host (firstn k es) <= held_of (firstn k es).
Proof.
  induction 1 as [|body rest Hbody _ IH|url rest Hurl _ IH
                  |filter update rest _ IH|entry rest _ IH]; intros k.
  - rewrite firstn_nil. reflexivity.
  - destruct k as [|k]; [reflexivity|].
    cbn [firstn]. rewrite firstn_app.
    rewrite outbound_to_of_cons, held_of_cons, outbound_to_of_app, held_of_app.
    cbn [outbound_delta_to held_delta].
    destruct (calls_open body Hbody k) as [Hopen Hheld].
    destruct (k - length body)%nat as [|j] eqn:Hj.
    + cbn [firstn]. change (outbound_to_of host []) with 0.
      change (held_of []) with 0. lia.
    + assert (Hall : firstn k body = body) by (apply firstn_all2; lia).
      rewrite Hall in *.
      destruct (calls_closed body Hbody) as [Ho Hh].
      cbn [firstn]. rewrite outbound_to_of_cons, held_of_cons.
      cbn [outbound_delta_to held_delta]. specialize (IH j). lia.
  - destruct k as [|[|k]].
    + reflexivity.
    + cbn [firstn]. rewrite outbound_to_of_cons, held_of_cons.
      cbn [outbound_delta_to held_delta]. rewrite Hurl. reflexivity.
    + cbn [firstn]. rewrite !outbound_to_of_cons, !held_of_cons.
      cbn [outbound_delta_to held_delta]. rewrite Hurl.
      specialize (IH k). lia.
  - destruct k as [|k]; [reflexivity|].
    cbn [firstn]. rewrite outbound_to_of_cons, held_of_cons.
    cbn [outbound_delta_to held_delta]. specialize (IH k). lia.
  - destruct k as [|k]; [reflexivity|].
    cbn [firstn]. rewrite outbound_to_of_cons, held_of_cons.
    cbn [outbound_delta_to held_delta]. specialize (IH k). lia.
Qed.

Lemma guarded_app (es es' : list event) :
  guarded host es -> guarded host es' -> guarded host (es ++ es').
Proof.
  intros H H'.
  induction H as [|body rest Hbody _ IH|url rest Hurl _ IH
                  |filter update rest _ IH|entry rest _ IH]; cbn [app].
  - exact H'.
  - rewrite <- app_assoc. cbn [app]. constructor; assumption.
  - constructor; assumption.
  - constructor; assumption.
  - constructor; assumption.
Qed.

Lemma covered_to_spawn (script : list event) :
  guarded host script -> covered_to host (spawn script).
Proof. intros Hg k. exact (guarded_prefix script Hg k). Qed.

Lemma advance_covered_to (p p' : nat) (c c' : coroutine) :
  advance p c = Some (p', c') -> covered_to host c -> covered_to host c'.
Proof.
  intros Hadv Hc.
  destruct (advance_spec _ _ _ _ Hadv) as (e & rest & Hp & -> & _).
  intros k. cbn [performed pending]. specialize (Hc (S k)).
  rewrite Hp in Hc. cbn [firstn] in Hc.
  rewrite <- app_assoc. exact Hc.
Qed.

(** A step of the loop keeps the permits accounted for and every
    coroutine covered. *)
Lemma covered_to_step (value i : nat) (s s' : state) :
  step i s = Some s' ->
  Z.of_nat (permits s) + held s = Z.of_nat value
  /\ Forall (covered_to host) (coroutines s) ->
  Z.of_nat (permits s') + held s' = Z.of_nat value
  /\ Forall (covered_to host) (coroutines s').
Proof.
  unfold step.
  destruct (nth_error (coroutines s) i) as [c|] eqn:Hnth; [|discriminate].
  destruct (advance (permits s) c) as [[p c']|] eqn:Hadv; [|discriminate].
  pose proof (nth_error_firstn_skipn _ _ _ Hnth) as Hsplit.
  set (before := firstn i (coroutines s)) in *.
  set (after := skipn (S i) (coroutines s)) in *.
  intros H [Hsum Hcov].
  assert (Hs' : s' = {| permits := p; coroutines := before ++ c' :: after |})
    by congruence.
  clear H. subst s'.
  destruct (advance_spec _ _ _ _ Hadv) as (e & rest & Hp & Hc' & Hperm).
  unfold held in *. cbn [permits coroutines].
  rewrite Hsplit in Hsum, Hcov.
  rewrite map_app, zsum_app in Hsum |- *.
  cbn [map] in Hsum |- *. rewrite zsum_cons in Hsum |- *.
  split.
  - rewrite Hc'. cbn [performed]. rewrite held_of_app.
    change (held_of [e]) with (held_delta e + 0). lia.
  - apply Forall_app in Hcov. destruct Hcov as [H1 H2].
    apply Forall_app. split; [exact H1|].
    inversion H2 as [|? ? Hc Hrest]; subst. constructor; [|exact Hrest].
    eapply advance_covered_to; eassumption.
Qed.

Lemma covered_to_run (value : nat) (schedule : list nat) :
  forall s s',
    run schedule s = Some s' ->
    Z.of_nat (permits s) + held s = Z.of_nat value
    /\ Forall (covered_to host) (coroutines s) ->
    Z.of_nat (permits s') + held s' = Z.of_nat value
    /\ Forall (covered_to host) (coroutines s').
Proof.
  induction schedule as [|i rest IH]; intros s s' Hrun Hb; cbn [run] in Hrun.
  - injection Hrun as <-. exact Hb.
  - destruct (step i s) as [s1|] eqn:Hstep; [|discriminate].
    eapply IH; [exact Hrun|]. eapply covered_to_step; eassumption.
Qed.

(** Whatever the schedule, coroutines that call [host] under the
    semaphore only never have more calls to it open than the semaphore
    had permits. *)
Lemma guarded_bound (value : nat) (scripts : list (list event)) (s : state) :
  Forall (guarded host) scripts ->
  reachable (start value scripts) s ->
  outbound_to host s <= Z.of_nat value.
Proof.
  intros Hg [schedule Hrun].
  assert (Hstart : Z.of_nat (permits (start value scripts))
                   + held (start value scripts) = Z.of_nat value
                   /\ Forall (covered_to host) (coroutines (start value scripts))).
  { split.
    - unfold held. cbn [start permits coroutines].
      assert (Hzero : zsum (map (fun c => held_of (performed c))
                              (map spawn scripts)) = 0).
      { clear Hg Hrun. induction scripts as [|x xs IH]; [reflexivity|].
        cbn [map]. unfold zsum in *. cbn [fold_right]. rewrite IH. reflexivity. }
      rewrite Hzero. lia.
    - cbn [start coroutines]. clear Hrun.
      induction Hg as [|x xs Hx _ IH]; constructor.
      + apply covered_to_spawn, Hx.
      + exact IH. }
  destruct (covered_to_run value schedule _ _ Hrun Hstart) as [Hsum Hcov].
  assert (Hle : outbound_to host s <= held s).
  { unfold outbound_to, held. clear Hsum Hrun Hstart.
    induction Hcov as [|c cs Hc _ IH]; [reflexivity|].
    cbn [map]. unfold zsum in *. cbn [fold_right].
    specialize (Hc O). cbn [firstn] in Hc. rewrite app_nil_r in Hc. lia. }
  lia.
Qed.

(** The events of the combinators. *)
Lemma guarded_ret {A} (a : A) : guarded host (fst (ret a)).
Proof. constructor. Qed.

Lemma guarded_lift {A} (o : outcome A) : guarded host (fst (lift o)).
Proof. constructor. Qed.

Lemma guarded_request {A} (w : world) (url : string)
    (body : response -> outcome A) :
  host url = false -> guarded host (fst (request w url body)).
Proof. intros Hurl. cbn [request fst]. repeat constructor. exact Hurl. Qed.

Lemma guarded_with_semaphore {A} (m : task A) :
  calls (fst m) -> guarded host (fst (with_semaphore m)).
Proof.
  intros Hm. unfold with_semaphore. cbn [fst].
  constructor; [exact Hm|constructor].
Qed.

Lemma guarded_bind {A B} (m : task A) (f : A -> task B) :
  guarded host (fst m) -> (forall a, guarded host (fst (f a))) ->
  guarded host (fst (Async.bind m f)).
Proof.
  intros Hm Hf. unfold Async.bind. destruct (snd m) as [e|a]; cbn [fst].
  - exact Hm.
  - apply guarded_app; [exact Hm|apply Hf].
Qed.

Lemma guarded_try_except {A} (m : task A) (handler : exn -> task A) :
  guarded host (fst m) -> (forall e, guarded host (fst (handler e))) ->
  guarded host (fst (try_except m handler)).
Proof.
  intros Hm Hh. unfold try_except. destruct (snd m) as [e|a]; cbn [fst].
  - apply guarded_app; [exact Hm|apply Hh].
  - exact Hm.
Qed.

End HostCalls.

Section UpdaterScripts.

Import Loop.

Create HintDb guarded discriminated.
#[local] Hint Resolve guarded_ret guarded_lift guarded_bind guarded_try_except
  guarded_with_semaphore calls_request : guarded.

(** The usage statistics are asked of another host than npm's. *)
Lemma ecosystem_request_elsewhere (package_name : value) :
  npm (Updater.ecosystem_request package_name) = false.
Proof. reflexivity. Qed.

Lemma guarded_fetch_ecosystem_stats (w : world) (package_name : value) :
  guarded npm (fst (Updater.fetch_ecosystem_stats w package_name)).
Proof.
  unfold Updater.fetch_ecosystem_stats.
  apply guarded_try_except; [|auto with guarded].
  apply guarded_request, ecosystem_request_elsewhere.
Qed.

Lemma guarded_fetch_weekly_trends (w : world) (package_name : value) :
  guarded npm (fst (Updater.fetch_weekly_trends w package_name)).
Proof.
  unfold Updater.fetch_weekly_trends.
  apply guarded_try_except; [|auto with guarded].
  apply guarded_bind; [auto with guarded|]. intros [start_date end_date].
  apply guarded_bind; [auto with guarded|].
  intros [returned|download_data]; auto with guarded.
Qed.

#[local] Hint Resolve guarded_fetch_ecosystem_stats
  guarded_fetch_weekly_trends : guarded.

(** The events of [update_package_info]: the registry and the downloads
    API are called under the semaphore, ecosyste.ms without it. *)
Lemma guarded_update_package_info (w : world) (package_doc : value) :
  guarded npm (fst (Updater.update_package_info w package_doc)).
Proof.
  unfold Updater.update_package_info.
  apply guarded_bind; [auto with guarded|]. intros package_name.
  apply guarded_try_except;
    [|intros e; cbn [fst]; constructor; constructor].
  apply guarded_bind; [auto with guarded|]. intros data.
  apply guarded_bind; [auto with guarded|]. intros ecosystem_stats.
  apply guarded_bind; [auto with guarded|]. intros failed.
  destruct (truthy failed); [auto with guarded|].
  apply guarded_bind; [auto with guarded|]. intros weekly_stats.
  apply guarded_bind; [auto with guarded|]. intros failed'.
  destruct (truthy failed'); [auto with guarded|].
  apply guarded_bind; [auto with guarded|]. intros fields.
  cbn [fst]. constructor. constructor.
Qed.

End UpdaterScripts.

(** X13.  In a batch of the updater no more than ten calls to the hosts
    of npm (the registry and the downloads API) execute at any point of
    any schedule: [update_package_info] and [fetch_weekly_trends] make
    them while holding the semaphore; only the calls to ecosyste.ms are
    made without it. *)
Theorem updater_npm_calls_bound (w : world) (packages : list value)
    (s : Loop.state) :
  Loop.reachable
    (Loop.start Updater.semaphore (Updater.scripts w packages)) s ->
  outbound_to npm s <= 10.
Proof.
  intros Hreach.
  apply (guarded_bound npm Updater.semaphore (Updater.scripts w packages) s);
    [|exact Hreach].
  unfold Updater.scripts. apply Forall_forall. intros script Hin.
  apply in_map_iff in Hin. destruct Hin as (package_doc & <- & _).
  apply guarded_update_package_info.
Qed.

Lemma updater_npm_calls_bound_witness :
  exists s,
    Loop.reachable
      (Loop.start Updater.semaphore
         (Updater.scripts (Examples.healthy Examples.refresh_window)
            Examples.eleven_packages)) s
    /\ Loop.outbound s = 11
    /\ outbound_to npm s = 10
    /\ outbound_to npm s <= 10.
Proof.
  set (s0 := Loop.start Updater.semaphore
               (Updater.scripts (Examples.healthy Examples.refresh_window)
                  Examples.eleven_packages)).
  destruct (Loop.run (Examples.first_wave ++ Examples.first_answer) s0)
    as [s|] eqn:Hrun; [|vm_compute in Hrun; discriminate Hrun].
  assert (Hreach : Loop.reachable s0 s)
    by (exists (Examples.first_wave ++ Examples.first_answer); exact Hrun).
  exists s. split; [exact Hreach|].
  split; [vm_compute in Hrun; injection Hrun as <-; reflexivity|].
  split; [vm_compute in Hrun; injection Hrun as <-; reflexivity|].
  exact (updater_npm_calls_bound _ _ _ Hreach).
Defined.

(* ===================================================================== *)
(** ** The failure the updater records                                    *)
(* ===================================================================== *)

Section UpdaterFailures.

Variables (w : world) (package_name : value).

(** A failing usage-statistics request makes the updater's
    [fetch_ecosystem_stats] return an error dictionary with the text of
    the failure. *)
Lemma updater_fetch_ecosystem_stats_failure (msg : string) :
  failure_text w (Updater.ecosystem_request package_name)
    "Failed to fetch ecosystem stats: " = Some msg ->
  Updater.fetch_ecosystem_stats w package_name =
  ([Start (Updater.ecosystem_request package_name);
    Finish (Updater.ecosystem_request package_name)],
   Return (VDict [("error", VStr msg)])).
Proof.
  unfold failure_text, Updater.fetch_ecosystem_stats, try_except, request.
  cbn [fst snd].
  destruct (http_get w _) as [e|r]; cbn [Py.bind fst snd ret app].
  - intros H. injection H as <-. reflexivity.
  - destruct (status r =? 200); cbn [negb Py.bind fst snd ret app].
    + destruct (json r) as [e|data]; cbn [Py.bind fst snd ret app];
        [|discriminate].
      intros H. injection H as <-. reflexivity.
    + intros H. injection H as <-. reflexivity.
Qed.

Lemma updater_fetch_ecosystem_stats_success (body : list (string * value)) :
  responds w (Updater.ecosystem_request package_name) (VDict body) ->
  Updater.fetch_ecosystem_stats w package_name =
  ([Start (Updater.ecosystem_request package_name);
    Finish (Updater.ecosystem_request package_name)],
   Return (ecosystem_stats (field_or "downloads" (VInt 0) body)
             (field_or "dependent_packages_count" (VInt 0) body))).
Proof.
  intros Hresp. destruct (responds_status _ _ _ Hresp) as (r & Hget & Hstatus & Hjson).
  unfold Updater.fetch_ecosystem_stats, try_except, request. cbn [fst snd].
  rewrite Hget. cbn [Py.bind]. rewrite Hstatus, Hjson. reflexivity.
Qed.

(** A failing time-series request makes the updater's
    [fetch_weekly_trends] return an error dictionary with the text of the
    failure, the semaphore released. *)
Lemma updater_fetch_weekly_trends_failure (start_date end_date : Z) (msg : string) :
  Updater.get_week_boundaries w = Return (start_date, end_date) ->
  failure_text w (Updater.downloads_request start_date end_date package_name)
    "Failed to fetch download stats: " = Some msg ->
  Updater.fetch_weekly_trends w package_name =
  ([Acquire;
    Start (Updater.downloads_request start_date end_date package_name);
    Finish (Updater.downloads_request start_date end_date package_name);
    Release],
   Return (VDict [("error", VStr msg)])).
Proof.
  intros Hbounds. unfold failure_text, Updater.fetch_weekly_trends.
  rewrite Hbounds. unfold try_except, Async.bind, with_semaphore, request, lift.
  cbn [fst snd app].
  destruct (http_get w _) as [e|r]; cbn [Py.bind fst snd ret app].
  - intros H. injection H as <-. reflexivity.
  - destruct (status r =? 200); cbn [negb Py.bind fst snd ret app].
    + destruct (json r) as [e|data]; cbn [Py.bind fst snd ret app];
        [|discriminate].
      intros H. injection H as <-. reflexivity.
    + intros H. injection H as <-. reflexivity.
Qed.

End UpdaterFailures.

(** X14.  The entry [update_package_info] appends to
    [self.failed_updates] carries the text of the first failing request,
    and no request is made after it.  A failing registry request (an
    exception, a status other than 200, a body that does not decode) is
    recorded with its text.  With the registry document fetched, a
    failing usage-statistics request is recorded with its text, and with
    the usage statistics fetched too, a failing time-series request is,
    provided the text is not empty.  Nothing is written to the
    collection. *)
Theorem updater_first_failure_recorded (w : world) (package_doc : value)
    (package_name : string) :
  getitem package_doc (VStr "name") = Return (VStr package_name) ->
  (forall msg,
      failure_text w (Updater.registry_request (VStr package_name))
        "Failed to fetch package info: " = Some msg ->
      Updater.update_package_info w package_doc =
      ([Acquire;
        Start (Updater.registry_request (VStr package_name));
        Finish (Updater.registry_request (VStr package_name));
        Release;
        failed_update (now w) package_name msg],
       Return tt))
  /\ (forall msg,
        failure_text w (Updater.registry_request (VStr package_name))
          "Failed to fetch package info: " = None ->
        failure_text w (Updater.ecosystem_request (VStr package_name))
          "Failed to fetch ecosystem stats: " = Some msg ->
        msg <> "" ->
        Updater.update_package_info w package_doc =
        ([Acquire;
          Start (Updater.registry_request (VStr package_name));
          Finish (Updater.registry_request (VStr package_name));
          Release;
          Start (Updater.ecosystem_request (VStr package_name));
          Finish (Updater.ecosystem_request (VStr package_name));
          failed_update (now w) package_name msg],
         Return tt))
  /\ (forall msg body start_date end_date,
        failure_text w (Updater.registry_request (VStr package_name))
          "Failed to fetch package info: " = None ->
        responds w (Updater.ecosystem_request (VStr package_name)) (VDict body) ->
        Updater.get_week_boundaries w = Return (start_date, end_date) ->
        failure_text w
          (Updater.downloads_request start_date end_date (VStr package_name))
          "Failed to fetch download stats: " = Some msg ->
        msg <> "" ->
        Updater.update_package_info w package_doc =
        ([Acquire;
          Start (Updater.registry_request (VStr package_name));
          Finish (Updater.registry_request (VStr package_name));
          Release;
          Start (Updater.ecosystem_request (VStr package_name));
          Finish (Updater.ecosystem_request (VStr package_name));
          Acquire;
          Start (Updater.downloads_request start_date end_date (VStr package_name));
          Finish (Updater.downloads_request start_date end_date (VStr package_name));
          Release;
          failed_update (now w) package_name msg],
         Return tt)).
Proof.
  intros Hname. split; [|split].
  - intros msg. unfold failure_text, Updater.update_package_info.
    rewrite Hname. unfold request. cbn [Async.bind lift fst snd app].
    destruct (http_get w (Updater.registry_request (VStr package_name))) as [e|r].
    + intros H. injection H as <-. reflexivity.
    + run_pipeline. destruct (status r =? 200); run_pipeline.
      * destruct (json r) as [e|data]; run_pipeline; [|discriminate].
        intros H. injection H as <-. reflexivity.
      * intros H. injection H as <-. reflexivity.
  - intros msg Hreg Hstats Hmsg.
    destruct (failure_text_none _ _ _ Hreg) as (r & data & Hget & Hstatus & Hjson).
    unfold Updater.update_package_info. rewrite Hname. unfold request.
    cbn [Async.bind lift fst snd app]. rewrite Hget. run_pipeline. rewrite Hstatus, Hjson. run_pipeline.
    rewrite (updater_fetch_ecosystem_stats_failure _ _ _ Hstats). run_pipeline.
    rewrite (proj2 (String.eqb_neq _ _) Hmsg). reflexivity.
  - intros msg body start_date end_date Hreg Hstats Hbounds Htrends Hmsg.
    destruct (failure_text_none _ _ _ Hreg) as (r & data & Hget & Hstatus & Hjson).
    unfold Updater.update_package_info. rewrite Hname. unfold request.
    cbn [Async.bind lift fst snd app]. rewrite Hget. run_pipeline. rewrite Hstatus, Hjson. run_pipeline.
    rewrite (updater_fetch_ecosystem_stats_success _ _ _ Hstats). run_pipeline.
    rewrite (updater_fetch_weekly_trends_failure _ _ _ _ _ Hbounds Htrends).
    run_pipeline.
    rewrite (proj2 (String.eqb_neq _ _) Hmsg). reflexivity.
Qed.

Lemma updater_first_failure_recorded_witness :
  getitem (Examples.package_doc "left-pad") (VStr "name")
  = Return (VStr "left-pad")
  /\ failure_text Examples.untagged_without_stats
       (Updater.registry_request (VStr "left-pad"))
       "Failed to fetch package info: "
     = None
  /\ failure_text Examples.untagged_without_stats
       (Updater.ecosystem_request (VStr "left-pad"))
       "Failed to fetch ecosystem stats: "
     = Some "Failed to fetch ecosystem stats: 404"
  /\ Updater.update_package_info Examples.untagged_without_stats
       (Examples.package_doc "left-pad")
     = ([Acquire;
         Start (Updater.registry_request (VStr "left-pad"));
         Finish (Updater.registry_request (VStr "left-pad"));
         Release;
         Start (Updater.ecosystem_request (VStr "left-pad"));
         Finish (Updater.ecosystem_request (VStr "left-pad"));
         failed_update Examples.today "left-pad"
           "Failed to fetch ecosystem stats: 404"],
        Return tt).
Proof.
  split; [reflexivity|]. split; [reflexivity|]. split; [reflexivity|].
  destruct (updater_first_failure_recorded Examples.untagged_without_stats
              (Examples.package_doc "left-pad") "left-pad")
    as (_ & Hstats & _); [reflexivity|].
  apply (Hstats "Failed to fetch ecosystem stats: 404");
    [reflexivity|reflexivity|discriminate].
Defined.

(* ===================================================================== *)
(** ** What a write of the updater presupposes                            *)
(* ===================================================================== *)

Section UpdaterWrites.

Create HintDb effects discriminated.
#[local] Hint Resolve quiet_ret quiet_lift quiet_request quiet_with_semaphore
  quiet_bind quiet_try_except quiet_fetch_ecosystem_stats
  quiet_fetch_weekly_trends : effects.

Lemma bind_returns {A B} (m : task A) (f : A -> task B) (b : B) :
  snd (Async.bind m f) = Return b ->
  exists a, snd m = Return a /\ snd (f a) = Return b.
Proof.
  unfold Async.bind. destruct (snd m) as [e|a]; cbn [snd]; [discriminate|].
  intros H. exists a. split; [reflexivity|exact H].
Qed.

Ltac raise_in H :=
  repeat (match type of H with
          | context [Py.bind ?m _] =>
              destruct m eqn:?; cbn [Py.bind] in H; try discriminate H
          | context [if ?b then _ else _] =>
              destruct b eqn:?; cbn [Py.bind] in H; try discriminate H
          end).

(** The fields of the update need the figures of the usage statistics
    and the weekly trends: an error dictionary in place of either makes
    lines 117-134 raise. *)
Lemma update_fields_needs_stats (w : world)
    (package_name data weekly_stats error fields : value) :
  Updater.update_fields w package_name data (VDict [("error", error)])
    weekly_stats <> Return fields.
Proof.
  intros H. unfold Updater.update_fields in H. raise_in H.
  match goal with
  | Hkey : getitem (VDict [("error", _)]) _ = Return _ |- _ =>
      cbn in Hkey; discriminate Hkey
  end.
Qed.

Lemma update_fields_needs_trends (w : world)
    (package_name data ecosystem_stats error fields : value) :
  Updater.update_fields w package_name data ecosystem_stats
    (VDict [("error", error)]) <> Return fields.
Proof.
  intros H. unfold Updater.update_fields in H. raise_in H.
  match goal with
  | Hkey : getitem (VDict [("error", _)]) _ = Return _ |- _ =>
      cbn in Hkey; discriminate Hkey
  end.
Qed.

(** When [update_package_info] writes, its three fetches have returned
    and the fields were composed from what they returned. *)
Lemma update_package_info_written (w : world) (package_doc package_name : value) :
  getitem package_doc (VStr "name") = Return package_name ->
  writes (fst (Updater.update_package_info w package_doc)) = 1%nat ->
  exists data ecosystem_stats weekly_stats fields,
    Py.bind (http_get w (Updater.registry_request package_name))
      (fun response =>
         if negb (status response =? 200) then
           Raise (Exception (VStr ("Failed to fetch package info: "
                                     +:+ decimal (status response))))
         else json response) = Return data
    /\ snd (Updater.fetch_ecosystem_stats w package_name) = Return ecosystem_stats
    /\ snd (Updater.fetch_weekly_trends w package_name) = Return weekly_stats
    /\ Updater.update_fields w package_name data ecosystem_stats weekly_stats
       = Return fields.
Proof.
  intros Hname. unfold Updater.update_package_info.
  rewrite (bind_return _ _ package_name) by exact Hname.
  cbv beta. cbn [lift fst snd app].
  match goal with
  | |- context [try_except ?m _] => set (body := m)
  end.
  assert (Hbody : writes_once_or_raises body).
  { subst body.
    apply writes_once_bind; [auto with effects|]. intros data.
    apply writes_once_bind; [auto with effects|]. intros ecosystem_stats.
    apply writes_once_bind; [auto with effects|]. intros failed.
    destruct (truthy failed).
    - apply writes_once_bind; [auto with effects|]. intros error_msg.
      apply writes_once_raise.
    - apply writes_once_bind; [auto with effects|]. intros weekly_stats.
      apply writes_once_bind; [auto with effects|]. intros failed'.
      destruct (truthy failed').
      + apply writes_once_bind; [auto with effects|]. intros error_msg.
        apply writes_once_raise.
      + apply writes_once_bind; [auto with effects|]. intros fields.
        right. repeat split; reflexivity. }
  unfold try_except.
  destruct Hbody as [(e & Hraise & [Hw Hf])|(Hret & _ & _)].
  - rewrite Hraise. cbn [fst snd]. rewrite writes_app, Hw. discriminate.
  - intros _. subst body.
    apply bind_returns in Hret. destruct Hret as (data & Hdata & Hret).
    apply bind_returns in Hret. destruct Hret as (ecosystem_stats & Hstats & Hret).
    apply bind_returns in Hret. destruct Hret as (failed & _ & Hret).
    destruct (truthy failed).
    { apply bind_returns in Hret. destruct Hret as (? & _ & Hret).
      discriminate Hret. }
    apply bind_returns in Hret. destruct Hret as (weekly_stats & Htrends & Hret).
    apply bind_returns in Hret. destruct Hret as (failed' & _ & Hret).
    destruct (truthy failed').
    { apply bind_returns in Hret. destruct Hret as (? & _ & Hret).
      discriminate Hret. }
    apply bind_returns in Hret. destruct Hret as (fields & Hfields & _).
    exists data, ecosystem_stats, weekly_stats, fields.
    repeat split; assumption.
Qed.

End UpdaterWrites.

(** X15.  [update_package_info] writes to the collection only when the
    three requests were answered: the registry, the usage statistics and
    the time series each with status 200 and a body that decodes, for a
    window that [get_week_boundaries] could compute.  A failure of any of
    them, whatever its text, leaves the document of the package as it
    was. *)
Theorem update_written_after_three_answers (w : world)
    (package_doc package_name : value) :
  getitem package_doc (VStr "name") = Return package_name ->
  writes (fst (Updater.update_package_info w package_doc)) = 1%nat ->
  failure_text w (Updater.registry_request package_name)
    "Failed to fetch package info: " = None
  /\ failure_text w (Updater.ecosystem_request package_name)
       "Failed to fetch ecosystem stats: " = None
  /\ exists start_date end_date,
       Updater.get_week_boundaries w = Return (start_date, end_date)
       /\ failure_text w
            (Updater.downloads_request start_date end_date package_name)
            "Failed to fetch download stats: " = None.
Proof.
  intros Hname Hwrites.
  destruct (update_package_info_written w package_doc package_name Hname Hwrites)
    as (data & ecosystem_stats & weekly_stats & fields
        & Hdata & Hstats & Htrends & Hfields).
  split; [|split].
  - unfold failure_text.
    destruct (http_get w (Updater.registry_request package_name)) as [e|r];
      cbn [Py.bind] in Hdata; [discriminate Hdata|].
    destruct (negb (status r =? 200)); [discriminate Hdata|].
    rewrite Hdata. reflexivity.
  - destruct (failure_text w (Updater.ecosystem_request package_name)
                "Failed to fetch ecosystem stats: ") as [msg|] eqn:Hfail;
      [|reflexivity].
    rewrite (updater_fetch_ecosystem_stats_failure _ _ _ Hfail) in Hstats.
    cbn [snd] in Hstats. injection Hstats as <-.
    exfalso. exact (update_fields_needs_stats _ _ _ _ _ _ Hfields).
  - destruct (Updater.get_week_boundaries w) as [e|[start_date end_date]]
      eqn:Hbounds.
    + unfold Updater.fetch_weekly_trends in Htrends. rewrite Hbounds in Htrends.
      cbn [try_except Async.bind lift ret fst snd] in Htrends.
      injection Htrends as <-.
      exfalso. exact (update_fields_needs_trends _ _ _ _ _ _ Hfields).
    + exists start_date, end_date. split; [reflexivity|].
      destruct (failure_text w
                  (Updater.downloads_request start_date end_date package_name)
                  "Failed to fetch download stats: ") as [msg|] eqn:Hfail;
        [|reflexivity].
      rewrite (updater_fetch_weekly_trends_failure _ _ _ _ _ Hbounds Hfail)
        in Htrends.
      cbn [snd] in Htrends. injection Htrends as <-.
      exfalso. exact (update_fields_needs_trends _ _ _ _ _ _ Hfields).
Qed.

Lemma update_written_after_three_answers_witness :
  getitem (Examples.package_doc "left-pad") (VStr "name")
  = Return (VStr "left-pad")
  /\ writes (fst (Updater.update_package_info
                    (Examples.healthy Examples.refresh_window)
                    (Examples.package_doc "left-pad"))) = 1%nat
  /\ failure_text (Examples.healthy Examples.refresh_window)
       (Updater.ecosystem_request (VStr "left-pad"))
       "Failed to fetch ecosystem stats: " = None.
Proof.
  assert (Hname : getitem (Examples.package_doc "left-pad") (VStr "name")
                  = Return (VStr "left-pad")) by reflexivity.
  assert (Hwrites : writes (fst (Updater.update_package_info
                                   (Examples.healthy Examples.refresh_window)
                                   (Examples.package_doc "left-pad"))) = 1%nat)
    by (vm_compute; reflexivity).
  split; [exact Hname|]. split; [exact Hwrites|].
  exact (proj1 (proj2 (update_written_after_three_answers _ _ _ Hname Hwrites))).
Defined.

(* ===================================================================== *)
(** ** What the calendar weeks add up to                                  *)
(* ===================================================================== *)

Section CalendarTotal.

Lemma firstn_sum {A} (a b : nat) (l : list A) :
  firstn (a + b) l = firstn a l ++ firstn b (skipn a l).
Proof.
  revert l. induction a as [|a IH]; intros l; [reflexivity|].
  destruct l as [|x l]; cbn [Nat.add firstn skipn app].
  - rewrite firstn_nil. reflexivity.
  - rewrite IH. reflexivity.
Qed.

Lemma weeks_total (n : nat) :
  forall (monday : Z) (counts : list Z),
    zsum (map snd (weeks n monday counts)) = zsum (firstn (7 * n) counts).
Proof.
  induction n as [|n IH]; intros monday counts; [reflexivity|].
  cbn [weeks map snd]. rewrite zsum_cons, IH.
  replace (7 * S n)%nat with (7 + 7 * n)%nat by lia.
  rewrite firstn_sum, zsum_app. reflexivity.
Qed.

End CalendarTotal.

(** X16.  The weekly buckets of the updater do not always add up to the
    daily counts: over a run of consecutive days that reaches a Monday,
    with its days before that Monday (up to six, or none) and its days
    from that Monday on, the downloads of the buckets add up to the
    counts of all the days but those after the last full
    Monday-to-Sunday week. *)
Theorem bucketize_calendar_total (download_data : list (string * value))
    (start : Z) (lead body : list Z) :
  holds_series download_data (consecutive start (lead ++ body)) ->
  1 <= start ->
  start + Z.of_nat (length (lead ++ body)) - 1 <= Datetime.MAXORDINAL ->
  (length lead < 7)%nat ->
  Datetime.weekday (start + Z.of_nat (length lead)) = 0 ->
  body <> [] ->
  exists buckets,
    Updater.bucketize (VDict download_data) = Return (map week_bucket buckets)
    /\ zsum (map snd buckets)
       = zsum (lead ++ firstn (7 * (length body / 7)) body).
Proof.
  intros Hholds Hstart Hend Hlead Hmonday Hbody.
  rewrite (bucketize_calendar download_data start lead body) by assumption.
  set (monday := start + Z.of_nat (length lead)).
  exists (match lead with
          | [] => []
          | _ :: _ => [(monday - 1, zsum lead)]
          end ++ full_weeks monday body).
  split.
  - rewrite map_app. destruct lead; reflexivity.
  - rewrite map_app, !zsum_app. unfold full_weeks. rewrite weeks_total.
    destruct lead as [|c lead]; [reflexivity|].
    cbn [map snd]. rewrite zsum_cons. change (zsum []) with 0. lia.
Qed.

Lemma bucketize_calendar_total_witness :
  holds_series
    (Examples.download_data
       (consecutive (Datetime.ymd2ord 2024 1 3) (repeat 2 5 ++ repeat 3 16)))
    (consecutive (Datetime.ymd2ord 2024 1 3) (repeat 2 5 ++ repeat 3 16))
  /\ exists buckets,
       Updater.bucketize
         (VDict (Examples.download_data
                   (consecutive (Datetime.ymd2ord 2024 1 3)
                      (repeat 2 5 ++ repeat 3 16))))
       = Return (map week_bucket buckets)
       /\ zsum (map snd buckets) = 52
       /\ zsum (repeat 2 5 ++ repeat 3 16) = 58.
Proof.
  assert (Hholds :
    holds_series
      (Examples.download_data
         (consecutive (Datetime.ymd2ord 2024 1 3) (repeat 2 5 ++ repeat 3 16)))
      (consecutive (Datetime.ymd2ord 2024 1 3) (repeat 2 5 ++ repeat 3 16)))
    by (left; reflexivity).
  split; [exact Hholds|].
  destruct (bucketize_calendar_total _ (Datetime.ymd2ord 2024 1 3)
              (repeat 2 5) (repeat 3 16) Hholds)
    as (buckets & Hrun & Htotal);
    [vm_compute; discriminate|vm_compute; discriminate
    |vm_compute; lia|reflexivity|discriminate|].
  exists buckets. split; [exact Hrun|].
  split; [rewrite Htotal; reflexivity|reflexivity].
Defined.

(* ===================================================================== *)
(** ** The version check and the failures before it                       *)
(* ===================================================================== *)

Section VersionCheck.

Variables (w : world) (package_name : string).








End VersionCheck.


